(** * A shallow embedding of the left-hand keyboard trainer
    (src/trainer_window.h, src/trainer_window.cpp).

    The development follows the C++ class [TrainerWindow]: the member
    variables that carry the training engine's state become one record,
    every member function that touches them becomes a state transformer
    with the same name, and the Qt event loop becomes a [step] function
    over an explicit event type.

    Modelling conventions.
    - [int] and [qint64] members are integers in [Z].  The counters are only
      ever incremented by one per key press, so signed overflow (undefined
      behaviour in C++) is outside the model.
    - [QString] is [string], [QChar] is [ascii]; [toLower]/[toUpper] fold
      the ASCII letters, which covers every text the catalog contains.
    - [QVector] is [list]; [QSet<int>] is a duplicate-free [list Z].
    - [Qt::Key] and [Qt::KeyboardModifiers] are the integer values of the Qt
      enumerations; modifier sets are combined with [Z.lor] and masked with
      [Z.land] as in the source.
    - [QElapsedTimer] is the instant of its last [restart()] (or [None] while
      invalid) read against the clock [now] kept in the state; [QTimer] is
      its active flag, and its timeouts arrive as [EvTick] events.
    - [QRandomGenerator::global()->bounded(n)] takes its raw draw as an
      argument of the event that triggers it.
    - Widgets are represented by what the engine puts on them: the error
      label and the target label are small inductive types, one constructor
      per message of the source.  Button enabling, the progress bar, the
      virtual keyboard, sounds, themes and the [QSettings] store
      ([SaveHistory] and [SaveSettings] write out what the state holds) are
      left out.  *)

From Stdlib Require Import ZArith List Bool String Ascii Lia QArith.
Import ListNotations.
Local Open Scope Z_scope.

(** ** Qt enumerations used by the trainer *)

Module Qt.
Definition NoModifier      : Z := 0x00000000.
Definition ShiftModifier   : Z := 0x02000000.
Definition ControlModifier : Z := 0x04000000.
Definition AltModifier     : Z := 0x08000000.
Definition MetaModifier    : Z := 0x10000000.
Definition KeypadModifier  : Z := 0x20000000.

Definition Key_Escape     : Z := 0x01000000.
Definition Key_Tab        : Z := 0x01000001.
Definition Key_Backtab    : Z := 0x01000002.
Definition Key_Shift      : Z := 0x01000020.
Definition Key_Control    : Z := 0x01000021.
Definition Key_Meta       : Z := 0x01000022.
Definition Key_Alt        : Z := 0x01000023.
Definition Key_CapsLock   : Z := 0x01000024.
Definition Key_F1         : Z := 0x01000030.
Definition Key_F2         : Z := 0x01000031.
Definition Key_F3         : Z := 0x01000032.
Definition Key_F4         : Z := 0x01000033.
Definition Key_F5         : Z := 0x01000034.
Definition Key_F6         : Z := 0x01000035.
Definition Key_F7         : Z := 0x01000036.
Definition Key_F8         : Z := 0x01000037.
Definition Key_Space      : Z := 0x20.
Definition Key_Exclam     : Z := 0x21.
Definition Key_NumberSign : Z := 0x23.
Definition Key_Dollar     : Z := 0x24.
Definition Key_Percent    : Z := 0x25.
Definition Key_0          : Z := 0x30.
Definition Key_At         : Z := 0x40.
Definition Key_A          : Z := 0x41.
Definition Key_C          : Z := 0x43.
Definition Key_D          : Z := 0x44.
Definition Key_E          : Z := 0x45.
Definition Key_F          : Z := 0x46.
Definition Key_Q          : Z := 0x51.
Definition Key_R          : Z := 0x52.
Definition Key_S          : Z := 0x53.
Definition Key_V          : Z := 0x56.
Definition Key_W          : Z := 0x57.
Definition Key_X          : Z := 0x58.
Definition Key_Z          : Z := 0x5a.
End Qt.

(** ** QString / QChar helpers *)

Definition QChar := ascii.
Definition QString := string.
Bind Scope string_scope with QString.

Definition char_toLower (c : QChar) : QChar :=
  let n := nat_of_ascii c in
  if (65 <=? n)%nat && (n <=? 90)%nat then ascii_of_nat (n + 32) else c.

Definition char_toUpper (c : QChar) : QChar :=
  let n := nat_of_ascii c in
  if (97 <=? n)%nat && (n <=? 122)%nat then ascii_of_nat (n - 32) else c.

Fixpoint toLower (s : QString) : QString :=
  match s with
  | EmptyString => EmptyString
  | String c r => String (char_toLower c) (toLower r)
  end.

Fixpoint toUpper (s : QString) : QString :=
  match s with
  | EmptyString => EmptyString
  | String c r => String (char_toUpper c) (toUpper r)
  end.

(** [s.isEmpty()], [s.size()] and [s.at(i)]; [at_] is only ever called on
    an index the source has checked to be in range. *)
Definition isEmpty (s : QString) : bool :=
  match s with EmptyString => true | _ => false end.

Definition size (s : QString) : Z := Z.of_nat (String.length s).

Definition at_ (s : QString) (i : Z) : option QChar :=
  if i <? 0 then None else String.get (Z.to_nat i) s.

(** ** Enumerations and records of trainer_window.h *)

Inductive Difficulty := kBeginner | kIntermediate | kAdvanced | kCustom.
Inductive TrainingMode := kEndless | kTimed | kChallenge | kZen.
Inductive TrainingType := kSingleKey | kCombo | kSequence | kSpecialKey.

Definition Difficulty_eqb (a b : Difficulty) : bool :=
  match a, b with
  | kBeginner, kBeginner | kIntermediate, kIntermediate
  | kAdvanced, kAdvanced | kCustom, kCustom => true
  | _, _ => false
  end.

Definition TrainingMode_eqb (a b : TrainingMode) : bool :=
  match a, b with
  | kEndless, kEndless | kTimed, kTimed
  | kChallenge, kChallenge | kZen, kZen => true
  | _, _ => false
  end.

Definition TrainingType_eqb (a b : TrainingType) : bool :=
  match a, b with
  | kSingleKey, kSingleKey | kCombo, kCombo
  | kSequence, kSequence | kSpecialKey, kSpecialKey => true
  | _, _ => false
  end.

Record TrainingItem := mkItem {
  type : TrainingType;
  label : QString;
  sequence : QString;
  key : Z;
  modifiers : Z;
  min_difficulty : Difficulty
}.

Record SessionRecord := mkRecord {
  timestamp : Z;
  total_rounds : Z;
  correct_rounds : Z;
  duration_seconds : Q;
  difficulty : Difficulty;
  mode : TrainingMode
}.

Definition kMaxHistoryRecords : nat := 100.

(** *** TrainingItem factory functions *)

Definition MakeSingleKey (ch : QChar) (diff : Difficulty) : TrainingItem :=
  {| type := kSingleKey;
     label := toUpper (String ch EmptyString);
     sequence := toLower (String ch EmptyString);
     key := 0;
     modifiers := Qt.NoModifier;
     min_difficulty := diff |}.

Definition MakeSequence (seq : QString) (diff : Difficulty) : TrainingItem :=
  {| type := kSequence;
     label := toUpper seq;
     sequence := toLower seq;
     key := 0;
     modifiers := Qt.NoModifier;
     min_difficulty := diff |}.

Definition MakeCombo (mods : Z) (k : Z) (lbl : QString) (diff : Difficulty)
  : TrainingItem :=
  {| type := kCombo;
     label := lbl;
     sequence := EmptyString;
     key := k;
     modifiers := mods;
     min_difficulty := diff |}.

Definition MakeSpecialKey (k : Z) (lbl : QString) (diff : Difficulty)
  : TrainingItem :=
  {| type := kSpecialKey;
     label := lbl;
     sequence := EmptyString;
     key := k;
     modifiers := Qt.NoModifier;
     min_difficulty := diff |}.

(** ** The catalog: [InitAllTrainingItems] *)

Definition digit_label (i : Z) : QString :=
  String (ascii_of_nat (48 + Z.to_nat i)) EmptyString.

Definition ctrl_digit (diff : Difficulty) (i : Z) : TrainingItem :=
  MakeCombo Qt.ControlModifier (Qt.Key_0 + i)
            (String.append "Ctrl+" (digit_label i)) diff.

Definition shift_combos : list (Z * QString * Difficulty) :=
  [ (Qt.Key_Exclam, "Shift+1"%string, kIntermediate);
    (Qt.Key_At, "Shift+2"%string, kIntermediate);
    (Qt.Key_NumberSign, "Shift+3"%string, kIntermediate);
    (Qt.Key_Dollar, "Shift+4"%string, kIntermediate);
    (Qt.Key_Percent, "Shift+5"%string, kIntermediate) ].

Definition basic_sequences : list QString :=
  [ "1a"; "2a"; "3a"; "1s"; "2s"; "3s";
    "1d"; "2d"; "3d"; "1q"; "2q"; "3q" ]%string.

Definition advanced_sequences : list QString :=
  [ "1aa"; "2aa"; "3aa"; "1ss"; "2ss"; "3ss";
    "1qqqq"; "2ww"; "3ee"; "qwer"; "asdf"; "zxcv";
    "wasd"; "1a2a"; "1s2s"; "4sd"; "5vv"; "1a2a3a";
    "qqqq"; "aaaa"; "ssss"; "1234"; "5432"; "qwert";
    "asdfg"; "zxcvb" ]%string.

Definition InitAllTrainingItems : list TrainingItem :=
  (* 1. single keys *)
  map (fun ch => MakeSingleKey ch kBeginner)
      (list_ascii_of_string "12345qwertasdfgzxcvb")
  ++ map (fun ch => MakeSingleKey ch kIntermediate)
      (list_ascii_of_string "67yhun")
  (* 2. special keys *)
  ++ [ MakeSpecialKey Qt.Key_Space "Space" kBeginner;
       MakeSpecialKey Qt.Key_Tab "Tab" kIntermediate;
       MakeSpecialKey Qt.Key_CapsLock "Caps" kIntermediate;
       MakeSpecialKey Qt.Key_F1 "F1" kIntermediate;
       MakeSpecialKey Qt.Key_F2 "F2" kIntermediate;
       MakeSpecialKey Qt.Key_F3 "F3" kIntermediate;
       MakeSpecialKey Qt.Key_F4 "F4" kIntermediate;
       MakeSpecialKey Qt.Key_F5 "F5" kAdvanced;
       MakeSpecialKey Qt.Key_F6 "F6" kAdvanced;
       MakeSpecialKey Qt.Key_F7 "F7" kAdvanced;
       MakeSpecialKey Qt.Key_F8 "F8" kAdvanced ]
  (* 3. Ctrl combos *)
  ++ map (ctrl_digit kIntermediate) [1; 2; 3; 4; 5]
  ++ map (ctrl_digit kAdvanced) [6; 7; 8; 9]
  ++ [ MakeCombo Qt.ControlModifier Qt.Key_0 "Ctrl+0" kAdvanced ]
  (* 4. Shift combos *)
  ++ map (fun '(k, lbl, diff) => MakeCombo Qt.ShiftModifier k lbl diff)
         shift_combos
  ++ [ MakeCombo Qt.ControlModifier Qt.Key_Q "Ctrl+Q" kIntermediate;
       MakeCombo Qt.ControlModifier Qt.Key_W "Ctrl+W" kIntermediate;
       MakeCombo Qt.ControlModifier Qt.Key_E "Ctrl+E" kIntermediate;
       MakeCombo Qt.ControlModifier Qt.Key_R "Ctrl+R" kIntermediate;
       MakeCombo Qt.ControlModifier Qt.Key_A "Ctrl+A" kIntermediate;
       MakeCombo Qt.ControlModifier Qt.Key_S "Ctrl+S" kIntermediate;
       MakeCombo Qt.ControlModifier Qt.Key_D "Ctrl+D" kIntermediate;
       MakeCombo Qt.ControlModifier Qt.Key_F "Ctrl+F" kIntermediate;
       MakeCombo Qt.ControlModifier Qt.Key_Z "Ctrl+Z" kIntermediate;
       MakeCombo Qt.ControlModifier Qt.Key_X "Ctrl+X" kIntermediate;
       MakeCombo Qt.ControlModifier Qt.Key_C "Ctrl+C" kIntermediate;
       MakeCombo Qt.ControlModifier Qt.Key_V "Ctrl+V" kIntermediate;
       MakeCombo Qt.ShiftModifier Qt.Key_Q "Shift+Q" kAdvanced;
       MakeCombo Qt.ShiftModifier Qt.Key_W "Shift+W" kAdvanced;
       MakeCombo Qt.ShiftModifier Qt.Key_E "Shift+E" kAdvanced;
       MakeCombo Qt.ShiftModifier Qt.Key_R "Shift+R" kAdvanced;
       MakeCombo Qt.ShiftModifier Qt.Key_A "Shift+A" kAdvanced;
       MakeCombo Qt.ShiftModifier Qt.Key_S "Shift+S" kAdvanced;
       MakeCombo Qt.AltModifier Qt.Key_F1 "Alt+F1" kAdvanced;
       MakeCombo Qt.AltModifier Qt.Key_F2 "Alt+F2" kAdvanced;
       MakeCombo Qt.AltModifier Qt.Key_F3 "Alt+F3" kAdvanced;
       MakeCombo Qt.AltModifier Qt.Key_F4 "Alt+F4" kAdvanced ]
  (* 5. sequences *)
  ++ map (fun seq => MakeSequence seq kIntermediate) basic_sequences
  ++ map (fun seq => MakeSequence seq kAdvanced) advanced_sequences.

(** ** The difficulty filter: [FilterItemsByDifficulty] *)

(** The four custom category toggles, in the order of the header. *)
Record CustomToggles := mkToggles {
  custom_single_keys : bool;
  custom_special_keys : bool;
  custom_combos : bool;
  custom_sequences : bool
}.

(** The [include] flag computed by the switch in the loop body. *)
Definition include (d : Difficulty) (c : CustomToggles) (item : TrainingItem)
  : bool :=
  match d with
  | kBeginner => Difficulty_eqb (min_difficulty item) kBeginner
  | kIntermediate =>
      Difficulty_eqb (min_difficulty item) kBeginner
      || Difficulty_eqb (min_difficulty item) kIntermediate
  | kAdvanced => true
  | kCustom =>
      match type item with
      | kSingleKey => custom_single_keys c
      | kSpecialKey => custom_special_keys c
      | kCombo => custom_combos c
      | kSequence => custom_sequences c
      end
  end.

(** The loop appends the included items in catalog order. *)
Fixpoint select_items (d : Difficulty) (c : CustomToggles)
         (all : list TrainingItem) : list TrainingItem :=
  match all with
  | [] => []
  | item :: rest =>
      if include d c item then item :: select_items d c rest
      else select_items d c rest
  end.

Definition filter_items (d : Difficulty) (c : CustomToggles)
           (all : list TrainingItem) : list TrainingItem :=
  let items := select_items d c all in
  match items with
  | [] => all          (* "Ensure at least some items" *)
  | _ => items
  end.

(** ** What the engine shows on its two labels *)

(** The texts passed to [UpdateErrorLabel]. *)
Inductive ErrorText :=
| ErrNone                                   (* QString() *)
| ErrExpectedGot (expected : option QChar) (got : QChar)
                                            (* "expected '%1', got '%2'" *)
| ErrPleasePress (lbl : QString)            (* "please press %1" *)
| ErrCloseBlocked.                          (* "cannot close while training" *)

(** The texts put on [target_label_]. *)
Inductive TargetText :=
| TgtInitial
| TgtNoItem                                 (* "no training item" *)
| TgtLabel (lbl : QString)                  (* item.label *)
| TgtSequence (lbl : QString) (pos total : Z)   (* "%1\n(%2/%3)" *)
| TgtPaused                                 (* "paused, press continue or space" *)
| TgtEnded                                  (* "training ended" *)
| TgtTimeUp                                 (* "time is up!" *)
| TgtChallengeDone.                         (* "challenge complete!" *)

(** ** The member variables of [TrainerWindow] *)

Record State := mkState {
  all_items_ : list TrainingItem;   (* all possible training items *)
  items_ : list TrainingItem;   (* items filtered by the current difficulty *)
  current_index_ : Z;
  sequence_pos_ : Z;
  training_ : bool;
  paused_ : bool;
  rounds_total_ : Z;
  rounds_correct_ : Z;
  target_rounds_ : Z;   (* Challenge mode *)
  time_limit_seconds_ : Z;   (* Timed mode *)
  remaining_seconds_ : Z;
  difficulty_ : Difficulty;
  mode_ : TrainingMode;
  custom_single_keys_ : bool;
  custom_special_keys_ : bool;
  custom_combos_ : bool;
  custom_sequences_ : bool;
  elapsed_ : option Z;   (* QElapsedTimer: instant of the last restart() *)
  countdown_timer_ : bool;   (* QTimer: active flag *)
  paused_elapsed_ : Z;
  history_ : list SessionRecord;
  pressed_keys_ : list Z;
  current_modifiers_ : Z;
  error_label_ : ErrorText;
  target_label_ : TargetText;
  now : Z   (* the clock the timers read (milliseconds) *)
}.

(** Assignments to one member. *)

Definition set_items_ (v : list TrainingItem) (st : State) : State :=
  {| all_items_ := all_items_ st;
     items_ := v;
     current_index_ := current_index_ st;
     sequence_pos_ := sequence_pos_ st;
     training_ := training_ st;
     paused_ := paused_ st;
     rounds_total_ := rounds_total_ st;
     rounds_correct_ := rounds_correct_ st;
     target_rounds_ := target_rounds_ st;
     time_limit_seconds_ := time_limit_seconds_ st;
     remaining_seconds_ := remaining_seconds_ st;
     difficulty_ := difficulty_ st;
     mode_ := mode_ st;
     custom_single_keys_ := custom_single_keys_ st;
     custom_special_keys_ := custom_special_keys_ st;
     custom_combos_ := custom_combos_ st;
     custom_sequences_ := custom_sequences_ st;
     elapsed_ := elapsed_ st;
     countdown_timer_ := countdown_timer_ st;
     paused_elapsed_ := paused_elapsed_ st;
     history_ := history_ st;
     pressed_keys_ := pressed_keys_ st;
     current_modifiers_ := current_modifiers_ st;
     error_label_ := error_label_ st;
     target_label_ := target_label_ st;
     now := now st |}.

Definition set_current_index_ (v : Z) (st : State) : State :=
  {| all_items_ := all_items_ st;
     items_ := items_ st;
     current_index_ := v;
     sequence_pos_ := sequence_pos_ st;
     training_ := training_ st;
     paused_ := paused_ st;
     rounds_total_ := rounds_total_ st;
     rounds_correct_ := rounds_correct_ st;
     target_rounds_ := target_rounds_ st;
     time_limit_seconds_ := time_limit_seconds_ st;
     remaining_seconds_ := remaining_seconds_ st;
     difficulty_ := difficulty_ st;
     mode_ := mode_ st;
     custom_single_keys_ := custom_single_keys_ st;
     custom_special_keys_ := custom_special_keys_ st;
     custom_combos_ := custom_combos_ st;
     custom_sequences_ := custom_sequences_ st;
     elapsed_ := elapsed_ st;
     countdown_timer_ := countdown_timer_ st;
     paused_elapsed_ := paused_elapsed_ st;
     history_ := history_ st;
     pressed_keys_ := pressed_keys_ st;
     current_modifiers_ := current_modifiers_ st;
     error_label_ := error_label_ st;
     target_label_ := target_label_ st;
     now := now st |}.

Definition set_sequence_pos_ (v : Z) (st : State) : State :=
  {| all_items_ := all_items_ st;
     items_ := items_ st;
     current_index_ := current_index_ st;
     sequence_pos_ := v;
     training_ := training_ st;
     paused_ := paused_ st;
     rounds_total_ := rounds_total_ st;
     rounds_correct_ := rounds_correct_ st;
     target_rounds_ := target_rounds_ st;
     time_limit_seconds_ := time_limit_seconds_ st;
     remaining_seconds_ := remaining_seconds_ st;
     difficulty_ := difficulty_ st;
     mode_ := mode_ st;
     custom_single_keys_ := custom_single_keys_ st;
     custom_special_keys_ := custom_special_keys_ st;
     custom_combos_ := custom_combos_ st;
     custom_sequences_ := custom_sequences_ st;
     elapsed_ := elapsed_ st;
     countdown_timer_ := countdown_timer_ st;
     paused_elapsed_ := paused_elapsed_ st;
     history_ := history_ st;
     pressed_keys_ := pressed_keys_ st;
     current_modifiers_ := current_modifiers_ st;
     error_label_ := error_label_ st;
     target_label_ := target_label_ st;
     now := now st |}.

Definition set_training_ (v : bool) (st : State) : State :=
  {| all_items_ := all_items_ st;
     items_ := items_ st;
     current_index_ := current_index_ st;
     sequence_pos_ := sequence_pos_ st;
     training_ := v;
     paused_ := paused_ st;
     rounds_total_ := rounds_total_ st;
     rounds_correct_ := rounds_correct_ st;
     target_rounds_ := target_rounds_ st;
     time_limit_seconds_ := time_limit_seconds_ st;
     remaining_seconds_ := remaining_seconds_ st;
     difficulty_ := difficulty_ st;
     mode_ := mode_ st;
     custom_single_keys_ := custom_single_keys_ st;
     custom_special_keys_ := custom_special_keys_ st;
     custom_combos_ := custom_combos_ st;
     custom_sequences_ := custom_sequences_ st;
     elapsed_ := elapsed_ st;
     countdown_timer_ := countdown_timer_ st;
     paused_elapsed_ := paused_elapsed_ st;
     history_ := history_ st;
     pressed_keys_ := pressed_keys_ st;
     current_modifiers_ := current_modifiers_ st;
     error_label_ := error_label_ st;
     target_label_ := target_label_ st;
     now := now st |}.

Definition set_paused_ (v : bool) (st : State) : State :=
  {| all_items_ := all_items_ st;
     items_ := items_ st;
     current_index_ := current_index_ st;
     sequence_pos_ := sequence_pos_ st;
     training_ := training_ st;
     paused_ := v;
     rounds_total_ := rounds_total_ st;
     rounds_correct_ := rounds_correct_ st;
     target_rounds_ := target_rounds_ st;
     time_limit_seconds_ := time_limit_seconds_ st;
     remaining_seconds_ := remaining_seconds_ st;
     difficulty_ := difficulty_ st;
     mode_ := mode_ st;
     custom_single_keys_ := custom_single_keys_ st;
     custom_special_keys_ := custom_special_keys_ st;
     custom_combos_ := custom_combos_ st;
     custom_sequences_ := custom_sequences_ st;
     elapsed_ := elapsed_ st;
     countdown_timer_ := countdown_timer_ st;
     paused_elapsed_ := paused_elapsed_ st;
     history_ := history_ st;
     pressed_keys_ := pressed_keys_ st;
     current_modifiers_ := current_modifiers_ st;
     error_label_ := error_label_ st;
     target_label_ := target_label_ st;
     now := now st |}.

Definition set_rounds_total_ (v : Z) (st : State) : State :=
  {| all_items_ := all_items_ st;
     items_ := items_ st;
     current_index_ := current_index_ st;
     sequence_pos_ := sequence_pos_ st;
     training_ := training_ st;
     paused_ := paused_ st;
     rounds_total_ := v;
     rounds_correct_ := rounds_correct_ st;
     target_rounds_ := target_rounds_ st;
     time_limit_seconds_ := time_limit_seconds_ st;
     remaining_seconds_ := remaining_seconds_ st;
     difficulty_ := difficulty_ st;
     mode_ := mode_ st;
     custom_single_keys_ := custom_single_keys_ st;
     custom_special_keys_ := custom_special_keys_ st;
     custom_combos_ := custom_combos_ st;
     custom_sequences_ := custom_sequences_ st;
     elapsed_ := elapsed_ st;
     countdown_timer_ := countdown_timer_ st;
     paused_elapsed_ := paused_elapsed_ st;
     history_ := history_ st;
     pressed_keys_ := pressed_keys_ st;
     current_modifiers_ := current_modifiers_ st;
     error_label_ := error_label_ st;
     target_label_ := target_label_ st;
     now := now st |}.

Definition set_rounds_correct_ (v : Z) (st : State) : State :=
  {| all_items_ := all_items_ st;
     items_ := items_ st;
     current_index_ := current_index_ st;
     sequence_pos_ := sequence_pos_ st;
     training_ := training_ st;
     paused_ := paused_ st;
     rounds_total_ := rounds_total_ st;
     rounds_correct_ := v;
     target_rounds_ := target_rounds_ st;
     time_limit_seconds_ := time_limit_seconds_ st;
     remaining_seconds_ := remaining_seconds_ st;
     difficulty_ := difficulty_ st;
     mode_ := mode_ st;
     custom_single_keys_ := custom_single_keys_ st;
     custom_special_keys_ := custom_special_keys_ st;
     custom_combos_ := custom_combos_ st;
     custom_sequences_ := custom_sequences_ st;
     elapsed_ := elapsed_ st;
     countdown_timer_ := countdown_timer_ st;
     paused_elapsed_ := paused_elapsed_ st;
     history_ := history_ st;
     pressed_keys_ := pressed_keys_ st;
     current_modifiers_ := current_modifiers_ st;
     error_label_ := error_label_ st;
     target_label_ := target_label_ st;
     now := now st |}.

Definition set_remaining_seconds_ (v : Z) (st : State) : State :=
  {| all_items_ := all_items_ st;
     items_ := items_ st;
     current_index_ := current_index_ st;
     sequence_pos_ := sequence_pos_ st;
     training_ := training_ st;
     paused_ := paused_ st;
     rounds_total_ := rounds_total_ st;
     rounds_correct_ := rounds_correct_ st;
     target_rounds_ := target_rounds_ st;
     time_limit_seconds_ := time_limit_seconds_ st;
     remaining_seconds_ := v;
     difficulty_ := difficulty_ st;
     mode_ := mode_ st;
     custom_single_keys_ := custom_single_keys_ st;
     custom_special_keys_ := custom_special_keys_ st;
     custom_combos_ := custom_combos_ st;
     custom_sequences_ := custom_sequences_ st;
     elapsed_ := elapsed_ st;
     countdown_timer_ := countdown_timer_ st;
     paused_elapsed_ := paused_elapsed_ st;
     history_ := history_ st;
     pressed_keys_ := pressed_keys_ st;
     current_modifiers_ := current_modifiers_ st;
     error_label_ := error_label_ st;
     target_label_ := target_label_ st;
     now := now st |}.

Definition set_elapsed_ (v : option Z) (st : State) : State :=
  {| all_items_ := all_items_ st;
     items_ := items_ st;
     current_index_ := current_index_ st;
     sequence_pos_ := sequence_pos_ st;
     training_ := training_ st;
     paused_ := paused_ st;
     rounds_total_ := rounds_total_ st;
     rounds_correct_ := rounds_correct_ st;
     target_rounds_ := target_rounds_ st;
     time_limit_seconds_ := time_limit_seconds_ st;
     remaining_seconds_ := remaining_seconds_ st;
     difficulty_ := difficulty_ st;
     mode_ := mode_ st;
     custom_single_keys_ := custom_single_keys_ st;
     custom_special_keys_ := custom_special_keys_ st;
     custom_combos_ := custom_combos_ st;
     custom_sequences_ := custom_sequences_ st;
     elapsed_ := v;
     countdown_timer_ := countdown_timer_ st;
     paused_elapsed_ := paused_elapsed_ st;
     history_ := history_ st;
     pressed_keys_ := pressed_keys_ st;
     current_modifiers_ := current_modifiers_ st;
     error_label_ := error_label_ st;
     target_label_ := target_label_ st;
     now := now st |}.

Definition set_countdown_timer_ (v : bool) (st : State) : State :=
  {| all_items_ := all_items_ st;
     items_ := items_ st;
     current_index_ := current_index_ st;
     sequence_pos_ := sequence_pos_ st;
     training_ := training_ st;
     paused_ := paused_ st;
     rounds_total_ := rounds_total_ st;
     rounds_correct_ := rounds_correct_ st;
     target_rounds_ := target_rounds_ st;
     time_limit_seconds_ := time_limit_seconds_ st;
     remaining_seconds_ := remaining_seconds_ st;
     difficulty_ := difficulty_ st;
     mode_ := mode_ st;
     custom_single_keys_ := custom_single_keys_ st;
     custom_special_keys_ := custom_special_keys_ st;
     custom_combos_ := custom_combos_ st;
     custom_sequences_ := custom_sequences_ st;
     elapsed_ := elapsed_ st;
     countdown_timer_ := v;
     paused_elapsed_ := paused_elapsed_ st;
     history_ := history_ st;
     pressed_keys_ := pressed_keys_ st;
     current_modifiers_ := current_modifiers_ st;
     error_label_ := error_label_ st;
     target_label_ := target_label_ st;
     now := now st |}.

Definition set_paused_elapsed_ (v : Z) (st : State) : State :=
  {| all_items_ := all_items_ st;
     items_ := items_ st;
     current_index_ := current_index_ st;
     sequence_pos_ := sequence_pos_ st;
     training_ := training_ st;
     paused_ := paused_ st;
     rounds_total_ := rounds_total_ st;
     rounds_correct_ := rounds_correct_ st;
     target_rounds_ := target_rounds_ st;
     time_limit_seconds_ := time_limit_seconds_ st;
     remaining_seconds_ := remaining_seconds_ st;
     difficulty_ := difficulty_ st;
     mode_ := mode_ st;
     custom_single_keys_ := custom_single_keys_ st;
     custom_special_keys_ := custom_special_keys_ st;
     custom_combos_ := custom_combos_ st;
     custom_sequences_ := custom_sequences_ st;
     elapsed_ := elapsed_ st;
     countdown_timer_ := countdown_timer_ st;
     paused_elapsed_ := v;
     history_ := history_ st;
     pressed_keys_ := pressed_keys_ st;
     current_modifiers_ := current_modifiers_ st;
     error_label_ := error_label_ st;
     target_label_ := target_label_ st;
     now := now st |}.

Definition set_history_ (v : list SessionRecord) (st : State) : State :=
  {| all_items_ := all_items_ st;
     items_ := items_ st;
     current_index_ := current_index_ st;
     sequence_pos_ := sequence_pos_ st;
     training_ := training_ st;
     paused_ := paused_ st;
     rounds_total_ := rounds_total_ st;
     rounds_correct_ := rounds_correct_ st;
     target_rounds_ := target_rounds_ st;
     time_limit_seconds_ := time_limit_seconds_ st;
     remaining_seconds_ := remaining_seconds_ st;
     difficulty_ := difficulty_ st;
     mode_ := mode_ st;
     custom_single_keys_ := custom_single_keys_ st;
     custom_special_keys_ := custom_special_keys_ st;
     custom_combos_ := custom_combos_ st;
     custom_sequences_ := custom_sequences_ st;
     elapsed_ := elapsed_ st;
     countdown_timer_ := countdown_timer_ st;
     paused_elapsed_ := paused_elapsed_ st;
     history_ := v;
     pressed_keys_ := pressed_keys_ st;
     current_modifiers_ := current_modifiers_ st;
     error_label_ := error_label_ st;
     target_label_ := target_label_ st;
     now := now st |}.

Definition set_pressed_keys_ (v : list Z) (st : State) : State :=
  {| all_items_ := all_items_ st;
     items_ := items_ st;
     current_index_ := current_index_ st;
     sequence_pos_ := sequence_pos_ st;
     training_ := training_ st;
     paused_ := paused_ st;
     rounds_total_ := rounds_total_ st;
     rounds_correct_ := rounds_correct_ st;
     target_rounds_ := target_rounds_ st;
     time_limit_seconds_ := time_limit_seconds_ st;
     remaining_seconds_ := remaining_seconds_ st;
     difficulty_ := difficulty_ st;
     mode_ := mode_ st;
     custom_single_keys_ := custom_single_keys_ st;
     custom_special_keys_ := custom_special_keys_ st;
     custom_combos_ := custom_combos_ st;
     custom_sequences_ := custom_sequences_ st;
     elapsed_ := elapsed_ st;
     countdown_timer_ := countdown_timer_ st;
     paused_elapsed_ := paused_elapsed_ st;
     history_ := history_ st;
     pressed_keys_ := v;
     current_modifiers_ := current_modifiers_ st;
     error_label_ := error_label_ st;
     target_label_ := target_label_ st;
     now := now st |}.

Definition set_current_modifiers_ (v : Z) (st : State) : State :=
  {| all_items_ := all_items_ st;
     items_ := items_ st;
     current_index_ := current_index_ st;
     sequence_pos_ := sequence_pos_ st;
     training_ := training_ st;
     paused_ := paused_ st;
     rounds_total_ := rounds_total_ st;
     rounds_correct_ := rounds_correct_ st;
     target_rounds_ := target_rounds_ st;
     time_limit_seconds_ := time_limit_seconds_ st;
     remaining_seconds_ := remaining_seconds_ st;
     difficulty_ := difficulty_ st;
     mode_ := mode_ st;
     custom_single_keys_ := custom_single_keys_ st;
     custom_special_keys_ := custom_special_keys_ st;
     custom_combos_ := custom_combos_ st;
     custom_sequences_ := custom_sequences_ st;
     elapsed_ := elapsed_ st;
     countdown_timer_ := countdown_timer_ st;
     paused_elapsed_ := paused_elapsed_ st;
     history_ := history_ st;
     pressed_keys_ := pressed_keys_ st;
     current_modifiers_ := v;
     error_label_ := error_label_ st;
     target_label_ := target_label_ st;
     now := now st |}.

Definition set_error_label_ (v : ErrorText) (st : State) : State :=
  {| all_items_ := all_items_ st;
     items_ := items_ st;
     current_index_ := current_index_ st;
     sequence_pos_ := sequence_pos_ st;
     training_ := training_ st;
     paused_ := paused_ st;
     rounds_total_ := rounds_total_ st;
     rounds_correct_ := rounds_correct_ st;
     target_rounds_ := target_rounds_ st;
     time_limit_seconds_ := time_limit_seconds_ st;
     remaining_seconds_ := remaining_seconds_ st;
     difficulty_ := difficulty_ st;
     mode_ := mode_ st;
     custom_single_keys_ := custom_single_keys_ st;
     custom_special_keys_ := custom_special_keys_ st;
     custom_combos_ := custom_combos_ st;
     custom_sequences_ := custom_sequences_ st;
     elapsed_ := elapsed_ st;
     countdown_timer_ := countdown_timer_ st;
     paused_elapsed_ := paused_elapsed_ st;
     history_ := history_ st;
     pressed_keys_ := pressed_keys_ st;
     current_modifiers_ := current_modifiers_ st;
     error_label_ := v;
     target_label_ := target_label_ st;
     now := now st |}.

Definition set_target_label_ (v : TargetText) (st : State) : State :=
  {| all_items_ := all_items_ st;
     items_ := items_ st;
     current_index_ := current_index_ st;
     sequence_pos_ := sequence_pos_ st;
     training_ := training_ st;
     paused_ := paused_ st;
     rounds_total_ := rounds_total_ st;
     rounds_correct_ := rounds_correct_ st;
     target_rounds_ := target_rounds_ st;
     time_limit_seconds_ := time_limit_seconds_ st;
     remaining_seconds_ := remaining_seconds_ st;
     difficulty_ := difficulty_ st;
     mode_ := mode_ st;
     custom_single_keys_ := custom_single_keys_ st;
     custom_special_keys_ := custom_special_keys_ st;
     custom_combos_ := custom_combos_ st;
     custom_sequences_ := custom_sequences_ st;
     elapsed_ := elapsed_ st;
     countdown_timer_ := countdown_timer_ st;
     paused_elapsed_ := paused_elapsed_ st;
     history_ := history_ st;
     pressed_keys_ := pressed_keys_ st;
     current_modifiers_ := current_modifiers_ st;
     error_label_ := error_label_ st;
     target_label_ := v;
     now := now st |}.

Definition set_now (v : Z) (st : State) : State :=
  {| all_items_ := all_items_ st;
     items_ := items_ st;
     current_index_ := current_index_ st;
     sequence_pos_ := sequence_pos_ st;
     training_ := training_ st;
     paused_ := paused_ st;
     rounds_total_ := rounds_total_ st;
     rounds_correct_ := rounds_correct_ st;
     target_rounds_ := target_rounds_ st;
     time_limit_seconds_ := time_limit_seconds_ st;
     remaining_seconds_ := remaining_seconds_ st;
     difficulty_ := difficulty_ st;
     mode_ := mode_ st;
     custom_single_keys_ := custom_single_keys_ st;
     custom_special_keys_ := custom_special_keys_ st;
     custom_combos_ := custom_combos_ st;
     custom_sequences_ := custom_sequences_ st;
     elapsed_ := elapsed_ st;
     countdown_timer_ := countdown_timer_ st;
     paused_elapsed_ := paused_elapsed_ st;
     history_ := history_ st;
     pressed_keys_ := pressed_keys_ st;
     current_modifiers_ := current_modifiers_ st;
     error_label_ := error_label_ st;
     target_label_ := target_label_ st;
     now := v |}.

(** ** Key events and small helpers *)

Record QKeyEvent := mkKeyEvent {
  ev_key : Z;            (* event->key() *)
  ev_text : QString;     (* event->text() *)
  ev_modifiers : Z       (* event->modifiers() *)
}.

(** [QRandomGenerator::bounded(highest)]: a value in [0, highest), taken
    from the raw draw [rnd]. *)
Definition bounded (rnd highest : Z) : Z := rnd mod highest.

Definition items_size (st : State) : Z := Z.of_nat (List.length (items_ st)).

Definition items_isEmpty (st : State) : bool :=
  match items_ st with [] => true | _ => false end.

(** [current_index_ < 0 || current_index_ >= items_.size()] *)
Definition index_out_of_range (st : State) : bool :=
  (current_index_ st <? 0) || (current_index_ st >=? items_size st).

(** [items_.at(current_index_)], behind the range check of the source. *)
Definition current_item (st : State) : option TrainingItem :=
  if index_out_of_range st then None
  else nth_error (items_ st) (Z.to_nat (current_index_ st)).

(** [elapsed_->elapsed()]; reading an invalid timer is undefined in Qt, the
    model returns 0 there (the source only reads a started timer). *)
Definition elapsed (st : State) : Z :=
  match elapsed_ st with
  | Some t0 => now st - t0
  | None => 0
  end.

(** [elapsed_->restart()] *)
Definition elapsed_restart (st : State) : State :=
  set_elapsed_ (Some (now st)) st.

(** [pressed_keys_.insert(k)] *)
Definition insert_key (k : Z) (keys : list Z) : list Z :=
  if existsb (Z.eqb k) keys then keys else k :: keys.

Definition toggles (st : State) : CustomToggles :=
  {| custom_single_keys := custom_single_keys_ st;
     custom_special_keys := custom_special_keys_ st;
     custom_combos := custom_combos_ st;
     custom_sequences := custom_sequences_ st |}.

(** ** Training logic *)

Definition FilterItemsByDifficulty (st : State) : State :=
  set_items_ (filter_items (difficulty_ st) (toggles st) (all_items_ st)) st.

Definition UpdateErrorLabel (text : ErrorText) (st : State) : State :=
  set_error_label_ text st.

Definition ShowCurrentItem (st : State) : State :=
  match current_item st with
  | None => set_target_label_ TgtNoItem st
  | Some item =>
      match type item with
      | kSequence =>
          set_target_label_
            (TgtSequence (label item) 0 (size (sequence item))) st
      | _ => set_target_label_ (TgtLabel (label item)) st
      end
  end.

Definition NextItem (rnd : Z) (st : State) : State :=
  if items_isEmpty st then st
  else
    let st := set_current_index_ (bounded rnd (items_size st)) st in
    let st := set_sequence_pos_ 0 st in
    let st := UpdateErrorLabel ErrNone st in
    ShowCurrentItem st.

(** The [qint64 ms] computed at the head of [UpdateStatsLabel] (and of
    [UpdateTimerLabel]): the elapsed time the live statistics divide by. *)
Definition UpdateStatsLabel_ms (st : State) : Z :=
  match elapsed_ st with
  | Some _ =>
      if paused_ st then paused_elapsed_ st
      else elapsed st + paused_elapsed_ st
  | None => 0
  end.

(** The while loop of [SaveSessionRecord]; [fuel] bounds its iterations. *)
Fixpoint keep_recent_loop (fuel : nat) (h : list SessionRecord)
  : list SessionRecord :=
  match fuel with
  | O => h
  | S fuel' =>
      if (kMaxHistoryRecords <? List.length h)%nat
      then keep_recent_loop fuel' (removelast h)
      else h
  end.

Definition keep_recent (h : list SessionRecord) : list SessionRecord :=
  keep_recent_loop (List.length h) h.

(** The record built by [SaveSessionRecord]; the [double] quotient by
    1000.0 is the exact rational here. *)
Definition session_record (st : State) : SessionRecord :=
  {| timestamp := now st;
     total_rounds := rounds_total_ st;
     correct_rounds := rounds_correct_ st;
     duration_seconds := Qmake (elapsed st + paused_elapsed_ st) 1000;
     difficulty := difficulty_ st;
     mode := mode_ st |}.

(** [history_.prepend(record)] followed by the trimming loop. *)
Definition prepend_record (record : SessionRecord) (h : list SessionRecord)
  : list SessionRecord :=
  keep_recent (record :: h).

Arguments keep_recent : simpl never.
Arguments prepend_record : simpl never.

Definition SaveSessionRecord (st : State) : State :=
  let record := session_record st in
  set_history_ (prepend_record record (history_ st)) st.

Definition StartTraining (rnd : Z) (st : State) : State :=
  let st := if items_isEmpty st then FilterItemsByDifficulty st else st in
  if items_isEmpty st then st
  else
    let st := set_rounds_total_ 0 st in
    let st := set_rounds_correct_ 0 st in
    let st := set_training_ true st in
    let st := set_paused_ false st in
    let st := set_sequence_pos_ 0 st in
    let st := set_paused_elapsed_ 0 st in
    let st := UpdateErrorLabel ErrNone st in
    let st := elapsed_restart st in
    let st :=
      match mode_ st with
      | kTimed =>
          let st := set_remaining_seconds_ (time_limit_seconds_ st) st in
          set_countdown_timer_ true st
      | _ => st
      end in
    NextItem rnd st.

Definition StopTraining (st : State) : State :=
  let st := set_countdown_timer_ false st in
  let st :=
    if (rounds_total_ st >? 0) && negb (TrainingMode_eqb (mode_ st) kZen)
    then SaveSessionRecord st else st in
  let st := set_training_ false st in
  let st := set_paused_ false st in
  let st := set_target_label_ TgtEnded st in
  UpdateErrorLabel ErrNone st.

Definition PauseTraining (st : State) : State :=
  if negb (training_ st) || paused_ st then st
  else
    let st := set_paused_ true st in
    let st := set_paused_elapsed_ (elapsed st) st in
    let st := set_countdown_timer_ false st in
    set_target_label_ TgtPaused st.

Definition ResumeTraining (st : State) : State :=
  if negb (training_ st) || negb (paused_ st) then st
  else
    let st := set_paused_ false st in
    let st := elapsed_restart st in
    let st :=
      if TrainingMode_eqb (mode_ st) kTimed
      then set_countdown_timer_ true st else st in
    ShowCurrentItem st.

Definition OnTimerTick (st : State) : State :=
  if negb (training_ st) || paused_ st then st
  else
    if TrainingMode_eqb (mode_ st) kTimed then
      let st := set_remaining_seconds_ (remaining_seconds_ st - 1) st in
      if remaining_seconds_ st <=? 0
      then set_target_label_ TgtTimeUp (StopTraining st)
      else st
    else st.

(** The test [IsCurrentItemAltF4] applies to the current item. *)
Definition is_alt_f4 (item : TrainingItem) : bool :=
  TrainingType_eqb (type item) kCombo
  && (key item =? Qt.Key_F4)
  && negb (Z.land (modifiers item) Qt.AltModifier =? 0).

Definition IsCurrentItemAltF4 (st : State) : bool :=
  if negb (training_ st) || index_out_of_range st then false
  else
    match current_item st with
    | Some item => is_alt_f4 item
    | None => false
    end.

(** The block that closes every judged branch of [keyPressEvent] and of
    [closeEvent]: the challenge-completion check. *)
Definition challenge_check (st : State) : State :=
  if TrainingMode_eqb (mode_ st) kChallenge
     && (rounds_correct_ st >=? target_rounds_ st)
  then set_target_label_ TgtChallengeDone (StopTraining st)
  else st.

Definition is_pure_modifier (k : Z) : bool :=
  (k =? Qt.Key_Shift) || (k =? Qt.Key_Control)
  || (k =? Qt.Key_Alt) || (k =? Qt.Key_Meta).

Definition modifier_mask : Z :=
  Z.lor (Z.lor (Z.lor Qt.ControlModifier Qt.ShiftModifier) Qt.AltModifier)
        Qt.MetaModifier.

Definition ascii_eqb (a b : QChar) : bool := Ascii.eqb a b.

(** The [switch (item.type)] of [keyPressEvent]. *)
Definition judge_key (event : QKeyEvent) (rnd : Z) (item : TrainingItem)
           (st : State) : State :=
  match type item with
  | kSingleKey =>
      let text := toLower (ev_text event) in
      match text with
      | EmptyString => st
      | String ch _ =>
          let expected := at_ (sequence item) 0 in
          let st := set_rounds_total_ (rounds_total_ st + 1) st in
          let st :=
            match expected with
            | Some e =>
                if ascii_eqb ch e then
                  let st := set_rounds_correct_ (rounds_correct_ st + 1) st in
                  let st := UpdateErrorLabel ErrNone st in
                  NextItem rnd st
                else UpdateErrorLabel (ErrExpectedGot expected ch) st
            | None => UpdateErrorLabel (ErrExpectedGot expected ch) st
            end in
          challenge_check st
      end
  | kCombo =>
      if IsCurrentItemAltF4 st then st
      else
        let mods := Z.land (ev_modifiers event) modifier_mask in
        let k := ev_key event in
        let st := set_rounds_total_ (rounds_total_ st + 1) st in
        let st :=
          if (k =? key item) && (mods =? modifiers item) then
            let st := set_rounds_correct_ (rounds_correct_ st + 1) st in
            let st := UpdateErrorLabel ErrNone st in
            NextItem rnd st
          else UpdateErrorLabel (ErrPleasePress (label item)) st in
        challenge_check st
  | kSpecialKey =>
      let k := ev_key event in
      let st := set_rounds_total_ (rounds_total_ st + 1) st in
      let st :=
        if k =? key item then
          let st := set_rounds_correct_ (rounds_correct_ st + 1) st in
          let st := UpdateErrorLabel ErrNone st in
          NextItem rnd st
        else UpdateErrorLabel (ErrPleasePress (label item)) st in
      challenge_check st
  | kSequence =>
      let text := toLower (ev_text event) in
      match text with
      | EmptyString => st
      | String ch _ =>
          let seq := sequence item in
          if isEmpty seq then st
          else
            let st :=
              if (sequence_pos_ st <? 0) || (sequence_pos_ st >=? size seq)
              then set_sequence_pos_ 0 st else st in
            match at_ seq (sequence_pos_ st) with
            | None => st      (* not reached: the position is in range *)
            | Some expected =>
                let st :=
                  if ascii_eqb ch expected then
                    let st := set_sequence_pos_ (sequence_pos_ st + 1) st in
                    let st := UpdateErrorLabel ErrNone st in
                    if sequence_pos_ st >=? size seq then
                      let st := set_rounds_total_ (rounds_total_ st + 1) st in
                      let st :=
                        set_rounds_correct_ (rounds_correct_ st + 1) st in
                      NextItem rnd st
                    else
                      set_target_label_
                        (TgtSequence (label item) (sequence_pos_ st)
                                     (size seq)) st
                  else
                    let st := set_rounds_total_ (rounds_total_ st + 1) st in
                    let st :=
                      UpdateErrorLabel
                        (ErrExpectedGot (Some expected) ch) st in
                    let st := set_sequence_pos_ 0 st in
                    set_target_label_
                      (TgtSequence (label item) 0 (size seq)) st in
                challenge_check st
            end
      end
  end.

(** "Track pressed keys for keyboard display". *)
Definition track_keys (event : QKeyEvent) (st : State) : State :=
  let st := set_pressed_keys_ (insert_key (ev_key event) (pressed_keys_ st))
                              st in
  set_current_modifiers_ (ev_modifiers event) st.

Definition keyPressEvent (event : QKeyEvent) (rnd : Z) (st : State) : State :=
  if paused_ st && (ev_key event =? Qt.Key_Space) then ResumeTraining st
  else if negb (training_ st) || paused_ st then st
  else if items_isEmpty st || index_out_of_range st then st
  else
    let st := track_keys event st in
    if is_pure_modifier (ev_key event) then st
    else if ev_key event =? Qt.Key_Escape then StopTraining st
    else
      match current_item st with
      | Some item => judge_key event rnd item st
      | None => st
      end.

(** [closeEvent]: the new state and whether the close is accepted
    ([false] is [event->ignore()]). *)
Definition closeEvent (rnd : Z) (st : State) : State * bool :=
  if training_ st then
    if IsCurrentItemAltF4 st then
      let st := set_rounds_total_ (rounds_total_ st + 1) st in
      let st := set_rounds_correct_ (rounds_correct_ st + 1) st in
      let st := UpdateErrorLabel ErrNone st in
      let st := NextItem rnd st in
      (challenge_check st, false)
    else (UpdateErrorLabel ErrCloseBlocked st, false)
  else (st, true).

(** ** The event loop *)

Inductive Event :=
| EvElapse (ms : Z)                      (* the clock advances *)
| EvStart (rnd : Z)                      (* start button *)
| EvStop                                 (* stop button *)
| EvPause                                (* pause button while running *)
| EvResume                               (* pause button while paused *)
| EvTick                                 (* countdown_timer_ timeout *)
| EvKey (event : QKeyEvent) (rnd : Z)    (* key press *)
| EvClose (rnd : Z).                     (* window close request *)

Definition step (e : Event) (st : State) : State :=
  match e with
  | EvElapse ms => set_now (now st + ms) st
  | EvStart rnd => StartTraining rnd st
  | EvStop => StopTraining st
  | EvPause => PauseTraining st
  | EvResume => ResumeTraining st
  | EvTick => OnTimerTick st
  | EvKey event rnd => keyPressEvent event rnd st
  | EvClose rnd => fst (closeEvent rnd st)
  end.

Fixpoint run (evs : list Event) (st : State) : State :=
  match evs with
  | [] => st
  | e :: rest => run rest (step e st)
  end.

(** The constructor: settings and history as loaded from the store, the
    catalog built, the working set filtered. *)
Definition TrainerWindow (d : Difficulty) (m : TrainingMode)
           (time_limit target : Z) (c : CustomToggles)
           (history : list SessionRecord) (t : Z) : State :=
  FilterItemsByDifficulty
    {| all_items_ := InitAllTrainingItems;
       items_ := [];
       current_index_ := -1;
       sequence_pos_ := 0;
       training_ := false;
       paused_ := false;
       rounds_total_ := 0;
       rounds_correct_ := 0;
       target_rounds_ := target;
       time_limit_seconds_ := time_limit;
       remaining_seconds_ := 0;
       difficulty_ := d;
       mode_ := m;
       custom_single_keys_ := custom_single_keys c;
       custom_special_keys_ := custom_special_keys c;
       custom_combos_ := custom_combos c;
       custom_sequences_ := custom_sequences c;
       elapsed_ := None;
       countdown_timer_ := false;
       paused_elapsed_ := 0;
       history_ := history;
       pressed_keys_ := [];
       current_modifiers_ := Qt.NoModifier;
       error_label_ := ErrNone;
       target_label_ := TgtInitial;
       now := t |}.

Definition all_toggles (b : bool) : CustomToggles :=
  {| custom_single_keys := b; custom_special_keys := b;
     custom_combos := b; custom_sequences := b |}.

(** ** The settings page and the history page *)

(** Assignments to the members the settings page writes. *)

Definition set_difficulty_ (v : Difficulty) (st : State) : State :=
  {| all_items_ := all_items_ st;
     items_ := items_ st;
     current_index_ := current_index_ st;
     sequence_pos_ := sequence_pos_ st;
     training_ := training_ st;
     paused_ := paused_ st;
     rounds_total_ := rounds_total_ st;
     rounds_correct_ := rounds_correct_ st;
     target_rounds_ := target_rounds_ st;
     time_limit_seconds_ := time_limit_seconds_ st;
     remaining_seconds_ := remaining_seconds_ st;
     difficulty_ := v;
     mode_ := mode_ st;
     custom_single_keys_ := custom_single_keys_ st;
     custom_special_keys_ := custom_special_keys_ st;
     custom_combos_ := custom_combos_ st;
     custom_sequences_ := custom_sequences_ st;
     elapsed_ := elapsed_ st;
     countdown_timer_ := countdown_timer_ st;
     paused_elapsed_ := paused_elapsed_ st;
     history_ := history_ st;
     pressed_keys_ := pressed_keys_ st;
     current_modifiers_ := current_modifiers_ st;
     error_label_ := error_label_ st;
     target_label_ := target_label_ st;
     now := now st |}.

Definition set_mode_ (v : TrainingMode) (st : State) : State :=
  {| all_items_ := all_items_ st;
     items_ := items_ st;
     current_index_ := current_index_ st;
     sequence_pos_ := sequence_pos_ st;
     training_ := training_ st;
     paused_ := paused_ st;
     rounds_total_ := rounds_total_ st;
     rounds_correct_ := rounds_correct_ st;
     target_rounds_ := target_rounds_ st;
     time_limit_seconds_ := time_limit_seconds_ st;
     remaining_seconds_ := remaining_seconds_ st;
     difficulty_ := difficulty_ st;
     mode_ := v;
     custom_single_keys_ := custom_single_keys_ st;
     custom_special_keys_ := custom_special_keys_ st;
     custom_combos_ := custom_combos_ st;
     custom_sequences_ := custom_sequences_ st;
     elapsed_ := elapsed_ st;
     countdown_timer_ := countdown_timer_ st;
     paused_elapsed_ := paused_elapsed_ st;
     history_ := history_ st;
     pressed_keys_ := pressed_keys_ st;
     current_modifiers_ := current_modifiers_ st;
     error_label_ := error_label_ st;
     target_label_ := target_label_ st;
     now := now st |}.

Definition set_custom_single_keys_ (v : bool) (st : State) : State :=
  {| all_items_ := all_items_ st;
     items_ := items_ st;
     current_index_ := current_index_ st;
     sequence_pos_ := sequence_pos_ st;
     training_ := training_ st;
     paused_ := paused_ st;
     rounds_total_ := rounds_total_ st;
     rounds_correct_ := rounds_correct_ st;
     target_rounds_ := target_rounds_ st;
     time_limit_seconds_ := time_limit_seconds_ st;
     remaining_seconds_ := remaining_seconds_ st;
     difficulty_ := difficulty_ st;
     mode_ := mode_ st;
     custom_single_keys_ := v;
     custom_special_keys_ := custom_special_keys_ st;
     custom_combos_ := custom_combos_ st;
     custom_sequences_ := custom_sequences_ st;
     elapsed_ := elapsed_ st;
     countdown_timer_ := countdown_timer_ st;
     paused_elapsed_ := paused_elapsed_ st;
     history_ := history_ st;
     pressed_keys_ := pressed_keys_ st;
     current_modifiers_ := current_modifiers_ st;
     error_label_ := error_label_ st;
     target_label_ := target_label_ st;
     now := now st |}.

Definition set_custom_special_keys_ (v : bool) (st : State) : State :=
  {| all_items_ := all_items_ st;
     items_ := items_ st;
     current_index_ := current_index_ st;
     sequence_pos_ := sequence_pos_ st;
     training_ := training_ st;
     paused_ := paused_ st;
     rounds_total_ := rounds_total_ st;
     rounds_correct_ := rounds_correct_ st;
     target_rounds_ := target_rounds_ st;
     time_limit_seconds_ := time_limit_seconds_ st;
     remaining_seconds_ := remaining_seconds_ st;
     difficulty_ := difficulty_ st;
     mode_ := mode_ st;
     custom_single_keys_ := custom_single_keys_ st;
     custom_special_keys_ := v;
     custom_combos_ := custom_combos_ st;
     custom_sequences_ := custom_sequences_ st;
     elapsed_ := elapsed_ st;
     countdown_timer_ := countdown_timer_ st;
     paused_elapsed_ := paused_elapsed_ st;
     history_ := history_ st;
     pressed_keys_ := pressed_keys_ st;
     current_modifiers_ := current_modifiers_ st;
     error_label_ := error_label_ st;
     target_label_ := target_label_ st;
     now := now st |}.

Definition set_custom_combos_ (v : bool) (st : State) : State :=
  {| all_items_ := all_items_ st;
     items_ := items_ st;
     current_index_ := current_index_ st;
     sequence_pos_ := sequence_pos_ st;
     training_ := training_ st;
     paused_ := paused_ st;
     rounds_total_ := rounds_total_ st;
     rounds_correct_ := rounds_correct_ st;
     target_rounds_ := target_rounds_ st;
     time_limit_seconds_ := time_limit_seconds_ st;
     remaining_seconds_ := remaining_seconds_ st;
     difficulty_ := difficulty_ st;
     mode_ := mode_ st;
     custom_single_keys_ := custom_single_keys_ st;
     custom_special_keys_ := custom_special_keys_ st;
     custom_combos_ := v;
     custom_sequences_ := custom_sequences_ st;
     elapsed_ := elapsed_ st;
     countdown_timer_ := countdown_timer_ st;
     paused_elapsed_ := paused_elapsed_ st;
     history_ := history_ st;
     pressed_keys_ := pressed_keys_ st;
     current_modifiers_ := current_modifiers_ st;
     error_label_ := error_label_ st;
     target_label_ := target_label_ st;
     now := now st |}.

Definition set_custom_sequences_ (v : bool) (st : State) : State :=
  {| all_items_ := all_items_ st;
     items_ := items_ st;
     current_index_ := current_index_ st;
     sequence_pos_ := sequence_pos_ st;
     training_ := training_ st;
     paused_ := paused_ st;
     rounds_total_ := rounds_total_ st;
     rounds_correct_ := rounds_correct_ st;
     target_rounds_ := target_rounds_ st;
     time_limit_seconds_ := time_limit_seconds_ st;
     remaining_seconds_ := remaining_seconds_ st;
     difficulty_ := difficulty_ st;
     mode_ := mode_ st;
     custom_single_keys_ := custom_single_keys_ st;
     custom_special_keys_ := custom_special_keys_ st;
     custom_combos_ := custom_combos_ st;
     custom_sequences_ := v;
     elapsed_ := elapsed_ st;
     countdown_timer_ := countdown_timer_ st;
     paused_elapsed_ := paused_elapsed_ st;
     history_ := history_ st;
     pressed_keys_ := pressed_keys_ st;
     current_modifiers_ := current_modifiers_ st;
     error_label_ := error_label_ st;
     target_label_ := target_label_ st;
     now := now st |}.

Definition set_time_limit_seconds_ (v : Z) (st : State) : State :=
  {| all_items_ := all_items_ st;
     items_ := items_ st;
     current_index_ := current_index_ st;
     sequence_pos_ := sequence_pos_ st;
     training_ := training_ st;
     paused_ := paused_ st;
     rounds_total_ := rounds_total_ st;
     rounds_correct_ := rounds_correct_ st;
     target_rounds_ := target_rounds_ st;
     time_limit_seconds_ := v;
     remaining_seconds_ := remaining_seconds_ st;
     difficulty_ := difficulty_ st;
     mode_ := mode_ st;
     custom_single_keys_ := custom_single_keys_ st;
     custom_special_keys_ := custom_special_keys_ st;
     custom_combos_ := custom_combos_ st;
     custom_sequences_ := custom_sequences_ st;
     elapsed_ := elapsed_ st;
     countdown_timer_ := countdown_timer_ st;
     paused_elapsed_ := paused_elapsed_ st;
     history_ := history_ st;
     pressed_keys_ := pressed_keys_ st;
     current_modifiers_ := current_modifiers_ st;
     error_label_ := error_label_ st;
     target_label_ := target_label_ st;
     now := now st |}.

Definition set_target_rounds_ (v : Z) (st : State) : State :=
  {| all_items_ := all_items_ st;
     items_ := items_ st;
     current_index_ := current_index_ st;
     sequence_pos_ := sequence_pos_ st;
     training_ := training_ st;
     paused_ := paused_ st;
     rounds_total_ := rounds_total_ st;
     rounds_correct_ := rounds_correct_ st;
     target_rounds_ := v;
     time_limit_seconds_ := time_limit_seconds_ st;
     remaining_seconds_ := remaining_seconds_ st;
     difficulty_ := difficulty_ st;
     mode_ := mode_ st;
     custom_single_keys_ := custom_single_keys_ st;
     custom_special_keys_ := custom_special_keys_ st;
     custom_combos_ := custom_combos_ st;
     custom_sequences_ := custom_sequences_ st;
     elapsed_ := elapsed_ st;
     countdown_timer_ := countdown_timer_ st;
     paused_elapsed_ := paused_elapsed_ st;
     history_ := history_ st;
     pressed_keys_ := pressed_keys_ st;
     current_modifiers_ := current_modifiers_ st;
     error_label_ := error_label_ st;
     target_label_ := target_label_ st;
     now := now st |}.

(** [OnDifficultyChanged]; the argument is the item data of the selected
    combo-box entry, one of the four [Difficulty] values. *)
Definition OnDifficultyChanged (d : Difficulty) (st : State) : State :=
  FilterItemsByDifficulty (set_difficulty_ d st).

(** [OnModeChanged], likewise with the selected [TrainingMode]. *)
Definition OnModeChanged (m : TrainingMode) (st : State) : State :=
  set_mode_ m st.

(** The slots connected to the four custom check boxes and to the two spin
    boxes in [SetupSettingsPage]. *)
Definition custom_single_toggled (checked : bool) (st : State) : State :=
  FilterItemsByDifficulty (set_custom_single_keys_ checked st).

Definition custom_special_toggled (checked : bool) (st : State) : State :=
  FilterItemsByDifficulty (set_custom_special_keys_ checked st).

Definition custom_combo_toggled (checked : bool) (st : State) : State :=
  FilterItemsByDifficulty (set_custom_combos_ checked st).

Definition custom_sequence_toggled (checked : bool) (st : State) : State :=
  FilterItemsByDifficulty (set_custom_sequences_ checked st).

Definition time_spin_valueChanged (value : Z) (st : State) : State :=
  set_time_limit_seconds_ value st.

Definition rounds_spin_valueChanged (value : Z) (st : State) : State :=
  set_target_rounds_ value st.

(** [ShowTraining], the back button of the settings and history pages. *)
Definition ShowTraining (st : State) : State :=
  FilterItemsByDifficulty st.

(** [ResetHistory] *)
Definition ResetHistory (st : State) : State :=
  set_history_ [] st.

(** What the user can do on the settings and history pages. *)
Inductive PageEvent :=
| PgDifficulty (d : Difficulty)
| PgMode (m : TrainingMode)
| PgCustomSingle (checked : bool)
| PgCustomSpecial (checked : bool)
| PgCustomCombo (checked : bool)
| PgCustomSequence (checked : bool)
| PgTimeLimit (value : Z)
| PgTargetRounds (value : Z)
| PgBack
| PgResetHistory.

Definition page_step (e : PageEvent) (st : State) : State :=
  match e with
  | PgDifficulty d => OnDifficultyChanged d st
  | PgMode m => OnModeChanged m st
  | PgCustomSingle b => custom_single_toggled b st
  | PgCustomSpecial b => custom_special_toggled b st
  | PgCustomCombo b => custom_combo_toggled b st
  | PgCustomSequence b => custom_sequence_toggled b st
  | PgTimeLimit v => time_spin_valueChanged v st
  | PgTargetRounds v => rounds_spin_valueChanged v st
  | PgBack => ShowTraining st
  | PgResetHistory => ResetHistory st
  end.

(** ** The timer label and the virtual keyboard *)

(** [static_cast<int>] of a [qint64]: the low 32 bits, signed. *)
Definition static_cast_int (x : Z) : Z :=
  (x + 2147483648) mod 4294967296 - 2147483648.

(** [UpdateTimerLabel]: the minutes and the seconds it puts on the label
    (each printed in two digits, zero filled).  The integer divisions of
    C++ truncate towards zero. *)
Definition UpdateTimerLabel (st : State) : Z * Z :=
  let ms := UpdateStatsLabel_ms st in
  if TrainingMode_eqb (mode_ st) kTimed then
    let remaining := remaining_seconds_ st in
    (Z.quot remaining 60, Z.rem remaining 60)
  else
    let total_secs := static_cast_int (Z.quot ms 1000) in
    (Z.quot total_secs 60, Z.rem total_secs 60).

(** What [OnTimerTick] puts on the timer label: it calls
    [UpdateTimerLabel] right after its guard, before the countdown is
    decremented; [None] when the guard returns. *)
Definition OnTimerTick_timer_label (st : State) : option (Z * Z) :=
  if negb (training_ st) || paused_ st then None
  else Some (UpdateTimerLabel st).

(** The names of the key labels created by [SetupVirtualKeyboard], the
    keys of [key_labels_]. *)
Definition key_names : list QString :=
  [ "F1"; "F2"; "F3"; "F4"; "F5"; "F6"; "F7"; "F8";
    "`"; "1"; "2"; "3"; "4"; "5"; "6";
    "Tab"; "Q"; "W"; "E"; "R"; "T";
    "Caps"; "A"; "S"; "D"; "F"; "G";
    "Shift"; "Z"; "X"; "C"; "V"; "B";
    "Ctrl"; "Alt"; "Space" ]%string.

(** A key label with its two style properties. *)
Record KeyLabel := mkKeyLabel {
  keyName : QString;
  highlighted : bool;
  modifier : bool
}.

(** [key_labels_]: a map from names to labels, kept as the list of its
    labels (their names are distinct). *)
Definition Keyboard := list KeyLabel.

Definition SetupVirtualKeyboard : Keyboard :=
  map (fun name => mkKeyLabel name false false) key_names.

(** [key_labels_[name]->setProperty("modifier", true)] and
    [... "highlighted" ...], behind [key_labels_.contains(name)]. *)
Definition set_modifier (name : QString) (kb : Keyboard) : Keyboard :=
  map (fun l => if String.eqb (keyName l) name
                then mkKeyLabel (keyName l) (highlighted l) true else l) kb.

Definition set_highlighted (name : QString) (kb : Keyboard) : Keyboard :=
  map (fun l => if String.eqb (keyName l) name
                then mkKeyLabel (keyName l) true (modifier l) else l) kb.

Definition UpdateVirtualKeyboard (highlight_keys : QString) (mods : Z)
           (kb : Keyboard) : Keyboard :=
  (* reset all keys *)
  let kb := map (fun l => mkKeyLabel (keyName l) false false) kb in
  (* highlight modifier keys *)
  let kb := if negb (Z.land mods Qt.ControlModifier =? 0)
            then set_modifier "Ctrl" kb else kb in
  let kb := if negb (Z.land mods Qt.ShiftModifier =? 0)
            then set_modifier "Shift" kb else kb in
  let kb := if negb (Z.land mods Qt.AltModifier =? 0)
            then set_modifier "Alt" kb else kb in
  (* highlight target keys, one character of [highlight_keys] at a time *)
  fold_left (fun kb ch => set_highlighted (String (char_toUpper ch) EmptyString) kb)
            (list_ascii_of_string highlight_keys) kb.

Definition Key_9 : Z := 0x39.

Definition GetKeyDisplayName (k : Z) : QString :=
  if k =? Qt.Key_Space then "Space"
  else if k =? Qt.Key_Tab then "Tab"
  else if k =? Qt.Key_CapsLock then "Caps"
  else if k =? Qt.Key_F1 then "F1"
  else if k =? Qt.Key_F2 then "F2"
  else if k =? Qt.Key_F3 then "F3"
  else if k =? Qt.Key_F4 then "F4"
  else if k =? Qt.Key_F5 then "F5"
  else if k =? Qt.Key_F6 then "F6"
  else if k =? Qt.Key_F7 then "F7"
  else if k =? Qt.Key_F8 then "F8"
  else if k =? Qt.Key_Exclam then "1"
  else if k =? Qt.Key_At then "2"
  else if k =? Qt.Key_NumberSign then "3"
  else if k =? Qt.Key_Dollar then "4"
  else if k =? Qt.Key_Percent then "5"
  else if (Qt.Key_0 <=? k) && (k <=? Key_9) then digit_label (k - Qt.Key_0)
  else if (Qt.Key_A <=? k) && (k <=? Qt.Key_Z)
       then String (ascii_of_nat (65 + Z.to_nat (k - Qt.Key_A))) EmptyString
  else EmptyString.

(** The arguments [ShowCurrentItem] passes to [UpdateVirtualKeyboard] for
    the item it shows. *)
Definition ShowCurrentItem_highlight (item : TrainingItem) : QString * Z :=
  match type item with
  | kSequence =>
      (match sequence item with
       | EmptyString => EmptyString
       | String c _ => String c EmptyString
       end, Qt.NoModifier)
  | kCombo => (GetKeyDisplayName (key item), modifiers item)
  | kSpecialKey => (label item, Qt.NoModifier)
  | kSingleKey => (label item, Qt.NoModifier)
  end.

(** The keyboard after [ShowCurrentItem]; with no valid current item it
    returns before touching the keyboard. *)
Definition ShowCurrentItem_keyboard (st : State) (kb : Keyboard) : Keyboard :=
  match current_item st with
  | None => kb
  | Some item =>
      UpdateVirtualKeyboard (fst (ShowCurrentItem_highlight item))
                            (snd (ShowCurrentItem_highlight item)) kb
  end.

(** * Vocabulary of the statements *)

(** ** Views of the state *)

(** The fields a judged round may change. *)
Definition round_state (st : State)
  : list TrainingItem * Z * Z * Z * Z :=
  (items_ st, current_index_ st, sequence_pos_ st,
   rounds_total_ st, rounds_correct_ st).

(** The mode parameters and the session flags. *)
Definition ctl (st : State) : TrainingMode * Z * Z * bool * bool * Z :=
  (mode_ st, target_rounds_ st, time_limit_seconds_ st,
   training_ st, paused_ st, remaining_seconds_ st).

(** The fields that drawing an item does not touch. *)
Definition session_fields (st : State) :=
  (ctl st, rounds_total_ st, rounds_correct_ st,
   paused_elapsed_ st, elapsed_ st, now st, history_ st).

(** The fields the time accounting reads and writes. *)
Definition accounting (st : State) : bool * bool * option Z * Z * Z :=
  (training_ st, paused_ st, elapsed_ st, paused_elapsed_ st, now st).

(** ** Predicates and measures on events *)

(** The match test of the Combo branch, as a proposition: same key code,
    and the same modifier set once the event's modifiers are masked to the
    Control / Shift / Alt / Meta bits. *)
Definition combo_matches (e : QKeyEvent) (item : TrainingItem) : Prop :=
  ev_key e = key item
  /\ Z.land (ev_modifiers e) modifier_mask = modifiers item.

(** What can still arrive once a session is over: key presses, timer
    ticks, close requests and clicks on the pause button. *)
Definition input_event (e : Event) : Prop :=
  match e with
  | EvKey _ _ | EvTick | EvClose _ | EvPause | EvResume => True
  | EvElapse _ | EvStart _ | EvStop => False
  end.

(** The events of a Timed session that nobody pauses, stops or restarts. *)
Definition uninterrupted (e : Event) : Prop :=
  match e with
  | EvElapse _ | EvTick | EvClose _ => True
  | EvKey event _ => ev_key event <> Qt.Key_Escape
  | EvStart _ | EvStop | EvPause | EvResume => False
  end.

(** The number of countdown ticks among the events. *)
Fixpoint ticks (evs : list Event) : Z :=
  match evs with
  | [] => 0
  | EvTick :: rest => 1 + ticks rest
  | _ :: rest => ticks rest
  end.

(** The time a session spends running (active and not paused) along a run
    of events: the quantity the statistics are meant to divide by. *)
Fixpoint running_time (evs : list Event) (st : State) : Z :=
  match evs with
  | [] => 0
  | e :: rest =>
      match e with
      | EvElapse ms => if training_ st && negb (paused_ st) then ms else 0
      | _ => 0
      end + running_time rest (step e st)
  end.

(** Saving the records [rs] one after the other, oldest first. *)
Definition save_all (rs : list SessionRecord) (h : list SessionRecord)
  : list SessionRecord :=
  fold_left (fun h r => prepend_record r h) rs h.

(** The records of [n] sessions, numbered 1 to [n] by their timestamps. *)
Definition numbered_records (n : nat) : list SessionRecord :=
  map (fun i => {| timestamp := Z.of_nat i;
                   total_rounds := 1;
                   correct_rounds := 1;
                   duration_seconds := Qmake 1 1;
                   difficulty := kBeginner;
                   mode := kEndless |})
      (seq 1 n).

(** ** Invariants of the mode controllers *)

(** A Challenge session with target [N]: the correct count never passes
    [N] and stays below it while the session runs. *)
Definition challenge_inv (N : Z) (st : State) : Prop :=
  mode_ st = kChallenge /\ target_rounds_ st = N
  /\ rounds_correct_ st <= N
  /\ (training_ st = true -> rounds_correct_ st < N).

(** Where a Timed session with limit [T] stands after [n] ticks. *)
Definition timed_phase (T n : Z) (st : State) : Prop :=
  mode_ st = kTimed
  /\ (n < T ->
      training_ st = true /\ paused_ st = false
      /\ remaining_seconds_ st = T - n)
  /\ (T <= n ->
      training_ st = false /\ remaining_seconds_ st = 0
      /\ target_label_ st = TgtTimeUp).

(** ** Example events and sessions *)

(** A key press that produces [txt], without modifiers. *)
Definition typed (k : Z) (txt : QString) : QKeyEvent :=
  {| ev_key := k; ev_text := txt; ev_modifiers := Qt.NoModifier |}.

(** A key press that produces no text, with modifiers [mods]. *)
Definition press (k mods : Z) : QKeyEvent :=
  {| ev_key := k; ev_text := EmptyString; ev_modifiers := mods |}.

(** [Qt::Key_Left], a navigation key. *)
Definition Key_Left : Z := 0x01000012.

(** Typing "1" and "2", each with draw 0 for the item that may follow. *)
Definition key_1 : Event := EvKey (typed (Qt.Key_0 + 1) "1") 0.
Definition key_2 : Event := EvKey (typed (Qt.Key_0 + 2) "2") 0.

(** The window with every item enabled, in mode [m], with a time limit of
    [time_limit] seconds and a target of [target] rounds, an empty history
    and the clock at 0. *)
Definition window (m : TrainingMode) (time_limit target : Z) : State :=
  TrainerWindow kAdvanced m time_limit target (all_toggles true) [] 0.

(** Endless sessions whose first draw picks the sequence "qwer" (the 96th
    item of the catalog), the combo Ctrl+S (the 58th) and the combo Alt+F4
    (the 74th). *)
Definition qwer_session : State := StartTraining 95 (window kEndless 60 50).
Definition ctrl_s_session : State := StartTraining 57 (window kEndless 60 50).
Definition alt_f4_session : State := StartTraining 73 (window kEndless 60 50).

Definition ctrl_s_item : TrainingItem :=
  MakeCombo Qt.ControlModifier Qt.Key_S "Ctrl+S" kIntermediate.

(** "qwer" with its first two characters typed. *)
Definition qwer_half_typed : State :=
  run [ EvKey (typed Qt.Key_Q "q") 7; EvKey (typed Qt.Key_W "w") 7 ]
      qwer_session.

(** Sessions whose first item (draw 0) is the single key "1". *)
Definition endless_session : State := StartTraining 0 (window kEndless 60 50).
Definition zen_session : State := StartTraining 0 (window kZen 60 50).

(** A session whose first item (draw 26) is the special key Space. *)
Definition space_session : State := StartTraining 26 (window kEndless 60 50).

(** A challenge of two rounds and a countdown of three seconds, not yet
    started. *)
Definition challenge_window : State := window kChallenge 60 2.
Definition timed_window : State := window kTimed 3 50.

(** ** Whole-program runs *)

(** The fields that judging a key or drawing an item never touches. *)
Definition frame (st : State) :=
  (all_items_ st, difficulty_ st, toggles st, ctl st, countdown_timer_ st,
   history_ st, elapsed_ st, paused_elapsed_ st, now st).

(** What a judged key can do to the round state of [st], the current item
    being [item] and the draw [rnd]. *)
Inductive round_outcome (st : State) (item : TrainingItem) (rnd : Z)
  : list TrainingItem * Z * Z * Z * Z -> Prop :=
| ro_failed :
    type item <> kSequence ->
    round_outcome st item rnd
      (items_ st, current_index_ st, sequence_pos_ st,
       rounds_total_ st + 1, rounds_correct_ st)
| ro_correct :
    round_outcome st item rnd
      (items_ st, bounded rnd (items_size st), 0,
       rounds_total_ st + 1, rounds_correct_ st + 1)
| ro_progress (p : Z) :
    type item = kSequence ->
    p = sequence_pos_ st \/ p = 0 ->
    0 <= p -> p + 1 < size (sequence item) ->
    round_outcome st item rnd
      (items_ st, current_index_ st, p + 1,
       rounds_total_ st, rounds_correct_ st)
| ro_mismatch :
    type item = kSequence ->
    round_outcome st item rnd
      (items_ st, current_index_ st, 0,
       rounds_total_ st + 1, rounds_correct_ st).

(** The sequence position fits the current item. *)
Definition position_ok (st : State) (item : TrainingItem) : Prop :=
  sequence_pos_ st = 0
  \/ (type item = kSequence /\ 0 < sequence_pos_ st < size (sequence item)).

(** What holds of every state the program can be in. *)
Definition session_wf (st : State) : Prop :=
  all_items_ st = InitAllTrainingItems
  /\ items_ st = filter_items (difficulty_ st) (toggles st) (all_items_ st)
  /\ 0 <= rounds_correct_ st <= rounds_total_ st
  /\ (paused_ st = true -> training_ st = true)
  /\ countdown_timer_ st
     = training_ st && negb (paused_ st) && TrainingMode_eqb (mode_ st) kTimed
  /\ (training_ st = true ->
      exists item, current_item st = Some item /\ position_ok st item).

(** The fields [session_wf] speaks about. *)
Definition wf_view (st : State) :=
  (all_items_ st, difficulty_ st, toggles st, round_state st,
   training_ st, paused_ st, countdown_timer_ st, mode_ st).

(** [items.at(idx)] behind the range check, on explicit arguments. *)
Definition item_at (items : list TrainingItem) (idx : Z)
  : option TrainingItem :=
  if (idx <? 0) || (idx >=? Z.of_nat (List.length items)) then None
  else nth_error items (Z.to_nat idx).

(** [session_wf] as a predicate on the view. *)
Definition wf_on (v : list TrainingItem * Difficulty * CustomToggles
                      * (list TrainingItem * Z * Z * Z * Z)
                      * bool * bool * bool * TrainingMode) : Prop :=
  let '(all, d, tg, (items, idx, pos, total, correct), tr, pa, cd, m) := v in
  all = InitAllTrainingItems
  /\ items = filter_items d tg all
  /\ 0 <= correct <= total
  /\ (pa = true -> tr = true)
  /\ cd = tr && negb pa && TrainingMode_eqb m kTimed
  /\ (tr = true ->
      exists item,
        item_at items idx = Some item
        /\ (pos = 0
            \/ (type item = kSequence /\ 0 < pos < size (sequence item)))).

(** The states of the program: the constructed window, then session events
    at any time and page events while no session is active (the settings
    and history buttons are disabled by [StartTraining] and enabled again
    by [StopTraining], and the pages hide the training page). *)
Inductive reachable : State -> Prop :=
| reach_window d m time_limit target c history t :
    reachable (TrainerWindow d m time_limit target c history t)
| reach_step e st :
    reachable st -> reachable (step e st)
| reach_page e st :
    reachable st -> training_ st = false -> reachable (page_step e st).

(** Typing the text [s], one key press per character; the key code of a
    character key is the code of its upper-case character. *)
Definition char_key (c : QChar) (rnd : Z) : Event :=
  EvKey (typed (Z.of_nat (nat_of_ascii (char_toUpper c)))
               (String c EmptyString)) rnd.

Definition type_text (s : QString) (rnd : Z) : list Event :=
  map (fun c => char_key c rnd) (list_ascii_of_string s).

(** * Properties *)

(** ** The difficulty filter *)

Lemma InitAllTrainingItems_nonempty : InitAllTrainingItems <> [].
Proof. discriminate. Qed.

Lemma filter_items_cases (d : Difficulty) (c : CustomToggles)
      (all : list TrainingItem) :
  (select_items d c all = [] /\ filter_items d c all = all)
  \/ (select_items d c all <> [] /\
      filter_items d c all = select_items d c all).
Proof.
  unfold filter_items.
  destruct (select_items d c all) as [|x xs].
  - left; split; reflexivity.
  - right; split; [discriminate | reflexivity].
Qed.

(** C5. For every difficulty and every setting of the four custom toggles,
    filtering a non-empty catalog leaves a non-empty working set: it is the
    selection of the per-tier / per-kind rule when that selects something,
    and the whole catalog when it selects nothing. *)
Theorem C5_filter_never_empty (st : State) :
  all_items_ st <> [] ->
  let sel := select_items (difficulty_ st) (toggles st) (all_items_ st) in
  items_ (FilterItemsByDifficulty st) <> []
  /\ (sel = [] -> items_ (FilterItemsByDifficulty st) = all_items_ st)
  /\ (sel <> [] -> items_ (FilterItemsByDifficulty st) = sel).
Proof.
  intros Hall sel. subst sel.
  cbn [FilterItemsByDifficulty set_items_ items_].
  destruct (filter_items_cases (difficulty_ st) (toggles st) (all_items_ st))
    as [[Hsel Hf] | [Hsel Hf]]; rewrite Hf.
  - split; [exact Hall | split; intros H].
    + reflexivity.
    + exfalso. exact (H Hsel).
  - split; [exact Hsel | split; intros H].
    + exfalso. exact (Hsel H).
    + reflexivity.
Qed.

(** The catalog under the Custom tier with every toggle off: the selection
    is empty and the working set is the whole catalog. *)
Lemma C5_filter_never_empty_witness :
  let st := TrainerWindow kCustom kEndless 60 50 (all_toggles false) [] 0 in
  items_ (FilterItemsByDifficulty st) <> []
  /\ items_ (FilterItemsByDifficulty st) = InitAllTrainingItems.
Proof.
  intros st.
  destruct (C5_filter_never_empty st) as (Hne & Hall & _).
  - exact InitAllTrainingItems_nonempty.
  - split; [exact Hne | apply Hall; reflexivity].
Defined.

(** Every tier on the catalog of the program. *)
Lemma filter_catalog_nonempty (d : Difficulty) (c : CustomToggles) :
  filter_items d c InitAllTrainingItems <> [].
Proof.
  destruct (filter_items_cases d c InitAllTrainingItems)
    as [[_ Hf] | [Hsel Hf]]; rewrite Hf.
  - exact InitAllTrainingItems_nonempty.
  - exact Hsel.
Qed.

(** ** The bounded history *)

Lemma firstn_removelast {A} (n : nat) (l : list A) :
  (n < List.length l)%nat -> firstn n (removelast l) = firstn n l.
Proof.
  revert n. induction l as [|x l IH]; intros n Hn.
  - reflexivity.
  - destruct l as [|y l'].
    + cbn in Hn. assert (n = 0)%nat by lia. subst. reflexivity.
    + change (removelast (x :: y :: l')) with (x :: removelast (y :: l')).
      destruct n as [|n]; [reflexivity|].
      cbn [firstn]. f_equal. apply IH. cbn in Hn |- *. lia.
Qed.

Lemma length_removelast {A} (l : list A) :
  List.length (removelast l) = pred (List.length l).
Proof.
  induction l as [|x l IH]; [reflexivity|].
  destruct l as [|y l']; [reflexivity|].
  change (removelast (x :: y :: l')) with (x :: removelast (y :: l')).
  cbn [List.length]. rewrite IH. reflexivity.
Qed.

Lemma keep_recent_loop_firstn (fuel : nat) :
  forall h, (List.length h <= fuel + kMaxHistoryRecords)%nat ->
            keep_recent_loop fuel h = firstn kMaxHistoryRecords h.
Proof.
  induction fuel as [|fuel IH]; intros h Hlen; cbn [keep_recent_loop].
  - symmetry. apply firstn_all2. lia.
  - destruct (kMaxHistoryRecords <? List.length h)%nat eqn:Hgt.
    + apply Nat.ltb_lt in Hgt.
      rewrite IH by (rewrite length_removelast; lia).
      apply firstn_removelast. exact Hgt.
    + apply Nat.ltb_ge in Hgt. symmetry. apply firstn_all2. exact Hgt.
Qed.

Lemma keep_recent_firstn (h : list SessionRecord) :
  keep_recent h = firstn kMaxHistoryRecords h.
Proof. apply keep_recent_loop_firstn. lia. Qed.




(** Saving 101 records into the empty history: 100 are left, the most
    recent (number 101) first, the oldest (number 1) evicted. *)
Example save_101_records :
  List.length (save_all (numbered_records 101) []) = 100%nat
  /\ map timestamp (save_all (numbered_records 101) [])
     = map Z.of_nat (rev (seq 2 100)).
Proof. vm_compute. split; reflexivity. Qed.

(** ** Stopping a session *)

(** The record rule of [StopTraining].  Stopping a session saves a record
    exactly when at least one round was counted and the mode is not Zen.
    In that case one record is put in front of the history, which is then
    cut to the 100 most recent entries: it holds the clock, the two
    counters, the difficulty and the mode, and as duration the reading of
    the elapsed timer plus [paused_elapsed_].  In Zen mode, and with no
    round counted, the history is left as it was. *)
Lemma StopTraining_record_rule (st : State) :
  let h' := history_ (StopTraining st) in
  (0 < rounds_total_ st -> mode_ st <> kZen ->
   h' = firstn kMaxHistoryRecords
          ({| timestamp := now st;
              total_rounds := rounds_total_ st;
              correct_rounds := rounds_correct_ st;
              duration_seconds :=
                Qmake (elapsed st + paused_elapsed_ st) 1000;
              difficulty := difficulty_ st;
              mode := mode_ st |} :: history_ st))
  /\ (mode_ st = kZen -> h' = history_ st)
  /\ (rounds_total_ st <= 0 -> h' = history_ st).
Proof.
  intros h'. subst h'. unfold StopTraining.
  cbn [set_countdown_timer_ rounds_total_ mode_].
  split; [|split].
  - intros Hpos Hmode.
    replace (rounds_total_ st >? 0) with true by (symmetry; lia).
    replace (TrainingMode_eqb (mode_ st) kZen) with false
      by (destruct (mode_ st); try reflexivity; congruence).
    cbn. unfold prepend_record. apply keep_recent_firstn.
  - intros Hzen. rewrite Hzen. rewrite andb_false_r. reflexivity.
  - intros Hzero.
    replace (rounds_total_ st >? 0) with false by (symmetry; lia).
    reflexivity.
Qed.

(** ** Key events: reaching the dispatch on the item kind *)

Lemma round_state_SaveSessionRecord (st : State) :
  round_state (SaveSessionRecord st) = round_state st.
Proof. reflexivity. Qed.

Lemma round_state_StopTraining (st : State) :
  round_state (StopTraining st) = round_state st.
Proof.
  unfold StopTraining.
  destruct ((rounds_total_ (set_countdown_timer_ false st) >? 0)
            && negb (TrainingMode_eqb
                       (mode_ (set_countdown_timer_ false st)) kZen));
    reflexivity.
Qed.

Lemma round_state_set_target_label_ (t : TargetText) (st : State) :
  round_state (set_target_label_ t st) = round_state st.
Proof. reflexivity. Qed.

Lemma round_state_challenge_check (st : State) :
  round_state (challenge_check st) = round_state st.
Proof.
  unfold challenge_check.
  destruct (TrainingMode_eqb (mode_ st) kChallenge
            && (rounds_correct_ st >=? target_rounds_ st)).
  - rewrite round_state_set_target_label_. apply round_state_StopTraining.
  - reflexivity.
Qed.

Lemma round_state_ShowCurrentItem (st : State) :
  round_state (ShowCurrentItem st) = round_state st.
Proof.
  unfold ShowCurrentItem.
  destruct (current_item st) as [item|]; [|reflexivity].
  destruct (type item); reflexivity.
Qed.

Lemma round_state_NextItem (rnd : Z) (st : State) :
  items_ st <> [] ->
  round_state (NextItem rnd st)
  = (items_ st, bounded rnd (items_size st), 0,
     rounds_total_ st, rounds_correct_ st).
Proof.
  intros Hne. unfold NextItem, items_isEmpty.
  destruct (items_ st) as [|x xs] eqn:Hitems; [contradiction|].
  rewrite round_state_ShowCurrentItem.
  unfold round_state. cbn. rewrite Hitems. reflexivity.
Qed.

Lemma bounded_range (rnd n : Z) : 0 < n -> 0 <= bounded rnd n < n.
Proof. intros Hn. unfold bounded. apply Z.mod_pos_bound. exact Hn. Qed.

Lemma current_item_in_range (st : State) (item : TrainingItem) :
  current_item st = Some item ->
  index_out_of_range st = false /\ items_ st <> [] /\ items_isEmpty st = false.
Proof.
  unfold current_item, items_isEmpty.
  destruct (index_out_of_range st); [discriminate|].
  intros Hnth. split; [reflexivity|].
  destruct (items_ st) as [|x xs].
  - destruct (Z.to_nat (current_index_ st)); discriminate.
  - split; [discriminate | reflexivity].
Qed.

Lemma items_size_pos (st : State) : items_ st <> [] -> 0 < items_size st.
Proof.
  unfold items_size. destruct (items_ st); [contradiction|].
  intros _. cbn [List.length]. lia.
Qed.

(** A key press received by a running session with a valid current item:
    pure modifiers are swallowed, Escape stops the session, every other key
    is judged against the item. *)
Lemma keyPressEvent_running (e : QKeyEvent) (rnd : Z) (st : State)
      (item : TrainingItem) :
  training_ st = true -> paused_ st = false ->
  current_item st = Some item ->
  keyPressEvent e rnd st
  = if is_pure_modifier (ev_key e) then track_keys e st
    else if ev_key e =? Qt.Key_Escape then StopTraining (track_keys e st)
         else judge_key e rnd item (track_keys e st).
Proof.
  intros Htr Hpa Hcur.
  destruct (current_item_in_range st item Hcur) as (Hidx & _ & Hemp).
  unfold keyPressEvent.
  rewrite Htr, Hpa, Hemp, Hidx. cbn [andb negb orb].
  change (current_item (track_keys e st)) with (current_item st).
  rewrite Hcur. reflexivity.
Qed.

Lemma keyPressEvent_dispatch (e : QKeyEvent) (rnd : Z) (st : State)
      (item : TrainingItem) :
  training_ st = true -> paused_ st = false ->
  current_item st = Some item ->
  is_pure_modifier (ev_key e) = false ->
  ev_key e <> Qt.Key_Escape ->
  keyPressEvent e rnd st = judge_key e rnd item (track_keys e st).
Proof.
  intros Htr Hpa Hcur Hmod Hesc.
  rewrite (keyPressEvent_running e rnd st item Htr Hpa Hcur), Hmod.
  replace (ev_key e =? Qt.Key_Escape) with false by (symmetry; lia).
  reflexivity.
Qed.

Lemma round_state_track_keys (e : QKeyEvent) (st : State) :
  round_state (track_keys e st) = round_state st.
Proof. reflexivity. Qed.

Lemma error_label_StopTraining (st : State) :
  error_label_ (StopTraining st) = ErrNone.
Proof. reflexivity. Qed.

Lemma training_StopTraining (st : State) :
  training_ (StopTraining st) = false.
Proof. reflexivity. Qed.

Lemma training_set_target_label_ (t : TargetText) (st : State) :
  training_ (set_target_label_ t st) = training_ st.
Proof. reflexivity. Qed.

Lemma challenge_check_cases (st : State) :
  (challenge_check st = st
   /\ (mode_ st = kChallenge -> rounds_correct_ st < target_rounds_ st))
  \/ (challenge_check st = set_target_label_ TgtChallengeDone (StopTraining st)
      /\ mode_ st = kChallenge /\ target_rounds_ st <= rounds_correct_ st).
Proof.
  unfold challenge_check.
  destruct (TrainingMode_eqb (mode_ st) kChallenge) eqn:Hm; cbn [andb].
  - destruct (rounds_correct_ st >=? target_rounds_ st) eqn:Hge.
    + right. split; [reflexivity|]. split; [|lia].
      destruct (mode_ st); try discriminate; reflexivity.
    + left. split; [reflexivity|]. intros _. lia.
  - left. split; [reflexivity|]. intros H. rewrite H in Hm. discriminate.
Qed.

Lemma challenge_check_still_training (st : State) :
  training_ (challenge_check st) = true -> challenge_check st = st.
Proof.
  destruct (challenge_check_cases st) as [[H _] | [H _]]; rewrite H.
  - reflexivity.
  - rewrite training_set_target_label_, training_StopTraining.
    discriminate.
Qed.

Lemma at_Some_range (s : QString) (i : Z) (c : QChar) :
  at_ s i = Some c -> 0 <= i < size s.
Proof.
  unfold at_, size. destruct (i <? 0) eqn:Hi; [discriminate|].
  apply Z.ltb_ge in Hi. intros Hget.
  assert (Hlt : (Z.to_nat i < String.length s)%nat).
  { clear Hi. revert s Hget. generalize (Z.to_nat i) as n.
    induction n as [|n IH]; intros [|a s] Hget; cbn in *;
      try discriminate; try lia.
    specialize (IH s Hget). lia. }
  lia.
Qed.

Lemma ascii_eqb_refl (c : QChar) : ascii_eqb c c = true.
Proof. apply Ascii.eqb_refl. Qed.

Lemma ascii_eqb_neq (a b : QChar) : a <> b -> ascii_eqb a b = false.
Proof. intros H. apply Ascii.eqb_neq. exact H. Qed.

(** ** Sequence items *)

(** The sequence branch once the typed character [ch] and the expected
    character at an in-range position are known. *)
Lemma judge_key_sequence (e : QKeyEvent) (rnd : Z) (item : TrainingItem)
      (st : State) (ch expected : QChar) (rest : QString) :
  type item = kSequence ->
  toLower (ev_text e) = String ch rest ->
  at_ (sequence item) (sequence_pos_ st) = Some expected ->
  judge_key e rnd item st
  = challenge_check
      (if ascii_eqb ch expected then
         let st := set_sequence_pos_ (sequence_pos_ st + 1) st in
         let st := UpdateErrorLabel ErrNone st in
         if sequence_pos_ st >=? size (sequence item) then
           let st := set_rounds_total_ (rounds_total_ st + 1) st in
           let st := set_rounds_correct_ (rounds_correct_ st + 1) st in
           NextItem rnd st
         else
           set_target_label_
             (TgtSequence (label item) (sequence_pos_ st)
                          (size (sequence item))) st
       else
         let st := set_rounds_total_ (rounds_total_ st + 1) st in
         let st := UpdateErrorLabel (ErrExpectedGot (Some expected) ch) st in
         let st := set_sequence_pos_ 0 st in
         set_target_label_
           (TgtSequence (label item) 0 (size (sequence item))) st).
Proof.
  intros Hty Htext Hat.
  pose proof (at_Some_range _ _ _ Hat) as Hrange.
  unfold judge_key. rewrite Hty, Htext.
  destruct (sequence item) as [|c0 s0] eqn:Hseq.
  { unfold size in Hrange. cbn in Hrange. lia. }
  cbn [isEmpty].
  replace ((sequence_pos_ st <? 0)
           || (sequence_pos_ st >=? size (String c0 s0))) with false.
  2:{ symmetry. apply orb_false_iff. split; lia. }
  rewrite Hat. reflexivity.
Qed.

Lemma current_item_same (st st' : State) :
  items_ st' = items_ st -> current_index_ st' = current_index_ st ->
  current_item st' = current_item st.
Proof.
  intros Hi Hc. unfold current_item, index_out_of_range, items_size.
  rewrite Hi, Hc. reflexivity.
Qed.

(** C2. A key judged against a Sequence item: when its first produced
    character is the one expected at the current position, the position
    advances by one, and on reaching the end of the sequence one round is
    counted as correct, the position returns to 0 and a new item is drawn
    from the working set; when it is another character, one failed attempt
    is counted, the position returns to 0 and the item stays current. *)
Theorem C2_sequence_rounds (st : State) (e : QKeyEvent) (rnd : Z)
        (item : TrainingItem) (ch : QChar) (rest : QString) :
  training_ st = true -> paused_ st = false ->
  current_item st = Some item -> type item = kSequence ->
  is_pure_modifier (ev_key e) = false -> ev_key e <> Qt.Key_Escape ->
  toLower (ev_text e) = String ch rest ->
  let st' := keyPressEvent e rnd st in
  let seq := sequence item in
  let pos := sequence_pos_ st in
  (at_ seq pos = Some ch -> pos + 1 < size seq ->
   round_state st'
   = (items_ st, current_index_ st, pos + 1,
      rounds_total_ st, rounds_correct_ st))
  /\ (at_ seq pos = Some ch -> pos + 1 = size seq ->
      round_state st'
      = (items_ st, bounded rnd (items_size st), 0,
         rounds_total_ st + 1, rounds_correct_ st + 1)
      /\ 0 <= current_index_ st' < items_size st')
  /\ (forall expected, at_ seq pos = Some expected -> expected <> ch ->
      round_state st'
      = (items_ st, current_index_ st, 0,
         rounds_total_ st + 1, rounds_correct_ st)
      /\ current_item st' = Some item).
Proof.
  intros Htr Hpa Hcur Hty Hmod Hesc Htext st' seq pos.
  destruct (current_item_in_range st item Hcur) as (_ & Hne & _).
  assert (Hd : st' = judge_key e rnd item (track_keys e st))
    by (apply keyPressEvent_dispatch; assumption).
  assert (Hj := judge_key_sequence e rnd item (track_keys e st) ch).
  change (sequence_pos_ (track_keys e st)) with pos in Hj.
  fold seq in Hj.
  split; [|split].
  - intros Hat Hlt. rewrite Hd, (Hj ch rest Hty Htext Hat).
    rewrite ascii_eqb_refl, round_state_challenge_check.
    cbn [set_sequence_pos_ UpdateErrorLabel set_error_label_ sequence_pos_].
    replace (pos + 1 >=? size seq) with false by (symmetry; lia).
    reflexivity.
  - intros Hat Heq.
    assert (Hrs : round_state st'
                  = (items_ st, bounded rnd (items_size st), 0,
                     rounds_total_ st + 1, rounds_correct_ st + 1)).
    { rewrite Hd, (Hj ch rest Hty Htext Hat).
      rewrite ascii_eqb_refl, round_state_challenge_check.
      cbn [set_sequence_pos_ UpdateErrorLabel set_error_label_ sequence_pos_].
      replace (pos + 1 >=? size seq) with true by (symmetry; lia).
      rewrite round_state_NextItem by exact Hne. reflexivity. }
    split; [exact Hrs|].
    unfold round_state in Hrs. injection Hrs as Hi Hc _ _ _.
    rewrite Hc.
    replace (items_size st') with (items_size st)
      by (unfold items_size; rewrite Hi; reflexivity).
    apply bounded_range, items_size_pos, Hne.
  - intros expected Hat Hneq.
    assert (Hrs : round_state st'
                  = (items_ st, current_index_ st, 0,
                     rounds_total_ st + 1, rounds_correct_ st)).
    { rewrite Hd, (Hj expected rest Hty Htext Hat).
      rewrite ascii_eqb_neq by congruence.
      rewrite round_state_challenge_check. reflexivity. }
    split; [exact Hrs|].
    unfold round_state in Hrs. injection Hrs as Hi Hc _ _ _.
    rewrite (current_item_same st st' Hi Hc). exact Hcur.
Qed.

(** *** The "qwer" item of the catalog *)

Example qwer_session_item :
  current_item qwer_session = Some (MakeSequence "qwer" kAdvanced)
  /\ sequence (MakeSequence "qwer" kAdvanced) = "qwer"%string
  /\ round_state qwer_session = (InitAllTrainingItems, 95, 0, 0, 0).
Proof. vm_compute. repeat split. Qed.

Lemma C2_sequence_rounds_witness :
  round_state (keyPressEvent (typed Qt.Key_Q "q") 7 qwer_session)
  = (items_ qwer_session, current_index_ qwer_session,
     sequence_pos_ qwer_session + 1,
     rounds_total_ qwer_session, rounds_correct_ qwer_session).
Proof.
  refine (proj1 (C2_sequence_rounds
                   qwer_session (typed Qt.Key_Q "q") 7
                   (MakeSequence "qwer" kAdvanced) "q"%char ""%string
                   _ _ _ _ _ _ _) _ _).
  - vm_compute. reflexivity.
  - vm_compute. reflexivity.
  - vm_compute. reflexivity.
  - reflexivity.
  - reflexivity.
  - discriminate.
  - reflexivity.
  - vm_compute. reflexivity.
  - vm_compute. reflexivity.
Defined.

(** Typing q, w, e, r: the position goes 1, 2, 3 and, with the fourth key,
    one correct round is counted and the next item (here the 8th) is drawn.
    Typing q, w, x: one failed attempt, the position back at 0, the item
    still current. *)
Example qwer_typed_in_order :
  let keys := [ EvKey (typed Qt.Key_Q "q") 7; EvKey (typed Qt.Key_W "w") 7;
                EvKey (typed Qt.Key_E "e") 7; EvKey (typed Qt.Key_R "r") 7 ] in
  map (fun n => sequence_pos_ (run (firstn n keys) qwer_session))
      [0; 1; 2; 3; 4]%nat = [0; 1; 2; 3; 0]
  /\ map (fun n => (rounds_total_ (run (firstn n keys) qwer_session),
                    rounds_correct_ (run (firstn n keys) qwer_session)))
         [0; 1; 2; 3; 4]%nat = [(0, 0); (0, 0); (0, 0); (0, 0); (1, 1)]
  /\ current_index_ (run keys qwer_session) = 7.
Proof. vm_compute. repeat split. Qed.

Example qwer_typed_wrong :
  let keys := [ EvKey (typed Qt.Key_Q "q") 7; EvKey (typed Qt.Key_W "w") 7;
                EvKey (typed Qt.Key_X "x") 7 ] in
  round_state (run keys qwer_session) = (InitAllTrainingItems, 95, 0, 1, 0)
  /\ current_item (run keys qwer_session)
     = Some (MakeSequence "qwer" kAdvanced)
  /\ error_label_ (run keys qwer_session)
     = ErrExpectedGot (Some "e"%char) "x"%char.
Proof. vm_compute. repeat split. Qed.

(** ** Key events without text *)

Lemma toLower_empty (s : QString) : s = EmptyString -> toLower s = EmptyString.
Proof. intros ->. reflexivity. Qed.

Lemma judge_key_no_text (e : QKeyEvent) (rnd : Z) (item : TrainingItem)
      (st : State) :
  type item = kSingleKey \/ type item = kSequence ->
  ev_text e = EmptyString ->
  judge_key e rnd item st = st.
Proof.
  intros [Hty | Hty] Htext; unfold judge_key;
    rewrite Hty, (toLower_empty _ Htext); reflexivity.
Qed.

(** C10. A key press without text, received by a running, unpaused session
    whose current item is a SingleKey or a Sequence item, changes neither
    the round counters nor the sequence position nor the current item, and
    sets no error message.  Unless the key is Escape (which stops the
    session before any item is looked at) the only trace of the event is
    the pressed-key bookkeeping of the virtual keyboard. *)
Theorem C10_empty_text_ignored (st : State) (e : QKeyEvent) (rnd : Z)
        (item : TrainingItem) :
  training_ st = true -> paused_ st = false ->
  current_item st = Some item ->
  type item = kSingleKey \/ type item = kSequence ->
  ev_text e = EmptyString ->
  let st' := keyPressEvent e rnd st in
  round_state st' = round_state st
  /\ current_item st' = Some item
  /\ (error_label_ st' = error_label_ st \/ error_label_ st' = ErrNone)
  /\ (ev_key e <> Qt.Key_Escape -> st' = track_keys e st).
Proof.
  intros Htr Hpa Hcur Hty Htext st'.
  assert (Hst' : st' = if is_pure_modifier (ev_key e) then track_keys e st
                       else if ev_key e =? Qt.Key_Escape
                            then StopTraining (track_keys e st)
                            else track_keys e st).
  { subst st'. rewrite (keyPressEvent_running e rnd st item Htr Hpa Hcur).
    rewrite (judge_key_no_text e rnd item _ Hty Htext). reflexivity. }
  assert (Hrs : round_state st' = round_state st).
  { rewrite Hst'.
    destruct (is_pure_modifier (ev_key e)); [reflexivity|].
    destruct (ev_key e =? Qt.Key_Escape); [|reflexivity].
    rewrite round_state_StopTraining. reflexivity. }
  split; [exact Hrs|]. split; [|split].
  - unfold round_state in Hrs. injection Hrs as Hi Hc _ _ _.
    rewrite (current_item_same st st' Hi Hc). exact Hcur.
  - rewrite Hst'.
    destruct (is_pure_modifier (ev_key e)); [left; reflexivity|].
    destruct (ev_key e =? Qt.Key_Escape); [|left; reflexivity].
    right. apply error_label_StopTraining.
  - intros Hesc. rewrite Hst'.
    replace (ev_key e =? Qt.Key_Escape) with false by (symmetry; lia).
    destruct (is_pure_modifier (ev_key e)); reflexivity.
Qed.

Lemma C10_empty_text_ignored_witness :
  round_state (keyPressEvent (typed Key_Left "") 7 qwer_half_typed)
  = round_state qwer_half_typed
  /\ round_state qwer_half_typed = (InitAllTrainingItems, 95, 2, 0, 0).
Proof.
  split.
  - refine (proj1 (C10_empty_text_ignored
                     qwer_half_typed (typed Key_Left "") 7
                     (MakeSequence "qwer" kAdvanced) _ _ _ _ _)).
    + vm_compute. reflexivity.
    + vm_compute. reflexivity.
    + vm_compute. reflexivity.
    + right. reflexivity.
    + reflexivity.
  - vm_compute. reflexivity.
Defined.

(** ** Combo items *)





(** *** The Ctrl+S item of the catalog *)


(** Ctrl+S matches the item, also from the keypad; Ctrl+Shift+S does not
    and is counted as a failed attempt. *)
Example ctrl_s_events :
  combo_matches (press Qt.Key_S Qt.ControlModifier) ctrl_s_item
  /\ combo_matches
       (press Qt.Key_S (Z.lor Qt.ControlModifier Qt.KeypadModifier))
       ctrl_s_item
  /\ ~ combo_matches
       (press Qt.Key_S (Z.lor Qt.ControlModifier Qt.ShiftModifier))
       ctrl_s_item
  /\ round_state
       (keyPressEvent
          (press Qt.Key_S (Z.lor Qt.ControlModifier Qt.ShiftModifier)) 3
          ctrl_s_session)
     = (InitAllTrainingItems, 57, 0, 1, 0)
  /\ error_label_
       (keyPressEvent
          (press Qt.Key_S (Z.lor Qt.ControlModifier Qt.ShiftModifier)) 3
          ctrl_s_session)
     = ErrPleasePress "Ctrl+S".
Proof.
  split; [split; reflexivity|].
  split; [split; reflexivity|].
  split; [intros [_ H]; vm_compute in H; discriminate|].
  split; vm_compute; reflexivity.
Qed.

(** ** The Alt+F4 item and window-close requests *)


Lemma round_state_ResumeTraining (st : State) :
  round_state (ResumeTraining st) = round_state st.
Proof.
  unfold ResumeTraining.
  destruct (negb (training_ st) || negb (paused_ st)); [reflexivity|].
  rewrite round_state_ShowCurrentItem.
  destruct (TrainingMode_eqb
              (mode_ (elapsed_restart (set_paused_ false st))) kTimed);
    reflexivity.
Qed.


(** *** The Alt+F4 item of the catalog *)

Example alt_f4_session_item :
  current_item alt_f4_session
  = Some (MakeCombo Qt.AltModifier Qt.Key_F4 "Alt+F4" kAdvanced)
  /\ IsCurrentItemAltF4 alt_f4_session = true
  /\ IsCurrentItemAltF4 ctrl_s_session = false.
Proof. vm_compute. repeat split. Qed.


(** ** What a judged key leaves alone *)

Lemma ctl_ShowCurrentItem (st : State) : ctl (ShowCurrentItem st) = ctl st.
Proof.
  unfold ShowCurrentItem.
  destruct (current_item st) as [item|]; [|reflexivity].
  destruct (type item); reflexivity.
Qed.

Lemma ctl_NextItem (rnd : Z) (st : State) : ctl (NextItem rnd st) = ctl st.
Proof.
  unfold NextItem. destruct (items_isEmpty st); [reflexivity|].
  rewrite ctl_ShowCurrentItem. reflexivity.
Qed.

Lemma rounds_correct_NextItem (rnd : Z) (st : State) :
  rounds_correct_ (NextItem rnd st) = rounds_correct_ st.
Proof.
  unfold NextItem. destruct (items_isEmpty st); [reflexivity|].
  unfold ShowCurrentItem.
  destruct (current_item _) as [item|]; [|reflexivity].
  destruct (type item); reflexivity.
Qed.

Lemma ctl_StopTraining (st : State) :
  ctl (StopTraining st)
  = (mode_ st, target_rounds_ st, time_limit_seconds_ st,
     false, false, remaining_seconds_ st).
Proof.
  unfold StopTraining.
  destruct ((rounds_total_ (set_countdown_timer_ false st) >? 0)
            && negb (TrainingMode_eqb
                       (mode_ (set_countdown_timer_ false st)) kZen));
    reflexivity.
Qed.

Lemma rounds_correct_StopTraining (st : State) :
  rounds_correct_ (StopTraining st) = rounds_correct_ st.
Proof.
  pose proof (round_state_StopTraining st) as H.
  unfold round_state in H. congruence.
Qed.

Lemma target_label_StopTraining (st : State) :
  target_label_ (StopTraining st) = TgtEnded.
Proof. reflexivity. Qed.

Lemma ctl_eq_inv (st : State) (m : TrainingMode) (t l : Z) (tr pa : bool)
      (r : Z) :
  ctl st = (m, t, l, tr, pa, r) ->
  mode_ st = m /\ target_rounds_ st = t /\ time_limit_seconds_ st = l
  /\ training_ st = tr /\ paused_ st = pa /\ remaining_seconds_ st = r.
Proof. unfold ctl. intros H. inversion H. repeat split. Qed.

(** Every branch of the dispatch either returns without judging or ends in
    the challenge check, after counting at most one correct round. *)
Lemma judge_key_shape (e : QKeyEvent) (rnd : Z) (item : TrainingItem)
      (st : State) :
  exists s,
    ctl s = ctl st
    /\ rounds_correct_ st <= rounds_correct_ s <= rounds_correct_ st + 1
    /\ ((judge_key e rnd item st = s
         /\ rounds_correct_ s = rounds_correct_ st)
        \/ judge_key e rnd item st = challenge_check s).
Proof.
  assert (Hnext : forall s,
             ctl s = ctl st ->
             rounds_correct_ s = rounds_correct_ st + 1 ->
             ctl (NextItem rnd s) = ctl st
             /\ rounds_correct_ st <= rounds_correct_ (NextItem rnd s)
                <= rounds_correct_ st + 1).
  { intros s Hc Hr. rewrite ctl_NextItem, rounds_correct_NextItem. split.
    - exact Hc.
    - lia. }
  unfold judge_key. destruct (type item).
  - (* kSingleKey *)
    destruct (toLower (ev_text e)) as [|ch rest].
    { exists st. split; [reflexivity|]. split; [lia|]. left. split; reflexivity. }
    destruct (at_ (sequence item) 0) as [expected|].
    + destruct (ascii_eqb ch expected).
      * eexists. split; [|split; [|right; reflexivity]];
          apply Hnext; reflexivity.
      * eexists. split; [|split; [|right; reflexivity]];
          [reflexivity | cbn; lia].
    + eexists. split; [|split; [|right; reflexivity]];
        [reflexivity | cbn; lia].
  - (* kCombo *)
    destruct (IsCurrentItemAltF4 st).
    { exists st. split; [reflexivity|]. split; [lia|]. left. split; reflexivity. }
    destruct ((ev_key e =? key item)
              && (Z.land (ev_modifiers e) modifier_mask =? modifiers item)).
    + eexists. split; [|split; [|right; reflexivity]];
        apply Hnext; reflexivity.
    + eexists. split; [|split; [|right; reflexivity]];
        [reflexivity | cbn; lia].
  - (* kSequence *)
    destruct (toLower (ev_text e)) as [|ch rest].
    { exists st. split; [reflexivity|]. split; [lia|]. left. split; reflexivity. }
    destruct (isEmpty (sequence item)).
    { exists st. split; [reflexivity|]. split; [lia|]. left. split; reflexivity. }
    set (st1 := if (sequence_pos_ st <? 0)
                   || (sequence_pos_ st >=? size (sequence item))
                then set_sequence_pos_ 0 st else st).
    assert (Hst1 : ctl st1 = ctl st
                   /\ rounds_correct_ st1 = rounds_correct_ st).
    { subst st1. destruct ((sequence_pos_ st <? 0)
                           || (sequence_pos_ st >=? size (sequence item)));
        split; reflexivity. }
    destruct Hst1 as [Hc1 Hr1].
    destruct (at_ (sequence item) (sequence_pos_ st1)) as [expected|].
    2:{ exists st1. split; [exact Hc1|]. split; [lia|]. left.
        split; [reflexivity | exact Hr1]. }
    destruct (ascii_eqb ch expected).
    + cbn [sequence_pos_ set_sequence_pos_ UpdateErrorLabel set_error_label_].
      destruct (sequence_pos_ st1 + 1 >=? size (sequence item)).
      * eexists. split; [|split; [|right; reflexivity]].
        -- rewrite ctl_NextItem. exact Hc1.
        -- rewrite rounds_correct_NextItem. cbn. lia.
      * eexists. split; [|split; [|right; reflexivity]].
        -- exact Hc1.
        -- cbn. lia.
    + eexists. split; [|split; [|right; reflexivity]].
      * exact Hc1.
      * cbn. lia.
  - (* kSpecialKey *)
    destruct (ev_key e =? key item).
    + eexists. split; [|split; [|right; reflexivity]];
        apply Hnext; reflexivity.
    + eexists. split; [|split; [|right; reflexivity]];
        [reflexivity | cbn; lia].
Qed.

(** ** Running a fresh session *)

Lemma items_after_filter (st : State) :
  all_items_ st <> [] ->
  items_isEmpty (if items_isEmpty st then FilterItemsByDifficulty st else st)
  = false.
Proof.
  intros Hall. destruct (items_isEmpty st) eqn:He; [|exact He].
  unfold items_isEmpty. cbn [FilterItemsByDifficulty set_items_ items_].
  destruct (filter_items_cases (difficulty_ st) (toggles st) (all_items_ st))
    as [[_ Hf] | [Hsel Hf]]; rewrite Hf.
  - destruct (all_items_ st); [contradiction | reflexivity].
  - destruct (select_items _ _ _); [contradiction | reflexivity].
Qed.

Lemma session_fields_NextItem (rnd : Z) (st : State) :
  session_fields (NextItem rnd st) = session_fields st.
Proof.
  unfold NextItem. destruct (items_isEmpty st); [reflexivity|].
  unfold ShowCurrentItem.
  destruct (current_item _) as [item|]; [|reflexivity].
  destruct (type item); reflexivity.
Qed.

(** A start that finds something to present: the counters are zero, the
    session is running, the elapsed timer is restarted, and a Timed session
    has its countdown seeded. *)
Lemma StartTraining_started (rnd : Z) (st : State) :
  items_isEmpty (if items_isEmpty st then FilterItemsByDifficulty st else st)
  = false ->
  session_fields (StartTraining rnd st)
  = ((mode_ st, target_rounds_ st, time_limit_seconds_ st, true, false,
      match mode_ st with
      | kTimed => time_limit_seconds_ st
      | _ => remaining_seconds_ st
      end),
     0, 0, 0, Some (now st), now st, history_ st).
Proof.
  intros Hne. unfold StartTraining. rewrite Hne.
  rewrite session_fields_NextItem.
  destruct (items_isEmpty st);
    match goal with
    | |- context [match mode_ ?X with kTimed => _ | _ => _ end] =>
        change (mode_ X) with (mode_ st)
    end;
    destruct (mode_ st) eqn:Hm; unfold session_fields, ctl; cbn;
    rewrite ?Hm; reflexivity.
Qed.

Lemma StartTraining_fresh (rnd : Z) (st : State) :
  all_items_ st <> [] ->
  session_fields (StartTraining rnd st)
  = ((mode_ st, target_rounds_ st, time_limit_seconds_ st, true, false,
      match mode_ st with
      | kTimed => time_limit_seconds_ st
      | _ => remaining_seconds_ st
      end),
     0, 0, 0, Some (now st), now st, history_ st).
Proof.
  intros Hall. apply StartTraining_started, items_after_filter, Hall.
Qed.

(** An invariant of [step] holds all along a run. *)
Lemma run_invariant (P : State -> Prop) (allowed : Event -> Prop) :
  (forall e st, allowed e -> P st -> P (step e st)) ->
  forall evs st, Forall allowed evs -> P st -> P (run evs st).
Proof.
  intros Hstep evs. induction evs as [|e evs IH]; intros st Hall HP.
  - exact HP.
  - cbn [run]. inversion Hall as [|e' evs' He Hevs]; subst.
    apply IH; [exact Hevs | apply Hstep; assumption].
Qed.

(** The possible outcomes of a key press. *)
Lemma keyPressEvent_cases (e : QKeyEvent) (rnd : Z) (st : State) :
  (paused_ st = true /\ keyPressEvent e rnd st = ResumeTraining st)
  \/ keyPressEvent e rnd st = st
  \/ (training_ st = true /\ paused_ st = false
      /\ (keyPressEvent e rnd st = track_keys e st
          \/ (ev_key e = Qt.Key_Escape
              /\ keyPressEvent e rnd st = StopTraining (track_keys e st))
          \/ (ev_key e <> Qt.Key_Escape
              /\ exists item,
                keyPressEvent e rnd st
                = judge_key e rnd item (track_keys e st)))).
Proof.
  unfold keyPressEvent.
  destruct (paused_ st) eqn:Hpa; cbn [andb].
  - destruct (ev_key e =? Qt.Key_Space).
    + left. split; reflexivity.
    + right. left. rewrite orb_true_r. reflexivity.
  - destruct (training_ st) eqn:Htr; cbn [negb orb].
    2:{ right. left. reflexivity. }
    destruct (items_isEmpty st || index_out_of_range st).
    { right. left. reflexivity. }
    right. right. split; [reflexivity|]. split; [reflexivity|].
    destruct (is_pure_modifier (ev_key e)); [left; reflexivity|].
    destruct (ev_key e =? Qt.Key_Escape) eqn:Hesc.
    + right. left. split; [lia | reflexivity].
    + destruct (current_item (track_keys e st)) as [item|].
      * right. right. split; [lia|]. exists item. reflexivity.
      * left. reflexivity.
Qed.

Lemma rounds_correct_ShowCurrentItem (st : State) :
  rounds_correct_ (ShowCurrentItem st) = rounds_correct_ st.
Proof.
  pose proof (round_state_ShowCurrentItem st) as H.
  unfold round_state in H. congruence.
Qed.

Lemma ctl_ResumeTraining (st : State) :
  ctl (ResumeTraining st)
  = (mode_ st, target_rounds_ st, time_limit_seconds_ st,
     training_ st, paused_ st && negb (training_ st), remaining_seconds_ st)
  /\ rounds_correct_ (ResumeTraining st) = rounds_correct_ st.
Proof.
  unfold ResumeTraining.
  destruct (training_ st) eqn:Htr, (paused_ st) eqn:Hpa; cbn [negb orb andb];
    try (unfold ctl; rewrite Htr, Hpa; split; reflexivity).
  rewrite ctl_ShowCurrentItem, rounds_correct_ShowCurrentItem.
  destruct (TrainingMode_eqb
              (mode_ (elapsed_restart (set_paused_ false st))) kTimed);
    unfold ctl; cbn; rewrite Htr; split; reflexivity.
Qed.

Lemma ctl_PauseTraining (st : State) :
  ctl (PauseTraining st)
  = (mode_ st, target_rounds_ st, time_limit_seconds_ st,
     training_ st, training_ st || paused_ st, remaining_seconds_ st)
  /\ rounds_correct_ (PauseTraining st) = rounds_correct_ st.
Proof.
  unfold PauseTraining, ctl.
  destruct (training_ st) eqn:Htr, (paused_ st) eqn:Hpa; cbn;
    rewrite ?Htr, ?Hpa; split; reflexivity.
Qed.

Lemma ctl_set_target_label_ (t : TargetText) (st : State) :
  ctl (set_target_label_ t st) = ctl st.
Proof. reflexivity. Qed.

Lemma rounds_correct_set_target_label_ (t : TargetText) (st : State) :
  rounds_correct_ (set_target_label_ t st) = rounds_correct_ st.
Proof. reflexivity. Qed.

Lemma target_label_set_target_label_ (t : TargetText) (st : State) :
  target_label_ (set_target_label_ t st) = t.
Proof. reflexivity. Qed.

(** A session stopped by the challenge check or by the countdown: the
    flags are cleared, everything else in [ctl] and the correct count are
    kept, the label is the one set after [StopTraining]. *)
Lemma stopped_with_label (t : TargetText) (st : State) :
  ctl (set_target_label_ t (StopTraining st))
  = (mode_ st, target_rounds_ st, time_limit_seconds_ st,
     false, false, remaining_seconds_ st)
  /\ rounds_correct_ (set_target_label_ t (StopTraining st))
     = rounds_correct_ st
  /\ target_label_ (set_target_label_ t (StopTraining st)) = t.
Proof.
  rewrite ctl_set_target_label_, ctl_StopTraining.
  rewrite rounds_correct_set_target_label_, rounds_correct_StopTraining.
  rewrite target_label_set_target_label_. repeat split.
Qed.

(** Outside Challenge mode the check does nothing. *)
Lemma challenge_check_other_mode (st : State) :
  mode_ st <> kChallenge -> challenge_check st = st.
Proof.
  intros Hm. unfold challenge_check.
  replace (TrainingMode_eqb (mode_ st) kChallenge) with false
    by (destruct (mode_ st); try reflexivity; congruence).
  reflexivity.
Qed.

(** The close request that is counted as a round. *)
Lemma closeEvent_cases (rnd : Z) (st : State) :
  closeEvent rnd st = (st, true) /\ training_ st = false
  \/ closeEvent rnd st = (UpdateErrorLabel ErrCloseBlocked st, false)
  \/ (training_ st = true
      /\ exists s, ctl s = ctl st
                   /\ rounds_correct_ s = rounds_correct_ st + 1
                   /\ closeEvent rnd st = (challenge_check s, false)).
Proof.
  unfold closeEvent. destruct (training_ st) eqn:Htr.
  - destruct (IsCurrentItemAltF4 st).
    + right. right. split; [reflexivity|]. eexists.
      split; [|split; [|reflexivity]].
      * rewrite ctl_NextItem. reflexivity.
      * rewrite rounds_correct_NextItem. reflexivity.
    + right. left. reflexivity.
  - left. split; reflexivity.
Qed.

Lemma OnTimerTick_other_mode (st : State) :
  mode_ st <> kTimed -> OnTimerTick st = st.
Proof.
  intros Hm. unfold OnTimerTick.
  replace (TrainingMode_eqb (mode_ st) kTimed) with false
    by (destruct (mode_ st); try reflexivity; congruence).
  destruct (negb (training_ st) || paused_ st); reflexivity.
Qed.

(** Start either finds nothing to present and returns, or begins a fresh
    session. *)
Lemma StartTraining_cases (rnd : Z) (st : State) :
  (ctl (StartTraining rnd st) = ctl st
   /\ rounds_correct_ (StartTraining rnd st) = rounds_correct_ st)
  \/ (ctl (StartTraining rnd st)
      = (mode_ st, target_rounds_ st, time_limit_seconds_ st, true, false,
         match mode_ st with
         | kTimed => time_limit_seconds_ st
         | _ => remaining_seconds_ st
         end)
      /\ rounds_correct_ (StartTraining rnd st) = 0).
Proof.
  destruct (items_isEmpty
              (if items_isEmpty st then FilterItemsByDifficulty st else st))
    eqn:He.
  - left. unfold StartTraining. rewrite He.
    destruct (items_isEmpty st); split; reflexivity.
  - right. pose proof (StartTraining_started rnd st He) as Hf.
    unfold session_fields in Hf.
    remember (ctl (StartTraining rnd st)) as c eqn:Ec.
    injection Hf as Hc _ Hrc _ _ _ _.
    split; assumption.
Qed.

Lemma step_when_stopped (e : Event) (st : State) :
  training_ st = false ->
  (input_event e -> step e st = st)
  /\ ((forall r, e <> EvStart r) ->
      training_ (step e st) = false
      /\ rounds_total_ (step e st) = rounds_total_ st
      /\ rounds_correct_ (step e st) = rounds_correct_ st).
Proof.
  intros Htr.
  assert (Hin : input_event e -> step e st = st).
  { destruct e; cbn [input_event step]; intros Hi; try contradiction.
    - unfold PauseTraining. rewrite Htr. reflexivity.
    - unfold ResumeTraining. rewrite Htr. reflexivity.
    - unfold OnTimerTick. rewrite Htr. reflexivity.
    - unfold keyPressEvent, ResumeTraining. rewrite Htr. cbn [negb orb].
      destruct (paused_ st && (ev_key event =? Qt.Key_Space)); reflexivity.
    - unfold closeEvent. rewrite Htr. reflexivity. }
  split; [exact Hin|]. intros Hns.
  destruct e; try (rewrite Hin by exact I; repeat split; assumption).
  - cbn [step]. repeat split; assumption.
  - exfalso. exact (Hns rnd eq_refl).
  - cbn [step]. pose proof (round_state_StopTraining st) as Hrs.
    unfold round_state in Hrs. injection Hrs as _ _ _ Ht Hc.
    rewrite training_StopTraining. repeat split; assumption.
Qed.

(** ** Challenge mode *)

Section Challenge.

Variable N : Z.
Hypothesis HN : 1 <= N.

Lemma challenge_inv_transfer (st s : State) :
  challenge_inv N st ->
  mode_ s = mode_ st -> target_rounds_ s = target_rounds_ st ->
  rounds_correct_ s = rounds_correct_ st ->
  (training_ s = true -> training_ st = true) ->
  challenge_inv N s.
Proof.
  intros (Hm & Ht & Hle & Hlt) Hm' Ht' Hr' Htr'.
  unfold challenge_inv. rewrite Hm', Ht', Hr'.
  repeat split; try assumption. intros H. apply Hlt, Htr', H.
Qed.

(** The check after a round of a running session. *)
Lemma challenge_check_round (st s : State) :
  challenge_inv N st -> training_ st = true ->
  ctl s = ctl st ->
  rounds_correct_ st <= rounds_correct_ s <= rounds_correct_ st + 1 ->
  challenge_inv N (challenge_check s)
  /\ (rounds_correct_ (challenge_check s) = N ->
      training_ (challenge_check s) = false
      /\ target_label_ (challenge_check s) = TgtChallengeDone).
Proof.
  intros (Hm & Ht & Hle & Hlt) Htr Hc Hr.
  specialize (Hlt Htr).
  apply ctl_eq_inv in Hc as (Hms & Hts & _ & Htrs & _ & _).
  rewrite Hm in Hms. rewrite Ht in Hts.
  destruct (challenge_check_cases s) as [[He Hno] | [He [_ Hge]]];
    rewrite He.
  - specialize (Hno Hms). rewrite Hts in Hno. split.
    + unfold challenge_inv. repeat split; try assumption; lia.
    + intros HeqN. lia.
  - destruct (stopped_with_label TgtChallengeDone s) as (Hctl & Hrc & Hlab).
    apply ctl_eq_inv in Hctl as (Hm' & Ht' & _ & Htr' & _ & _).
    split.
    + unfold challenge_inv. rewrite Hm', Ht', Hrc, Htr'.
      repeat split; try assumption; try lia; try discriminate.
    + intros _. split; assumption.
Qed.

Lemma step_challenge (e : Event) (st : State) :
  challenge_inv N st ->
  challenge_inv N (step e st)
  /\ (rounds_correct_ st < N -> rounds_correct_ (step e st) = N ->
      training_ (step e st) = false
      /\ target_label_ (step e st) = TgtChallengeDone).
Proof.
  intros Hinv.
  assert (Hsame : forall s,
             mode_ s = mode_ st -> target_rounds_ s = target_rounds_ st ->
             rounds_correct_ s = rounds_correct_ st ->
             (training_ s = true -> training_ st = true) ->
             challenge_inv N s
             /\ (rounds_correct_ st < N -> rounds_correct_ s = N ->
                 training_ s = false
                 /\ target_label_ s = TgtChallengeDone)).
  { intros s Hm Ht Hr Htr. split.
    - apply (challenge_inv_transfer st); assumption.
    - intros Hlt HeqN. lia. }
  assert (Hctl : forall s,
             ctl s = ctl st -> rounds_correct_ s = rounds_correct_ st ->
             challenge_inv N s
             /\ (rounds_correct_ st < N -> rounds_correct_ s = N ->
                 training_ s = false
                 /\ target_label_ s = TgtChallengeDone)).
  { intros s Hc Hr. apply ctl_eq_inv in Hc as (Hm & Ht & _ & Htr & _ & _).
    apply Hsame; try assumption. rewrite Htr. trivial. }
  destruct e as [ms | rnd | | | | | event rnd | rnd]; cbn [step].
  - (* EvElapse *) apply Hctl; reflexivity.
  - (* EvStart *)
    destruct (StartTraining_cases rnd st) as [[Hc Hr] | [Hc Hr]].
    + apply Hctl; assumption.
    + destruct Hinv as (Hm & Ht & _ & _).
      apply ctl_eq_inv in Hc as (Hm' & Ht' & _ & _ & _ & _).
      split.
      * unfold challenge_inv. rewrite Hm', Ht', Hr.
        repeat split; try assumption; lia.
      * intros _ HeqN. lia.
  - (* EvStop *)
    pose proof (ctl_StopTraining st) as Hc.
    apply ctl_eq_inv in Hc as (Hm & Ht & _ & Htr & _ & _).
    apply Hsame; try assumption.
    + apply rounds_correct_StopTraining.
    + rewrite Htr. discriminate.
  - (* EvPause *)
    destruct (ctl_PauseTraining st) as [Hc Hr].
    apply ctl_eq_inv in Hc as (Hm & Ht & _ & Htr & _ & _).
    apply Hsame; try assumption. rewrite Htr. trivial.
  - (* EvResume *)
    destruct (ctl_ResumeTraining st) as [Hc Hr].
    apply ctl_eq_inv in Hc as (Hm & Ht & _ & Htr & _ & _).
    apply Hsame; try assumption. rewrite Htr. trivial.
  - (* EvTick *)
    rewrite OnTimerTick_other_mode.
    + apply Hctl; reflexivity.
    + destruct Hinv as (Hm & _). rewrite Hm. discriminate.
  - (* EvKey *)
    destruct (keyPressEvent_cases event rnd st)
      as [[_ He] | [He | (Htr & _ & [He | [[_ He] | [_ [item He]]]])]];
      rewrite He.
    + destruct (ctl_ResumeTraining st) as [Hc Hr].
      apply ctl_eq_inv in Hc as (Hm & Ht & _ & Htr & _ & _).
      apply Hsame; try assumption. rewrite Htr. trivial.
    + apply Hctl; reflexivity.
    + apply Hctl; reflexivity.
    + pose proof (ctl_StopTraining (track_keys event st)) as Hc.
      apply ctl_eq_inv in Hc as (Hm & Ht & _ & Htr' & _ & _).
      apply Hsame; try assumption.
      * rewrite rounds_correct_StopTraining. reflexivity.
      * rewrite Htr'. discriminate.
    + destruct (judge_key_shape event rnd item (track_keys event st))
        as (s & Hc & Hr & [[Hj Hrc] | Hj]); rewrite Hj.
      * apply Hctl; assumption.
      * destruct (challenge_check_round st s Hinv Htr Hc Hr) as [Hi Hd].
        split; [exact Hi | intros _; exact Hd].
  - (* EvClose *)
    destruct (closeEvent_cases rnd st)
      as [[He _] | [He | (Htr & s & Hc & Hr & He)]]; rewrite He; cbn [fst].
    + apply Hctl; reflexivity.
    + apply Hctl; reflexivity.
    + assert (Hr' : rounds_correct_ st <= rounds_correct_ s
                    <= rounds_correct_ st + 1) by lia.
      destruct (challenge_check_round st s Hinv Htr Hc Hr') as [Hi Hd].
      split; [exact Hi | intros _; exact Hd].
Qed.

(** A running session only ever stops with the "challenge complete" label
    through the completion check, and the check fires at [N] exactly. *)
Lemma step_challenge_exact (e : Event) (st : State) :
  challenge_inv N st -> training_ st = true ->
  training_ (step e st) = false ->
  target_label_ (step e st) = TgtChallengeDone ->
  rounds_correct_ (step e st) = N.
Proof.
  intros (Hm & Ht & Hle & Hlt) Htr Hoff Hlab.
  specialize (Hlt Htr).
  assert (Hctl : forall s, ctl s = ctl st -> training_ s = false -> False).
  { intros s Hc Hs. apply ctl_eq_inv in Hc as (_ & _ & _ & Htr' & _ & _).
    congruence. }
  assert (Hcheck : forall s,
             ctl s = ctl st ->
             rounds_correct_ st <= rounds_correct_ s
             <= rounds_correct_ st + 1 ->
             training_ (challenge_check s) = false ->
             rounds_correct_ (challenge_check s) = N).
  { intros s Hc Hr Hs.
    destruct (challenge_check_cases s) as [[He _] | [He [_ Hge]]];
      rewrite He in Hs |- *.
    - exfalso. exact (Hctl s Hc Hs).
    - destruct (stopped_with_label TgtChallengeDone s) as (_ & Hrc & _).
      rewrite Hrc.
      apply ctl_eq_inv in Hc as (_ & Hts & _).
      rewrite Ht in Hts. lia. }
  destruct e as [ms | rnd | | | | | event rnd | rnd]; cbn [step] in *.
  - (* EvElapse *) exfalso. apply (Hctl _ eq_refl Hoff).
  - (* EvStart *)
    exfalso.
    destruct (StartTraining_cases rnd st) as [[Hc _] | [Hc _]].
    + exact (Hctl _ Hc Hoff).
    + apply ctl_eq_inv in Hc as (_ & _ & _ & Htr' & _ & _). congruence.
  - (* EvStop *)
    rewrite target_label_StopTraining in Hlab. discriminate.
  - (* EvPause *)
    exfalso. destruct (ctl_PauseTraining st) as [Hc _].
    apply ctl_eq_inv in Hc as (_ & _ & _ & Htr' & _ & _). congruence.
  - (* EvResume *)
    exfalso. destruct (ctl_ResumeTraining st) as [Hc _].
    apply ctl_eq_inv in Hc as (_ & _ & _ & Htr' & _ & _). congruence.
  - (* EvTick *)
    exfalso. rewrite OnTimerTick_other_mode in Hoff.
    + congruence.
    + rewrite Hm. discriminate.
  - (* EvKey *)
    destruct (keyPressEvent_cases event rnd st)
      as [[_ He] | [He | (_ & _ & [He | [[_ He] | [_ [item He]]]])]];
      rewrite He in Hoff, Hlab |- *.
    + exfalso. destruct (ctl_ResumeTraining st) as [Hc _].
      apply ctl_eq_inv in Hc as (_ & _ & _ & Htr' & _ & _). congruence.
    + congruence.
    + exfalso. apply (Hctl _ eq_refl Hoff).
    + rewrite target_label_StopTraining in Hlab. discriminate.
    + destruct (judge_key_shape event rnd item (track_keys event st))
        as (s & Hc & Hr & [[Hj _] | Hj]); rewrite Hj in Hoff |- *.
      * exfalso. exact (Hctl s Hc Hoff).
      * apply Hcheck; assumption.
  - (* EvClose *)
    destruct (closeEvent_cases rnd st)
      as [[He _] | [He | (_ & s & Hc & Hr & He)]];
      rewrite He in Hoff, Hlab |- *; cbn [fst] in *.
    + congruence.
    + exfalso. apply (Hctl _ eq_refl Hoff).
    + apply Hcheck; [exact Hc | lia | exact Hoff].
Qed.

(** C6. A Challenge session with target [N >= 1], started on a non-empty
    catalog and driven by any events: the correct count never exceeds
    [N]; it is below [N] for as long as the session runs, so the session
    is over as soon as the count reaches [N] - the very event that brings
    the count to [N] leaves the session stopped with the
    "challenge complete" label; conversely an event that takes the running
    session to stopped with that label leaves the count at [N] exactly,
    never below; and once the session is over, key presses, ticks, close
    requests and the pause button change nothing, and no event but a new
    start touches the flags or the counters. *)
Theorem C6_challenge_completion (st0 : State) (rnd : Z)
        (evs : list Event) :
  mode_ st0 = kChallenge -> target_rounds_ st0 = N ->
  all_items_ st0 <> [] ->
  let st := run evs (StartTraining rnd st0) in
  rounds_correct_ st <= N
  /\ (training_ st = true -> rounds_correct_ st < N)
  /\ (forall e, rounds_correct_ st < N ->
                rounds_correct_ (step e st) = N ->
                training_ (step e st) = false
                /\ target_label_ (step e st) = TgtChallengeDone)
  /\ (forall e, training_ st = true ->
                training_ (step e st) = false ->
                target_label_ (step e st) = TgtChallengeDone ->
                rounds_correct_ (step e st) = N)
  /\ (training_ st = false ->
      forall e,
        (input_event e -> step e st = st)
        /\ ((forall r, e <> EvStart r) ->
            training_ (step e st) = false
            /\ rounds_total_ (step e st) = rounds_total_ st
            /\ rounds_correct_ (step e st) = rounds_correct_ st)).
Proof.
  intros Hm Ht Hall st.
  assert (Hinv : challenge_inv N st).
  { subst st.
    apply (run_invariant (challenge_inv N) (fun _ => True)).
    - intros e s _ Hs. apply step_challenge. exact Hs.
    - apply Forall_forall. trivial.
    - pose proof (StartTraining_fresh rnd st0 Hall) as Hf.
      unfold session_fields in Hf.
      remember (ctl (StartTraining rnd st0)) as c eqn:Ec.
      injection Hf as Hc _ Hrc _ _ _ _. subst c.
      apply ctl_eq_inv in Hc as (Hm' & Ht' & _ & _ & _ & _).
      unfold challenge_inv. rewrite Hm', Ht', Hrc.
      repeat split; try assumption; lia. }
  pose proof Hinv as (_ & _ & Hle & Hlt).
  split; [exact Hle|]. split; [exact Hlt|]. split; [|split].
  - intros e. apply step_challenge. exact Hinv.
  - intros e. apply step_challenge_exact. exact Hinv.
  - intros Htr e. apply step_when_stopped. exact Htr.
Qed.

End Challenge.

(** *** A challenge of two rounds *)

Lemma C6_challenge_completion_witness :
  let st := run [key_1; key_2] (StartTraining 0 challenge_window) in
  let over := run [key_1; key_2; key_1] (StartTraining 0 challenge_window) in
  (training_ st, rounds_correct_ st) = (true, 1)
  /\ rounds_correct_ (step key_1 st) = 2
  /\ training_ (step key_1 st) = false
  /\ target_label_ (step key_1 st) = TgtChallengeDone
  /\ step key_1 over = over /\ step EvTick over = over.
Proof.
  intros st over.
  assert (H12 : 1 <= 2) by lia.
  assert (Htr : training_ st = true) by (vm_compute; reflexivity).
  assert (Hrc : rounds_correct_ st = 1) by (vm_compute; reflexivity).
  assert (Htwo : rounds_correct_ (step key_1 st) = 2)
    by (vm_compute; reflexivity).
  destruct (C6_challenge_completion
              2 H12 challenge_window 0 [key_1; key_2]
              eq_refl eq_refl InitAllTrainingItems_nonempty)
    as (_ & Hlt & Hstop & Hexact & _).
  fold st in Hlt, Hstop, Hexact.
  specialize (Hlt Htr).
  destruct (Hstop key_1 Hlt Htwo) as [Hoff Hlab].
  pose proof (Hexact key_1 Htr Hoff Hlab) as Hn.
  destruct (C6_challenge_completion
              2 H12 challenge_window 0 [key_1; key_2; key_1]
              eq_refl eq_refl InitAllTrainingItems_nonempty)
    as (_ & _ & _ & _ & Hidle).
  fold over in Hidle.
  assert (Hover : training_ over = false) by (vm_compute; reflexivity).
  specialize (Hidle Hover).
  split; [rewrite Htr, Hrc; reflexivity|].
  split; [exact Hn|]. split; [exact Hoff|]. split; [exact Hlab|].
  split; [apply (Hidle key_1) | apply (Hidle EvTick)]; exact I.
Defined.

(** Right, wrong, right: the session ends with the second correct round,
    saves its record, and later keys and ticks find it over. *)
Example challenge_of_two :
  let st := run [key_1; key_2; key_1] (StartTraining 0 challenge_window) in
  (training_ st, rounds_total_ st, rounds_correct_ st, target_label_ st)
  = (false, 3, 2, TgtChallengeDone)
  /\ List.length (history_ st) = 1%nat
  /\ run [key_1; EvTick; EvClose 0; key_1] st = st.
Proof. vm_compute. repeat split. Qed.

(** ** Timed mode *)

(** One timeout of the countdown in a running Timed session. *)
Lemma OnTimerTick_running (st : State) :
  training_ st = true -> paused_ st = false -> mode_ st = kTimed ->
  OnTimerTick st
  = let s := set_remaining_seconds_ (remaining_seconds_ st - 1) st in
    if remaining_seconds_ st - 1 <=? 0
    then set_target_label_ TgtTimeUp (StopTraining s)
    else s.
Proof.
  intros Htr Hpa Hm. unfold OnTimerTick. rewrite Htr, Hpa, Hm. reflexivity.
Qed.

Lemma OnTimerTick_inert (st : State) :
  training_ st = false \/ paused_ st = true -> OnTimerTick st = st.
Proof.
  intros [H | H]; unfold OnTimerTick; rewrite H;
    [|rewrite orb_true_r]; reflexivity.
Qed.

Lemma OnTimerTick_step (st : State) :
  training_ st = true -> paused_ st = false -> mode_ st = kTimed ->
  remaining_seconds_ (OnTimerTick st) = remaining_seconds_ st - 1
  /\ mode_ (OnTimerTick st) = kTimed
  /\ (remaining_seconds_ st <= 1 ->
      training_ (OnTimerTick st) = false
      /\ target_label_ (OnTimerTick st) = TgtTimeUp)
  /\ (1 < remaining_seconds_ st ->
      OnTimerTick st
      = set_remaining_seconds_ (remaining_seconds_ st - 1) st).
Proof.
  intros Htr Hpa Hm. rewrite (OnTimerTick_running st Htr Hpa Hm). cbv zeta.
  destruct (remaining_seconds_ st - 1 <=? 0) eqn:Hz.
  - destruct (stopped_with_label TgtTimeUp
                (set_remaining_seconds_ (remaining_seconds_ st - 1) st))
      as (Hc & _ & Hl).
    apply ctl_eq_inv in Hc as (Hm' & _ & _ & Htr' & _ & Hr').
    split; [exact Hr'|]. split; [rewrite Hm'; exact Hm|]. split.
    + intros _. split; [exact Htr' | exact Hl].
    + intros Hgt. lia.
  - split; [reflexivity|]. split; [exact Hm|]. split.
    + intros Hle. lia.
    + intros _. reflexivity.
Qed.

Lemma ticks_nonneg (evs : list Event) : 0 <= ticks evs.
Proof.
  induction evs as [|e evs IH]; [reflexivity|].
  destruct e; cbn [ticks]; lia.
Qed.

(** A key press or close request leaves the flags and the countdown of a
    session outside Challenge mode alone, Escape apart. *)
Lemma ctl_key_or_close (e : Event) (st : State) :
  mode_ st <> kChallenge ->
  match e with
  | EvKey event _ => ev_key event <> Qt.Key_Escape /\ paused_ st = false
  | EvClose _ => True
  | _ => False
  end ->
  ctl (step e st) = ctl st.
Proof.
  intros Hm He. destruct e as [| | | | | | event rnd | rnd];
    try contradiction; cbn [step].
  - destruct He as [Hesc Hpa].
    destruct (keyPressEvent_cases event rnd st)
      as [[Hp _] | [Hk | (_ & _ & [Hk | [[Hx _] | [_ [item Hk]]]])]].
    + congruence.
    + rewrite Hk. reflexivity.
    + rewrite Hk. reflexivity.
    + contradiction.
    + rewrite Hk.
      destruct (judge_key_shape event rnd item (track_keys event st))
        as (s & Hc & _ & [[Hj _] | Hj]); rewrite Hj.
      * exact Hc.
      * rewrite challenge_check_other_mode; [exact Hc|].
        apply ctl_eq_inv in Hc as (Hms & _). rewrite Hms. exact Hm.
  - destruct (closeEvent_cases rnd st)
      as [[Hk _] | [Hk | (_ & s & Hc & _ & Hk)]]; rewrite Hk; cbn [fst].
    + reflexivity.
    + reflexivity.
    + rewrite challenge_check_other_mode; [exact Hc|].
      apply ctl_eq_inv in Hc as (Hms & _). rewrite Hms. exact Hm.
Qed.

Section Timed.

Variable T : Z.
Hypothesis HT : 1 <= T.

Lemma timed_phase_same (n : Z) (st s : State) :
  timed_phase T n st -> ctl s = ctl st ->
  target_label_ s = target_label_ st \/ n < T ->
  timed_phase T n s.
Proof.
  intros (Hm & Hrun & Hend) Hc Hl.
  apply ctl_eq_inv in Hc as (Hm' & _ & _ & Htr' & Hpa' & Hr').
  unfold timed_phase. rewrite Hm', Htr', Hpa', Hr'.
  split; [exact Hm|]. split; [exact Hrun|].
  intros Hge. destruct (Hend Hge) as (H1 & H2 & H3).
  destruct Hl as [Hl | Hl]; [|lia].
  rewrite Hl. repeat split; assumption.
Qed.

Lemma step_timed (e : Event) (n : Z) (st : State) :
  0 <= n -> uninterrupted e -> timed_phase T n st ->
  timed_phase T (n + ticks [e]) (step e st).
Proof.
  intros Hn He Hph.
  pose proof Hph as (Hm & Hrun & Hend).
  assert (Hnc : mode_ st <> kChallenge) by (rewrite Hm; discriminate).
  destruct (Z.lt_ge_cases n T) as [Hlt | Hge].
  - (* the session is running *)
    destruct (Hrun Hlt) as (Htr & Hpa & Hr).
    destruct e as [ms | rnd | | | | | event rnd | rnd];
      cbn [uninterrupted] in He; try contradiction; cbn [ticks].
    + rewrite Z.add_0_r.
      apply (timed_phase_same n st); [exact Hph | reflexivity | now right].
    + cbn [step].
      destruct (OnTimerTick_step st Htr Hpa Hm) as (Hr' & Hm' & Hstop & Hgo).
      unfold timed_phase. split; [exact Hm'|]. split.
      * intros Hlt'. rewrite (Hgo ltac:(lia)).
        cbn [training_ paused_ remaining_seconds_ set_remaining_seconds_].
        repeat split; try assumption. lia.
      * intros Hge'. destruct (Hstop ltac:(lia)) as [Htr' Hl'].
        repeat split; try assumption. lia.
    + rewrite Z.add_0_r.
      apply (timed_phase_same n st); [exact Hph | | now right].
      apply ctl_key_or_close; [exact Hnc | split; assumption].
    + rewrite Z.add_0_r.
      apply (timed_phase_same n st); [exact Hph | | now right].
      apply ctl_key_or_close; [exact Hnc | exact I].
  - (* the session is over *)
    destruct (Hend Hge) as (Htr & Hr & Hl).
    assert (Hover : forall m, n <= m -> timed_phase T m st).
    { intros m Hm'. unfold timed_phase. split; [exact Hm|]. split.
      - intros Hlt. lia.
      - intros _. repeat split; assumption. }
    destruct (step_when_stopped e st Htr) as [Hin _].
    destruct e as [ms | rnd | | | | | event rnd | rnd];
      cbn [uninterrupted] in He; try contradiction; cbn [ticks].
    + rewrite Z.add_0_r.
      apply (timed_phase_same n st); [exact Hph | reflexivity |].
      left. reflexivity.
    + rewrite (Hin I). apply Hover. lia.
    + rewrite (Hin I). apply Hover. lia.
    + rewrite (Hin I). apply Hover. lia.
Qed.

Lemma run_timed (evs : list Event) :
  forall n st,
    0 <= n -> Forall uninterrupted evs -> timed_phase T n st ->
    timed_phase T (n + ticks evs) (run evs st).
Proof.
  induction evs as [|e evs IH]; intros n st Hn Hall Hph.
  - cbn [ticks run]. rewrite Z.add_0_r. exact Hph.
  - inversion Hall as [|e' evs' He Hevs]; subst.
    cbn [run].
    replace (n + ticks (e :: evs)) with ((n + ticks [e]) + ticks evs)
      by (destruct e; cbn [ticks]; lia).
    apply IH; [| exact Hevs | apply step_timed; assumption].
    pose proof (ticks_nonneg [e]). lia.
Qed.

(** C7. A Timed session with limit [T >= 1], started on a non-empty
    catalog and then left alone by the pause, stop and start buttons and
    by Escape: after [n] ticks of the countdown, with key presses and
    close requests in between, it is still running with [T - n] seconds
    remaining as long as [n < T], and from the [T]-th tick on it is
    stopped with 0 seconds remaining and the "time is up" label.  Each
    tick of a running Timed session takes one second off and stops the
    session when the count reaches 0; a tick that finds the session
    paused or not active changes nothing. *)
Theorem C7_timed_countdown (st0 : State) (rnd : Z) (evs : list Event) :
  mode_ st0 = kTimed -> time_limit_seconds_ st0 = T ->
  all_items_ st0 <> [] ->
  Forall uninterrupted evs ->
  let st := run evs (StartTraining rnd st0) in
  (ticks evs < T ->
   training_ st = true /\ paused_ st = false
   /\ remaining_seconds_ st = T - ticks evs)
  /\ (T <= ticks evs ->
      training_ st = false /\ remaining_seconds_ st = 0
      /\ target_label_ st = TgtTimeUp)
  /\ (forall s,
         training_ s = true -> paused_ s = false -> mode_ s = kTimed ->
         remaining_seconds_ (OnTimerTick s) = remaining_seconds_ s - 1
         /\ (remaining_seconds_ s <= 1 ->
             training_ (OnTimerTick s) = false
             /\ target_label_ (OnTimerTick s) = TgtTimeUp)
         /\ (1 < remaining_seconds_ s ->
             OnTimerTick s
             = set_remaining_seconds_ (remaining_seconds_ s - 1) s))
  /\ (forall s,
         training_ s = false \/ paused_ s = true -> OnTimerTick s = s).
Proof.
  intros Hm Hl Hall Hevs st.
  assert (Hph : timed_phase T (ticks evs) st).
  { subst st. change (ticks evs) with (0 + ticks evs).
    apply run_timed; [lia | exact Hevs |].
    pose proof (StartTraining_fresh rnd st0 Hall) as Hf.
    unfold session_fields in Hf.
    remember (ctl (StartTraining rnd st0)) as c eqn:Ec.
    injection Hf as Hc _ _ _ _ _ _. subst c.
    rewrite Hm, Hl in Hc.
    apply ctl_eq_inv in Hc as (Hm' & _ & _ & Htr & Hpa & Hr).
    unfold timed_phase. split; [exact Hm'|]. split.
    - intros _. repeat split; try assumption. lia.
    - intros Hle. lia. }
  destruct Hph as (_ & Hrun & Hend).
  split; [exact Hrun|]. split; [exact Hend|]. split.
  - intros s Htr Hpa Hms.
    destruct (OnTimerTick_step s Htr Hpa Hms) as (H1 & _ & H2 & H3).
    split; [exact H1|]. split; assumption.
  - intros s. apply OnTimerTick_inert.
Qed.

End Timed.

(** *** A countdown of three seconds *)

Lemma C7_timed_countdown_witness :
  let st := run [EvTick; key_1; EvTick; EvElapse 400; key_2; EvTick]
                (StartTraining 0 timed_window) in
  training_ st = false /\ remaining_seconds_ st = 0
  /\ target_label_ st = TgtTimeUp.
Proof.
  intros st.
  assert (H13 : 1 <= 3) by lia.
  refine (proj1 (proj2 (C7_timed_countdown
                          3 H13 timed_window 0
                          [EvTick; key_1; EvTick; EvElapse 400; key_2; EvTick]
                          eq_refl eq_refl InitAllTrainingItems_nonempty _))
                _).
  - repeat constructor; discriminate.
  - vm_compute. discriminate.
Defined.

(** The same session observed after each event, and a tick during a
    pause. *)
Example countdown_of_three :
  let evs := [EvTick; key_1; EvTick; EvElapse 400; key_2; EvTick] in
  map (fun n => let st := run (firstn n evs) (StartTraining 0 timed_window) in
                (training_ st, remaining_seconds_ st))
      [0; 1; 2; 3; 4; 5; 6]%nat
  = [(true, 3); (true, 2); (true, 2); (true, 1); (true, 1); (true, 1);
     (false, 0)]
  /\ (let st := run [EvTick; EvPause] (StartTraining 0 timed_window) in
      run [EvTick; EvTick; EvTick] st = st
      /\ (paused_ st, remaining_seconds_ st) = (true, 2)).
Proof. vm_compute. repeat split. Qed.

(** The limit of the settings page is between 10 and 600 seconds.  With a
    limit of 0 (which only a damaged settings store can supply) the session
    starts running with nothing remaining and the first tick stops it one
    below zero. *)
Example countdown_of_zero :
  let st := StartTraining 0 (window kTimed 0 50) in
  (training_ st, remaining_seconds_ st) = (true, 0)
  /\ (training_ (step EvTick st), remaining_seconds_ (step EvTick st))
     = (false, -1).
Proof. vm_compute. split; reflexivity. Qed.

(** C7 without a lower bound on the limit.  With a limit of 0 the session
    just started is running although its 0 ticks have all been received,
    and the first tick stops it with -1 seconds remaining: neither after
    [T = 0] ticks nor after the tick that stops it is the session stopped
    with 0 seconds remaining. *)
Lemma C7_zero_limit_counterexample :
  let st := StartTraining 0 (window kTimed 0 50) in
  (mode_ st, time_limit_seconds_ st, ticks []) = (kTimed, 0, 0)
  /\ ~ (training_ (run [] st) = false /\ remaining_seconds_ (run [] st) = 0)
  /\ ~ (training_ (run [EvTick] st) = false
        /\ remaining_seconds_ (run [EvTick] st) = 0).
Proof.
  intros st. split; [vm_compute; reflexivity|]. split.
  - intros [H _]. vm_compute in H. discriminate.
  - intros [_ H]. vm_compute in H. discriminate.
Qed.

(** ** Pausing and the elapsed time of the statistics *)

Lemma accounting_inv (st : State) (tr pa : bool) (el : option Z) (pe n : Z) :
  accounting st = (tr, pa, el, pe, n) ->
  training_ st = tr /\ paused_ st = pa /\ elapsed_ st = el
  /\ paused_elapsed_ st = pe /\ now st = n.
Proof. unfold accounting. intros H. inversion H. repeat split. Qed.

Lemma accounting_elapse (st : State) (ms : Z) :
  accounting (step (EvElapse ms) st)
  = (training_ st, paused_ st, elapsed_ st, paused_elapsed_ st, now st + ms).
Proof. reflexivity. Qed.

(** Pausing a running session stores the reading of the elapsed timer in
    [paused_elapsed_]; what [paused_elapsed_] held before is dropped. *)
Lemma accounting_pause (st : State) (t0 pe n : Z) :
  accounting st = (true, false, Some t0, pe, n) ->
  accounting (step EvPause st) = (true, true, Some t0, n - t0, n).
Proof.
  intros H. apply accounting_inv in H as (Htr & Hpa & Hel & Hpe & Hn).
  cbn [step]. unfold PauseTraining. rewrite Htr, Hpa. cbn [negb orb].
  unfold accounting, elapsed. cbn. rewrite Htr, Hel, Hn. reflexivity.
Qed.

(** Resuming restarts the elapsed timer and keeps [paused_elapsed_]. *)
Lemma accounting_resume (st : State) (t0 pe n : Z) :
  accounting st = (true, true, Some t0, pe, n) ->
  accounting (step EvResume st) = (true, false, Some n, pe, n).
Proof.
  intros H. apply accounting_inv in H as (Htr & Hpa & Hel & Hpe & Hn).
  cbn [step]. unfold ResumeTraining. rewrite Htr, Hpa. cbn [negb orb].
  assert (Hshow : forall s, accounting (ShowCurrentItem s) = accounting s).
  { intros s. unfold ShowCurrentItem.
    destruct (current_item s) as [item|]; [|reflexivity].
    destruct (type item); reflexivity. }
  rewrite Hshow.
  destruct (TrainingMode_eqb
              (mode_ (elapsed_restart (set_paused_ false st))) kTimed);
    unfold accounting; cbn; rewrite Htr, Hpe, Hn; reflexivity.
Qed.

Lemma UpdateStatsLabel_ms_accounting (st : State) (tr pa : bool)
      (t0 pe n : Z) :
  accounting st = (tr, pa, Some t0, pe, n) ->
  UpdateStatsLabel_ms st = if pa then pe else (n - t0) + pe.
Proof.
  intros H. apply accounting_inv in H as (Htr & Hpa & Hel & Hpe & Hn).
  unfold UpdateStatsLabel_ms, elapsed. rewrite Hel, Hpa, Hpe, Hn.
  reflexivity.
Qed.

(** One pause / resume cycle of a running session: [a] ms running, [p] ms
    paused, [b] ms running.  The statistics afterwards see the time since
    the last restart of the timer before the pause, plus [a + b]: the
    paused [p] ms are left out, and so is whatever [paused_elapsed_] had
    accumulated before the cycle. *)
Lemma pause_cycle_accounting (st : State) (t0 pe n a p b : Z) :
  accounting st = (true, false, Some t0, pe, n) ->
  let evs := [EvElapse a; EvPause; EvElapse p; EvResume; EvElapse b] in
  UpdateStatsLabel_ms st = (n - t0) + pe
  /\ running_time evs st = a + b
  /\ UpdateStatsLabel_ms (run evs st) = (n - t0) + a + b
  /\ accounting (run evs st)
     = (true, false, Some (n + a + p), n + a - t0, n + a + p + b).
Proof.
  intros Hacc evs.
  pose proof (accounting_inv _ _ _ _ _ _ Hacc) as (Htr & Hpa & Hel & Hpe & Hn).
  set (s1 := step (EvElapse a) st).
  assert (H1 : accounting s1 = (true, false, Some t0, pe, n + a)).
  { subst s1. rewrite accounting_elapse, Htr, Hpa, Hel, Hpe, Hn. reflexivity. }
  set (s2 := step EvPause s1).
  assert (H2 : accounting s2 = (true, true, Some t0, n + a - t0, n + a)).
  { subst s2. apply (accounting_pause s1 t0 pe). exact H1. }
  set (s3 := step (EvElapse p) s2).
  assert (H3 : accounting s3 = (true, true, Some t0, n + a - t0, n + a + p)).
  { subst s3. rewrite accounting_elapse.
    apply accounting_inv in H2 as (-> & -> & -> & -> & ->). reflexivity. }
  set (s4 := step EvResume s3).
  assert (H4 : accounting s4
               = (true, false, Some (n + a + p), n + a - t0, n + a + p)).
  { subst s4. apply (accounting_resume s3 t0). exact H3. }
  set (s5 := step (EvElapse b) s4).
  assert (H5 : accounting s5
               = (true, false, Some (n + a + p), n + a - t0, n + a + p + b)).
  { subst s5. rewrite accounting_elapse.
    apply accounting_inv in H4 as (-> & -> & -> & -> & ->). reflexivity. }
  change (run evs st) with s5.
  split; [apply (UpdateStatsLabel_ms_accounting st true false); exact Hacc|].
  split.
  - subst evs. cbn [running_time]. fold s1 s2 s3 s4.
    apply accounting_inv in H1 as (Ht1 & Hp1 & _).
    apply accounting_inv in H2 as (Ht2 & Hp2 & _).
    apply accounting_inv in H3 as (Ht3 & Hp3 & _).
    apply accounting_inv in H4 as (Ht4 & Hp4 & _).
    rewrite Htr, Hpa, Ht4, Hp4. cbn [andb negb].
    destruct (training_ s2 && negb (paused_ s2)) eqn:E2.
    { rewrite Ht2, Hp2 in E2. discriminate. }
    lia.
  - split; [|exact H5].
    rewrite (UpdateStatsLabel_ms_accounting s5 true false _ _ _ H5). lia.
Qed.

(** Run 5 s, pause 5 s, run 5 s: 10 s are accounted, as intended. *)
Example one_pause_accounts_running_time :
  let evs := [EvElapse 5000; EvPause; EvElapse 5000; EvResume;
              EvElapse 5000] in
  running_time evs endless_session = 10000
  /\ UpdateStatsLabel_ms (run evs endless_session) = 10000.
Proof. vm_compute. split; reflexivity. Qed.

(** C1, at the input where the code departs from it.  Run 5 s, pause 5 s,
    run 5 s, pause 5 s, run 5 s: the session has been running for 15 s, but
    the second pause overwrote the 5 s stored by the first one, and the
    statistics account for 10 s only (already for 5 s instead of 10 s
    while the second pause lasts). *)
Theorem C1_second_pause_drops_first_run :
  let cycle := [EvPause; EvElapse 5000; EvResume; EvElapse 5000] in
  let evs := EvElapse 5000 :: cycle ++ cycle in
  let during_second_pause := [EvElapse 5000; EvPause; EvElapse 5000;
                              EvResume; EvElapse 5000; EvPause] in
  running_time evs endless_session = 15000
  /\ UpdateStatsLabel_ms (run evs endless_session) = 10000
  /\ running_time during_second_pause endless_session = 10000
  /\ UpdateStatsLabel_ms (run during_second_pause endless_session) = 5000.
Proof. vm_compute. repeat split. Qed.

(** The same for any durations: after a second cycle the [a] ms of the
    first stretch are missing. *)
Lemma second_cycle_accounting (a p b q c : Z) :
  let evs := [EvElapse a; EvPause; EvElapse p; EvResume; EvElapse b;
              EvPause; EvElapse q; EvResume; EvElapse c] in
  UpdateStatsLabel_ms (run evs endless_session) = b + c.
Proof.
  intros evs.
  assert (H0 : accounting endless_session = (true, false, Some 0, 0, 0))
    by (vm_compute; reflexivity).
  destruct (pause_cycle_accounting endless_session 0 0 0 a p b H0)
    as (_ & _ & _ & H1).
  set (s1 := run [EvElapse a; EvPause; EvElapse p; EvResume; EvElapse b]
                 endless_session) in *.
  set (s2 := step EvPause s1).
  assert (H2 : accounting s2
               = (true, true, Some (0 + a + p), (0 + a + p + b) - (0 + a + p),
                  0 + a + p + b)).
  { subst s2. apply (accounting_pause s1 _ (0 + a - 0)). exact H1. }
  set (s3 := step (EvElapse q) s2).
  assert (H3 : accounting s3
               = (true, true, Some (0 + a + p), (0 + a + p + b) - (0 + a + p),
                  0 + a + p + b + q)).
  { subst s3. rewrite accounting_elapse.
    apply accounting_inv in H2 as (-> & -> & -> & -> & ->). reflexivity. }
  set (s4 := step EvResume s3).
  pose proof (accounting_resume s3 _ _ _ H3) as H4. fold s4 in H4.
  set (s5 := step (EvElapse c) s4).
  assert (H5 : accounting s5
               = (true, false, Some (0 + a + p + b + q),
                  (0 + a + p + b) - (0 + a + p), 0 + a + p + b + q + c)).
  { subst s5. rewrite accounting_elapse.
    apply accounting_inv in H4 as (-> & -> & -> & -> & ->). reflexivity. }
  change (run evs endless_session) with s5.
  rewrite (UpdateStatsLabel_ms_accounting s5 true false _ _ _ H5). lia.
Qed.

(** *** Stopping after one round, in Endless and in Zen mode *)

Lemma StopTraining_record_rule_examples :
  let st := run [EvElapse 2500; key_1] endless_session in
  let zen := run [EvElapse 2500; key_1] zen_session in
  history_ (StopTraining st)
  = [ {| timestamp := 2500; total_rounds := 1; correct_rounds := 1;
         duration_seconds := Qmake 2500 1000;
         difficulty := kAdvanced; mode := kEndless |} ]
  /\ rounds_total_ zen = 1
  /\ history_ (StopTraining zen) = []
  /\ history_ (StopTraining endless_session) = [].
Proof.
  intros st zen.
  destruct (StopTraining_record_rule st) as (Hsave & _ & _).
  destruct (StopTraining_record_rule zen) as (_ & Hzen & _).
  destruct (StopTraining_record_rule endless_session) as (_ & _ & Hzero).
  split; [|split; [|split]].
  - rewrite Hsave.
    + vm_compute. reflexivity.
    + vm_compute. reflexivity.
    + vm_compute. discriminate.
  - vm_compute. reflexivity.
  - rewrite Hzen; vm_compute; reflexivity.
  - rewrite Hzero; vm_compute; [reflexivity | discriminate].
Defined.

(** C8. The record of a session that is stopped during a pause.  One
    correct round, five seconds of running, the pause button, three seconds
    of pause, the stop button: the session ran for 5 s and the statistics
    count 5000 ms, yet the record that the stop saves carries a duration
    of 13 s - the reading of the elapsed timer, which does not stop for
    the pause (8 s), plus the 5 s stored at the pause.
    [SaveSessionRecord] adds the two without the case for a paused
    session that [UpdateStatsLabel] and [UpdateTimerLabel] have.  Stopped
    without the pause, the same session gets a record of 5 s.  The record's
    counters, difficulty and mode are those of the session in both. *)
Theorem C8_paused_stop_record_duration :
  let evs := [key_1; EvElapse 5000; EvPause; EvElapse 3000] in
  let st := run evs endless_session in
  running_time evs endless_session = 5000
  /\ (training_ st, paused_ st, UpdateStatsLabel_ms st) = (true, true, 5000)
  /\ history_ (StopTraining st)
     = [ {| timestamp := 8000; total_rounds := 1; correct_rounds := 1;
            duration_seconds := Qmake 13000 1000;
            difficulty := kAdvanced; mode := kEndless |} ]
  /\ history_ (StopTraining (run [key_1; EvElapse 5000] endless_session))
     = [ {| timestamp := 5000; total_rounds := 1; correct_rounds := 1;
            duration_seconds := Qmake 5000 1000;
            difficulty := kAdvanced; mode := kEndless |} ].
Proof. vm_compute. repeat split. Qed.

(** * Further properties of the engine *)

(** ** Effects of the building blocks *)

Lemma frame_inv (st s : State) :
  frame s = frame st ->
  all_items_ s = all_items_ st /\ difficulty_ s = difficulty_ st
  /\ toggles s = toggles st /\ ctl s = ctl st
  /\ countdown_timer_ s = countdown_timer_ st
  /\ history_ s = history_ st /\ elapsed_ s = elapsed_ st
  /\ paused_elapsed_ s = paused_elapsed_ st /\ now s = now st.
Proof.
  unfold frame. intros H.
  remember (ctl s) as c1. remember (ctl st) as c2.
  remember (toggles s) as t1. remember (toggles st) as t2.
  inversion H. repeat split.
Qed.

Lemma frame_ShowCurrentItem (st : State) :
  frame (ShowCurrentItem st) = frame st.
Proof.
  unfold ShowCurrentItem.
  destruct (current_item st) as [item|]; [|reflexivity].
  destruct (type item); reflexivity.
Qed.

Lemma frame_NextItem (rnd : Z) (st : State) :
  frame (NextItem rnd st) = frame st.
Proof.
  unfold NextItem. destruct (items_isEmpty st); [reflexivity|].
  rewrite frame_ShowCurrentItem. reflexivity.
Qed.

Lemma at_in_range (s : QString) (i : Z) :
  0 <= i < size s -> exists c, at_ s i = Some c.
Proof.
  unfold at_, size. intros Hi.
  replace (i <? 0) with false by (symmetry; lia).
  assert (Hlt : (Z.to_nat i < String.length s)%nat) by lia.
  clear Hi. revert s Hlt. generalize (Z.to_nat i) as n.
  induction n as [|n IH]; intros [|a s] Hlt; cbn in *; try lia.
  - exists a. reflexivity.
  - apply IH. lia.
Qed.

Lemma size_nonempty (s : QString) : isEmpty s = false -> 0 < size s.
Proof. destruct s; [discriminate|]. intros _. unfold size. cbn. lia. Qed.

(** Every branch of the dispatch either leaves the state alone or ends in
    the challenge check after one of the four round outcomes. *)
Lemma judge_key_outcome (e : QKeyEvent) (rnd : Z) (item : TrainingItem)
      (st : State) :
  items_ st <> [] ->
  judge_key e rnd item st = st
  \/ exists s,
      frame s = frame st
      /\ round_outcome st item rnd (round_state s)
      /\ judge_key e rnd item st = challenge_check s.
Proof.
  intros Hne.
  assert (Hnext : forall s,
             frame s = frame st ->
             round_state s
             = (items_ st, current_index_ st, sequence_pos_ st,
                rounds_total_ st + 1, rounds_correct_ st + 1) ->
             frame (NextItem rnd s) = frame st
             /\ round_outcome st item rnd (round_state (NextItem rnd s))).
  { intros s Hf Hrs. rewrite frame_NextItem. split; [exact Hf|].
    unfold round_state in Hrs.
    assert (Hi : items_ s = items_ st) by congruence.
    rewrite round_state_NextItem by (rewrite Hi; exact Hne).
    replace (items_size s) with (items_size st)
      by (unfold items_size; rewrite Hi; reflexivity).
    replace (items_ s) with (items_ st).
    replace (rounds_total_ s) with (rounds_total_ st + 1) by congruence.
    replace (rounds_correct_ s) with (rounds_correct_ st + 1) by congruence.
    apply ro_correct. }
  unfold judge_key. destruct (type item) eqn:Hty.
  - (* kSingleKey *)
    destruct (toLower (ev_text e)) as [|ch rest]; [left; reflexivity|].
    right.
    destruct (at_ (sequence item) 0) as [expected|].
    + destruct (ascii_eqb ch expected).
      * eexists. split; [|split; [|reflexivity]]; apply Hnext; reflexivity.
      * eexists. split; [|split; [|reflexivity]]; [reflexivity|].
        apply ro_failed. rewrite Hty. discriminate.
    + eexists. split; [|split; [|reflexivity]]; [reflexivity|].
      apply ro_failed. rewrite Hty. discriminate.
  - (* kCombo *)
    destruct (IsCurrentItemAltF4 st); [left; reflexivity|]. right.
    destruct ((ev_key e =? key item)
              && (Z.land (ev_modifiers e) modifier_mask =? modifiers item)).
    + eexists. split; [|split; [|reflexivity]]; apply Hnext; reflexivity.
    + eexists. split; [|split; [|reflexivity]]; [reflexivity|].
      apply ro_failed. rewrite Hty. discriminate.
  - (* kSequence *)
    destruct (toLower (ev_text e)) as [|ch rest]; [left; reflexivity|].
    destruct (isEmpty (sequence item)) eqn:Hemp; [left; reflexivity|].
    pose proof (size_nonempty _ Hemp) as Hsz.
    right.
    destruct ((sequence_pos_ st <? 0)
              || (sequence_pos_ st >=? size (sequence item))) eqn:Hout.
    + (* the position is reset first *)
      cbn [sequence_pos_ set_sequence_pos_].
      destruct (at_in_range (sequence item) 0 ltac:(lia)) as [expected Hat].
      rewrite Hat.
      destruct (ascii_eqb ch expected).
      * cbn [sequence_pos_ set_sequence_pos_ UpdateErrorLabel set_error_label_].
        destruct (0 + 1 >=? size (sequence item)) eqn:Hend.
        -- eexists. split; [|split; [|reflexivity]].
           ++ rewrite frame_NextItem. reflexivity.
           ++ rewrite round_state_NextItem by exact Hne. apply ro_correct.
        -- eexists. split; [|split; [|reflexivity]]; [reflexivity|].
           apply (ro_progress st item rnd 0); [exact Hty | now right | lia | lia].
      * eexists. split; [|split; [|reflexivity]]; [reflexivity|].
        apply ro_mismatch. exact Hty.
    + apply orb_false_iff in Hout as [Hlo Hhi].
      destruct (at_in_range (sequence item) (sequence_pos_ st) ltac:(lia))
        as [expected Hat].
      rewrite Hat.
      destruct (ascii_eqb ch expected).
      * cbn [sequence_pos_ set_sequence_pos_ UpdateErrorLabel set_error_label_].
        destruct (sequence_pos_ st + 1 >=? size (sequence item)) eqn:Hend.
        -- eexists. split; [|split; [|reflexivity]].
           ++ rewrite frame_NextItem. reflexivity.
           ++ rewrite round_state_NextItem by exact Hne. apply ro_correct.
        -- eexists. split; [|split; [|reflexivity]]; [reflexivity|].
           apply (ro_progress st item rnd (sequence_pos_ st));
             [exact Hty | now left | lia | lia].
      * eexists. split; [|split; [|reflexivity]]; [reflexivity|].
        apply ro_mismatch. exact Hty.
  - (* kSpecialKey *)
    right. destruct (ev_key e =? key item).
    + eexists. split; [|split; [|reflexivity]]; apply Hnext; reflexivity.
    + eexists. split; [|split; [|reflexivity]]; [reflexivity|].
      apply ro_failed. rewrite Hty. discriminate.
Qed.

(** ** Single keys and special keys *)

Lemma judge_key_single (e : QKeyEvent) (rnd : Z) (item : TrainingItem)
      (st : State) (ch : QChar) (rest : QString) :
  type item = kSingleKey ->
  toLower (ev_text e) = String ch rest ->
  judge_key e rnd item st
  = challenge_check
      (match at_ (sequence item) 0 with
       | Some expected =>
           if ascii_eqb ch expected
           then NextItem rnd
                  (UpdateErrorLabel ErrNone
                     (set_rounds_correct_ (rounds_correct_ st + 1)
                        (set_rounds_total_ (rounds_total_ st + 1) st)))
           else UpdateErrorLabel (ErrExpectedGot (Some expected) ch)
                  (set_rounds_total_ (rounds_total_ st + 1) st)
       | None => UpdateErrorLabel (ErrExpectedGot None ch)
                   (set_rounds_total_ (rounds_total_ st + 1) st)
       end).
Proof.
  intros Hty Htext. unfold judge_key. rewrite Hty, Htext.
  destruct (at_ (sequence item) 0) as [expected|]; reflexivity.
Qed.

Lemma round_state_index_range (st st' : State) (i p t c : Z) :
  items_ st <> [] ->
  round_state st' = (items_ st, bounded i (items_size st), p, t, c) ->
  0 <= current_index_ st' < items_size st'.
Proof.
  intros Hne Hrs. unfold round_state in Hrs. injection Hrs as Hi Hc _ _ _.
  rewrite Hc.
  replace (items_size st') with (items_size st)
    by (unfold items_size; rewrite Hi; reflexivity).
  apply bounded_range, items_size_pos, Hne.
Qed.

Lemma round_state_same_item (st st' : State) (item : TrainingItem)
      (p t c : Z) :
  current_item st = Some item ->
  round_state st' = (items_ st, current_index_ st, p, t, c) ->
  current_item st' = Some item.
Proof.
  intros Hcur Hrs. unfold round_state in Hrs. injection Hrs as Hi Hc _ _ _.
  rewrite (current_item_same st st' Hi Hc). exact Hcur.
Qed.

(** A key judged against a SingleKey item is correct exactly when the first
    character of its lower-cased text is the first character of the item's
    sequence; the rest of the text, the key code and the modifiers play no
    part.  A correct key counts a correct round and draws a new item; any
    other key with text counts a failed attempt, keeps the item and shows
    what was expected and what was typed. *)
Theorem single_key_judged (st : State) (e : QKeyEvent) (rnd : Z)
        (item : TrainingItem) (ch : QChar) (rest : QString) :
  training_ st = true -> paused_ st = false ->
  current_item st = Some item -> type item = kSingleKey ->
  is_pure_modifier (ev_key e) = false -> ev_key e <> Qt.Key_Escape ->
  toLower (ev_text e) = String ch rest ->
  let st' := keyPressEvent e rnd st in
  (at_ (sequence item) 0 = Some ch ->
   round_state st'
   = (items_ st, bounded rnd (items_size st), 0,
      rounds_total_ st + 1, rounds_correct_ st + 1)
   /\ 0 <= current_index_ st' < items_size st')
  /\ (at_ (sequence item) 0 <> Some ch ->
      round_state st'
      = (items_ st, current_index_ st, sequence_pos_ st,
         rounds_total_ st + 1, rounds_correct_ st)
      /\ current_item st' = Some item
      /\ (training_ st' = true ->
          error_label_ st' = ErrExpectedGot (at_ (sequence item) 0) ch)).
Proof.
  intros Htr Hpa Hcur Hty Hmod Hesc Htext st'.
  destruct (current_item_in_range st item Hcur) as (_ & Hne & _).
  assert (Hd : st' = judge_key e rnd item (track_keys e st))
    by (apply keyPressEvent_dispatch; assumption).
  rewrite (judge_key_single e rnd item _ ch rest Hty Htext) in Hd.
  split.
  - intros Hat. rewrite Hat, ascii_eqb_refl in Hd.
    assert (Hrs : round_state st'
                  = (items_ st, bounded rnd (items_size st), 0,
                     rounds_total_ st + 1, rounds_correct_ st + 1)).
    { rewrite Hd, round_state_challenge_check.
      rewrite round_state_NextItem by exact Hne. reflexivity. }
    split; [exact Hrs|].
    apply (round_state_index_range st st' _ _ _ _ Hne Hrs).
  - intros Hat.
    assert (Hd' : st' = challenge_check
                          (UpdateErrorLabel
                             (ErrExpectedGot (at_ (sequence item) 0) ch)
                             (set_rounds_total_
                                (rounds_total_ (track_keys e st) + 1)
                                (track_keys e st)))).
    { rewrite Hd. destruct (at_ (sequence item) 0) as [expected|].
      - rewrite ascii_eqb_neq; [reflexivity|]. congruence.
      - reflexivity. }
    assert (Hrs : round_state st'
                  = (items_ st, current_index_ st, sequence_pos_ st,
                     rounds_total_ st + 1, rounds_correct_ st)).
    { rewrite Hd', round_state_challenge_check. reflexivity. }
    split; [exact Hrs|]. split.
    + apply (round_state_same_item st st' item _ _ _ Hcur Hrs).
    + intros Htr'. rewrite Hd' in Htr' |- *.
      rewrite (challenge_check_still_training _ Htr'). reflexivity.
Qed.

Lemma single_key_judged_witness :
  round_state (keyPressEvent (typed (Qt.Key_0 + 1) "1") 7 endless_session)
  = (InitAllTrainingItems, 7, 0, 1, 1)
  /\ round_state (keyPressEvent (typed Qt.Key_Q "Q") 7 endless_session)
     = (InitAllTrainingItems, 0, 0, 1, 0).
Proof.
  pose proof (single_key_judged
                endless_session (typed (Qt.Key_0 + 1) "1") 7
                (MakeSingleKey "1"%char kBeginner) "1"%char ""%string) as H1.
  pose proof (single_key_judged
                endless_session (typed Qt.Key_Q "Q") 7
                (MakeSingleKey "1"%char kBeginner) "q"%char ""%string) as H2.
  split.
  - refine (proj1 (proj1 (H1 _ _ _ _ _ _ _) _));
      try (vm_compute; reflexivity); discriminate.
  - refine (proj1 (proj2 (H2 _ _ _ _ _ _ _) _));
      try (vm_compute; reflexivity); discriminate.
Defined.

Lemma judge_key_special (e : QKeyEvent) (rnd : Z) (item : TrainingItem)
      (st : State) :
  type item = kSpecialKey ->
  judge_key e rnd item st
  = challenge_check
      (if ev_key e =? key item
       then NextItem rnd
              (UpdateErrorLabel ErrNone
                 (set_rounds_correct_ (rounds_correct_ st + 1)
                    (set_rounds_total_ (rounds_total_ st + 1) st)))
       else UpdateErrorLabel (ErrPleasePress (label item))
              (set_rounds_total_ (rounds_total_ st + 1) st)).
Proof. intros Hty. unfold judge_key. rewrite Hty. reflexivity. Qed.

(** A key judged against a SpecialKey item is correct exactly when its key
    code is the item's, whatever modifiers are held and whatever text it
    produces; a correct key counts a correct round and draws a new item,
    any other key counts a failed attempt, keeps the item and asks for the
    item's label. *)
Theorem special_key_judged (st : State) (e : QKeyEvent) (rnd : Z)
        (item : TrainingItem) :
  training_ st = true -> paused_ st = false ->
  current_item st = Some item -> type item = kSpecialKey ->
  is_pure_modifier (ev_key e) = false -> ev_key e <> Qt.Key_Escape ->
  let st' := keyPressEvent e rnd st in
  (ev_key e = key item ->
   round_state st'
   = (items_ st, bounded rnd (items_size st), 0,
      rounds_total_ st + 1, rounds_correct_ st + 1)
   /\ 0 <= current_index_ st' < items_size st')
  /\ (ev_key e <> key item ->
      round_state st'
      = (items_ st, current_index_ st, sequence_pos_ st,
         rounds_total_ st + 1, rounds_correct_ st)
      /\ current_item st' = Some item
      /\ (training_ st' = true ->
          error_label_ st' = ErrPleasePress (label item))).
Proof.
  intros Htr Hpa Hcur Hty Hmod Hesc st'.
  destruct (current_item_in_range st item Hcur) as (_ & Hne & _).
  assert (Hd : st' = judge_key e rnd item (track_keys e st))
    by (apply keyPressEvent_dispatch; assumption).
  rewrite (judge_key_special e rnd item _ Hty) in Hd.
  split.
  - intros Hk.
    replace (ev_key e =? key item) with true in Hd by (symmetry; lia).
    assert (Hrs : round_state st'
                  = (items_ st, bounded rnd (items_size st), 0,
                     rounds_total_ st + 1, rounds_correct_ st + 1)).
    { rewrite Hd, round_state_challenge_check.
      rewrite round_state_NextItem by exact Hne. reflexivity. }
    split; [exact Hrs|].
    apply (round_state_index_range st st' _ _ _ _ Hne Hrs).
  - intros Hk.
    replace (ev_key e =? key item) with false in Hd by (symmetry; lia).
    assert (Hrs : round_state st'
                  = (items_ st, current_index_ st, sequence_pos_ st,
                     rounds_total_ st + 1, rounds_correct_ st)).
    { rewrite Hd, round_state_challenge_check. reflexivity. }
    split; [exact Hrs|]. split.
    + apply (round_state_same_item st st' item _ _ _ Hcur Hrs).
    + intros Htr'. rewrite Hd in Htr' |- *.
      rewrite (challenge_check_still_training _ Htr'). reflexivity.
Qed.

Lemma special_key_judged_witness :
  round_state (keyPressEvent (press Qt.Key_Space Qt.ShiftModifier) 7
                             space_session)
  = (InitAllTrainingItems, 7, 0, 1, 1)
  /\ round_state (keyPressEvent (typed Qt.Key_Q "q") 7 space_session)
     = (InitAllTrainingItems, 26, 0, 1, 0).
Proof.
  pose proof (special_key_judged
                space_session (press Qt.Key_Space Qt.ShiftModifier) 7
                (MakeSpecialKey Qt.Key_Space "Space" kBeginner)) as H1.
  pose proof (special_key_judged
                space_session (typed Qt.Key_Q "q") 7
                (MakeSpecialKey Qt.Key_Space "Space" kBeginner)) as H2.
  split.
  - refine (proj1 (proj1 (H1 _ _ _ _ _ _) _));
      try (vm_compute; reflexivity); discriminate.
  - refine (proj1 (proj2 (H2 _ _ _ _ _ _) _));
      try (vm_compute; reflexivity); discriminate.
Defined.

(** ** Keys outside the dispatch *)

(** While a session is paused the only key that does anything is Space: it
    resumes the session without being judged (whatever the current item
    is, the Space key included) and without touching the round state;
    every other key, Escape included, leaves the state exactly as it was. *)
Theorem paused_session_keys (st : State) (e : QKeyEvent) (rnd : Z) :
  training_ st = true -> paused_ st = true ->
  let st' := keyPressEvent e rnd st in
  (ev_key e <> Qt.Key_Space -> st' = st)
  /\ (ev_key e = Qt.Key_Space ->
      st' = ResumeTraining st
      /\ training_ st' = true /\ paused_ st' = false
      /\ round_state st' = round_state st
      /\ history_ st' = history_ st
      /\ pressed_keys_ st' = pressed_keys_ st).
Proof.
  intros Htr Hpa st'. subst st'. unfold keyPressEvent. rewrite Hpa, Htr.
  cbn [andb negb orb]. split.
  - intros Hk. replace (ev_key e =? Qt.Key_Space) with false
      by (symmetry; lia). reflexivity.
  - intros Hk. replace (ev_key e =? Qt.Key_Space) with true
      by (symmetry; lia).
    split; [reflexivity|].
    destruct (ctl_ResumeTraining st) as [Hc _].
    apply ctl_eq_inv in Hc as (_ & _ & _ & Htr' & Hpa' & _).
    rewrite Htr', Hpa', Htr, Hpa. cbn [negb andb].
    split; [reflexivity|]. split; [reflexivity|].
    split; [apply round_state_ResumeTraining|].
    unfold ResumeTraining. rewrite Htr, Hpa. cbn [negb orb].
    unfold ShowCurrentItem.
    destruct (current_item _) as [item|];
      [destruct (type item)|];
      destruct (TrainingMode_eqb
                  (mode_ (elapsed_restart (set_paused_ false st))) kTimed);
      split; reflexivity.
Qed.

Lemma paused_session_keys_witness :
  let st := step EvPause space_session in
  keyPressEvent (typed Qt.Key_Escape "") 7 st = st
  /\ round_state (keyPressEvent (typed Qt.Key_Space " ") 7 st)
     = (InitAllTrainingItems, 26, 0, 0, 0).
Proof.
  intros st.
  destruct (paused_session_keys st (typed Qt.Key_Escape "") 7)
    as [Hother _]; [vm_compute; reflexivity | vm_compute; reflexivity |].
  destruct (paused_session_keys st (typed Qt.Key_Space " ") 7)
    as [_ Hspace]; [vm_compute; reflexivity | vm_compute; reflexivity |].
  split.
  - apply Hother. discriminate.
  - destruct Hspace as (_ & _ & _ & Hrs & _); [reflexivity|].
    rewrite Hrs. vm_compute. reflexivity.
Defined.

(** In a running session, whatever the current item: a pure modifier key
    (Shift, Control, Alt, Meta) is only noted in the pressed-key
    bookkeeping, and Escape ends the session exactly as the stop button
    would after that bookkeeping - no attempt is counted, the round state
    is kept, and the history receives the session's record under the rule
    of [StopTraining]. *)
Theorem modifier_and_escape_keys (st : State) (e : QKeyEvent) (rnd : Z)
        (item : TrainingItem) :
  training_ st = true -> paused_ st = false ->
  current_item st = Some item ->
  let st' := keyPressEvent e rnd st in
  (is_pure_modifier (ev_key e) = true -> st' = track_keys e st)
  /\ (ev_key e = Qt.Key_Escape ->
      st' = StopTraining (track_keys e st)
      /\ training_ st' = false /\ paused_ st' = false
      /\ round_state st' = round_state st
      /\ target_label_ st' = TgtEnded
      /\ history_ st' = history_ (StopTraining st)).
Proof.
  intros Htr Hpa Hcur st'. subst st'.
  rewrite (keyPressEvent_running e rnd st item Htr Hpa Hcur). split.
  - intros Hmod. rewrite Hmod. reflexivity.
  - intros Hesc. rewrite Hesc.
    replace (is_pure_modifier Qt.Key_Escape) with false by reflexivity.
    replace (Qt.Key_Escape =? Qt.Key_Escape) with true by reflexivity.
    split; [reflexivity|].
    split; [apply training_StopTraining|].
    split; [reflexivity|].
    split; [rewrite round_state_StopTraining; reflexivity|].
    split; [reflexivity|].
    unfold StopTraining.
    cbn [rounds_total_ mode_ set_countdown_timer_ track_keys
         set_current_modifiers_ set_pressed_keys_].
    destruct ((rounds_total_ st >? 0)
              && negb (TrainingMode_eqb (mode_ st) kZen)); reflexivity.
Qed.

Lemma modifier_and_escape_keys_witness :
  let st := qwer_half_typed in
  let st' := keyPressEvent (typed Qt.Key_Escape "") 7 st in
  training_ st' = false
  /\ round_state st' = (InitAllTrainingItems, 95, 2, 0, 0)
  /\ keyPressEvent (press Qt.Key_Shift Qt.ShiftModifier) 7 st
     = track_keys (press Qt.Key_Shift Qt.ShiftModifier) st.
Proof.
  intros st st'.
  destruct (modifier_and_escape_keys
              st (typed Qt.Key_Escape "") 7
              (MakeSequence "qwer" kAdvanced))
    as [_ Hesc]; try (vm_compute; reflexivity).
  destruct (modifier_and_escape_keys
              st (press Qt.Key_Shift Qt.ShiftModifier) 7
              (MakeSequence "qwer" kAdvanced))
    as [Hmod _]; try (vm_compute; reflexivity).
  destruct Hesc as (_ & Htr & _ & Hrs & _); [reflexivity|].
  split; [exact Htr|]. split.
  - subst st'. rewrite Hrs. vm_compute. reflexivity.
  - apply Hmod. reflexivity.
Defined.

(** ** Typing a whole sequence *)

Lemma at_nth_error (s : QString) (n : nat) :
  at_ s (Z.of_nat n) = nth_error (list_ascii_of_string s) n.
Proof.
  unfold at_.
  replace (Z.of_nat n <? 0) with false by (symmetry; apply Z.ltb_ge; lia).
  rewrite Nat2Z.id. revert n.
  induction s as [|a s IH]; intros [|n]; cbn; try reflexivity. apply IH.
Qed.

Lemma size_length (s : QString) :
  size s = Z.of_nat (List.length (list_ascii_of_string s)).
Proof.
  unfold size. f_equal. induction s as [|a s IH]; cbn; congruence.
Qed.

Lemma toLower_fixed_chars (s : QString) (c : QChar) :
  toLower s = s -> In c (list_ascii_of_string s) -> char_toLower c = c.
Proof.
  induction s as [|a s IH]; cbn; intros Hs Hin; [contradiction|].
  injection Hs as Ha Hs. destruct Hin as [-> | Hin]; [exact Ha|].
  apply IH; assumption.
Qed.

Lemma char_toLower_idempotent (c : QChar) :
  char_toLower (char_toLower c) = char_toLower c.
Proof.
  unfold char_toLower.
  destruct ((65 <=? nat_of_ascii c)%nat && (nat_of_ascii c <=? 90)%nat)
    eqn:Hup.
  - apply andb_true_iff in Hup as [H1 H2].
    apply Nat.leb_le in H1, H2.
    rewrite nat_ascii_embedding by lia.
    replace ((65 <=? nat_of_ascii c + 32)%nat
             && (nat_of_ascii c + 32 <=? 90)%nat) with false; [reflexivity|].
    symmetry. apply andb_false_iff. right. apply Nat.leb_gt. lia.
  - rewrite Hup. reflexivity.
Qed.

Lemma toLower_idempotent (s : QString) : toLower (toLower s) = toLower s.
Proof.
  induction s as [|a s IH]; cbn; [reflexivity|].
  rewrite char_toLower_idempotent, IH. reflexivity.
Qed.

Lemma char_key_dispatched (c : QChar) :
  let k := Z.of_nat (nat_of_ascii (char_toUpper c)) in
  is_pure_modifier k = false /\ k <> Qt.Key_Escape.
Proof.
  intros k. pose proof (nat_ascii_bounded (char_toUpper c)) as Hb.
  assert (Hk : 0 <= k < 256) by (subst k; lia).
  unfold is_pure_modifier, Qt.Key_Shift, Qt.Key_Control, Qt.Key_Alt,
    Qt.Key_Meta, Qt.Key_Escape.
  split; [|lia].
  repeat (apply orb_false_iff; split); lia.
Qed.

(** One character of the sequence typed at its position. *)
Lemma sequence_char_typed (st : State) (item : TrainingItem) (c : QChar)
      (rnd : Z) :
  training_ st = true -> paused_ st = false ->
  current_item st = Some item -> type item = kSequence ->
  (mode_ st = kChallenge -> rounds_correct_ st < target_rounds_ st) ->
  at_ (sequence item) (sequence_pos_ st) = Some c ->
  char_toLower c = c ->
  let st' := step (char_key c rnd) st in
  (sequence_pos_ st + 1 < size (sequence item) ->
   ctl st' = ctl st
   /\ round_state st'
      = (items_ st, current_index_ st, sequence_pos_ st + 1,
         rounds_total_ st, rounds_correct_ st))
  /\ (sequence_pos_ st + 1 = size (sequence item) ->
      round_state st'
      = (items_ st, bounded rnd (items_size st), 0,
         rounds_total_ st + 1, rounds_correct_ st + 1)).
Proof.
  intros Htr Hpa Hcur Hty Hch Hat Hlow st'.
  destruct (current_item_in_range st item Hcur) as (_ & Hne & _).
  destruct (char_key_dispatched c) as [Hmod Hesc].
  set (e := typed (Z.of_nat (nat_of_ascii (char_toUpper c)))
                  (String c EmptyString)).
  assert (Hd : st' = judge_key e rnd item (track_keys e st)).
  { subst st'. unfold char_key. cbn [step]. fold e.
    apply keyPressEvent_dispatch; assumption. }
  assert (Htext : toLower (ev_text e) = String c EmptyString).
  { subst e. cbn. rewrite Hlow. reflexivity. }
  rewrite (judge_key_sequence e rnd item (track_keys e st) c c EmptyString
                              Hty Htext Hat) in Hd.
  rewrite ascii_eqb_refl in Hd.
  cbn [set_sequence_pos_ UpdateErrorLabel set_error_label_ sequence_pos_
       track_keys set_current_modifiers_ set_pressed_keys_] in Hd.
  split.
  - intros Hlt.
    replace (sequence_pos_ st + 1 >=? size (sequence item)) with false in Hd
      by (symmetry; lia).
    match type of Hd with _ = challenge_check ?s =>
      destruct (challenge_check_cases s) as [[He _] | [_ [Hm Hge]]] end.
    + rewrite He in Hd. rewrite Hd. split; reflexivity.
    + cbn in Hm, Hge. specialize (Hch Hm). lia.
  - intros Heq.
    replace (sequence_pos_ st + 1 >=? size (sequence item)) with true in Hd
      by (symmetry; lia).
    rewrite Hd, round_state_challenge_check.
    rewrite round_state_NextItem by exact Hne. reflexivity.
Qed.

Lemma skipn_nth_error {A} (l : list A) (n : nat) (a : A) :
  nth_error l n = Some a -> skipn n l = a :: skipn (S n) l.
Proof.
  revert n. induction l as [|x l IH]; intros [|n] H; cbn in *;
    try discriminate.
  - injection H as ->. reflexivity.
  - apply IH. exact H.
Qed.

Lemma rest_of_sequence_typed (item : TrainingItem) (rnd : Z) (k : nat) :
  forall (st : State) (p : nat),
    training_ st = true -> paused_ st = false ->
    current_item st = Some item -> type item = kSequence ->
    (mode_ st = kChallenge -> rounds_correct_ st < target_rounds_ st) ->
    toLower (sequence item) = sequence item ->
    sequence_pos_ st = Z.of_nat p ->
    (p + S k = List.length (list_ascii_of_string (sequence item)))%nat ->
    round_state
      (run (map (fun c => char_key c rnd)
                (skipn p (list_ascii_of_string (sequence item)))) st)
    = (items_ st, bounded rnd (items_size st), 0,
       rounds_total_ st + 1, rounds_correct_ st + 1).
Proof.
  induction k as [|k IH]; intros st p Htr Hpa Hcur Hty Hch Hlow Hpos Hlen.
  - (* the last character *)
    destruct (nth_error (list_ascii_of_string (sequence item)) p)
      as [c|] eqn:Hnth.
    2:{ apply nth_error_None in Hnth. lia. }
    rewrite (skipn_nth_error _ _ _ Hnth).
    rewrite skipn_all2 by lia. cbn [map run].
    assert (Hat : at_ (sequence item) (sequence_pos_ st) = Some c)
      by (rewrite Hpos, at_nth_error; exact Hnth).
    assert (Hc : char_toLower c = c)
      by (apply (toLower_fixed_chars _ _ Hlow), (nth_error_In _ _ Hnth)).
    apply (sequence_char_typed st item c rnd); try assumption.
    rewrite size_length, Hpos. lia.
  - destruct (nth_error (list_ascii_of_string (sequence item)) p)
      as [c|] eqn:Hnth.
    2:{ apply nth_error_None in Hnth. lia. }
    rewrite (skipn_nth_error _ _ _ Hnth). cbn [map run].
    assert (Hat : at_ (sequence item) (sequence_pos_ st) = Some c)
      by (rewrite Hpos, at_nth_error; exact Hnth).
    assert (Hc : char_toLower c = c)
      by (apply (toLower_fixed_chars _ _ Hlow), (nth_error_In _ _ Hnth)).
    destruct (sequence_char_typed st item c rnd Htr Hpa Hcur Hty Hch Hat Hc)
      as [Hstep _].
    destruct Hstep as [Hctl Hrs]; [rewrite size_length, Hpos; lia|].
    set (st1 := step (char_key c rnd) st) in *.
    apply ctl_eq_inv in Hctl as (Hm1 & Ht1 & _ & Htr1 & Hpa1 & _).
    unfold round_state in Hrs. injection Hrs as Hi1 Hx1 Hp1 Ht1' Hc1.
    rewrite (IH st1 (S p)).
    + unfold items_size. rewrite Hi1, Ht1', Hc1. reflexivity.
    + rewrite Htr1. exact Htr.
    + rewrite Hpa1. exact Hpa.
    + rewrite (current_item_same st st1 Hi1 Hx1). exact Hcur.
    + exact Hty.
    + rewrite Hm1, Ht1, Hc1. exact Hch.
    + exact Hlow.
    + rewrite Hp1, Hpos. lia.
    + lia.
Qed.

(** Typing the characters of a Sequence item in order, from position 0 in
    a running session, counts exactly one round, a correct one, and draws
    the next item with the last key: no attempt is counted on the way.
    (The item's sequence is lower case, as [MakeSequence] builds it, and a
    Challenge session has not yet met its target.) *)
Theorem typing_sequence_completes_round (st : State) (item : TrainingItem)
        (rnd : Z) :
  training_ st = true -> paused_ st = false ->
  current_item st = Some item -> type item = kSequence ->
  sequence item <> EmptyString ->
  toLower (sequence item) = sequence item ->
  sequence_pos_ st = 0 ->
  (mode_ st = kChallenge -> rounds_correct_ st < target_rounds_ st) ->
  round_state (run (type_text (sequence item) rnd) st)
  = (items_ st, bounded rnd (items_size st), 0,
     rounds_total_ st + 1, rounds_correct_ st + 1).
Proof.
  intros Htr Hpa Hcur Hty Hne Hlow Hpos Hch.
  unfold type_text.
  change (list_ascii_of_string (sequence item))
    with (skipn 0 (list_ascii_of_string (sequence item))) at 1.
  destruct (sequence item) as [|a s] eqn:Hseq; [contradiction|].
  rewrite <- Hseq in *.
  apply (rest_of_sequence_typed
           item rnd
           (pred (List.length (list_ascii_of_string (sequence item))))
           st 0%nat); try assumption.
  rewrite Hseq. cbn. lia.
Qed.

Lemma typing_sequence_completes_round_witness :
  round_state (run (type_text "qwer" 7) qwer_session)
  = (InitAllTrainingItems, 7, 0, 1, 1).
Proof.
  refine (typing_sequence_completes_round
            qwer_session (MakeSequence "qwer" kAdvanced) 7
            _ _ _ _ _ _ _ _); try (vm_compute; reflexivity); discriminate.
Defined.

(** ** What holds of every reachable state *)

Lemma session_wf_view (st : State) : session_wf st <-> wf_on (wf_view st).
Proof. reflexivity. Qed.

Lemma wf_view_inv (st s : State) :
  wf_view s = wf_view st ->
  all_items_ s = all_items_ st /\ difficulty_ s = difficulty_ st
  /\ toggles s = toggles st /\ round_state s = round_state st
  /\ training_ s = training_ st /\ paused_ s = paused_ st
  /\ countdown_timer_ s = countdown_timer_ st /\ mode_ s = mode_ st.
Proof.
  unfold wf_view. intros H.
  remember (round_state s) as r1. remember (round_state st) as r2.
  remember (toggles s) as t1. remember (toggles st) as t2.
  inversion H. repeat split.
Qed.

Lemma item_at_in_range (items : list TrainingItem) (idx : Z) :
  0 <= idx < Z.of_nat (List.length items) ->
  exists item, item_at items idx = Some item.
Proof.
  intros Hi. unfold item_at.
  replace ((idx <? 0) || (idx >=? Z.of_nat (List.length items))) with false
    by (symmetry; apply orb_false_iff; split; lia).
  destruct (nth_error items (Z.to_nat idx)) as [item|] eqn:Hnth.
  - exists item. reflexivity.
  - apply nth_error_None in Hnth. lia.
Qed.

Lemma filter_items_nonempty (d : Difficulty) (c : CustomToggles)
      (all : list TrainingItem) :
  all <> [] -> filter_items d c all <> [].
Proof.
  intros Hall.
  destruct (filter_items_cases d c all) as [[_ Hf] | [Hsel Hf]]; rewrite Hf;
    assumption.
Qed.

Lemma session_wf_items (st : State) : session_wf st -> items_ st <> [].
Proof.
  intros (Hall & Hitems & _). rewrite Hitems.
  apply filter_items_nonempty. rewrite Hall.
  exact InitAllTrainingItems_nonempty.
Qed.

(** The view after [StopTraining]. *)
Lemma wf_view_StopTraining (st : State) :
  wf_view (StopTraining st)
  = (all_items_ st, difficulty_ st, toggles st, round_state st,
     false, false, false, mode_ st).
Proof.
  unfold StopTraining.
  destruct ((rounds_total_ (set_countdown_timer_ false st) >? 0)
            && negb (TrainingMode_eqb
                       (mode_ (set_countdown_timer_ false st)) kZen));
    reflexivity.
Qed.

Lemma wf_view_set_target_label_ (t : TargetText) (st : State) :
  wf_view (set_target_label_ t st) = wf_view st.
Proof. reflexivity. Qed.

Lemma wf_stopped (st : State) (t : TargetText) :
  session_wf st -> session_wf (set_target_label_ t (StopTraining st)).
Proof.
  intros Hwf. apply session_wf_view.
  rewrite wf_view_set_target_label_, wf_view_StopTraining.
  destruct Hwf as (Hall & Hitems & Hcnt & _).
  unfold wf_on, round_state.
  repeat split; try assumption; try lia; discriminate.
Qed.

Lemma wf_StopTraining (st : State) :
  session_wf st -> session_wf (StopTraining st).
Proof.
  intros Hwf. apply session_wf_view. rewrite wf_view_StopTraining.
  destruct Hwf as (Hall & Hitems & Hcnt & _).
  unfold wf_on, round_state.
  repeat split; try assumption; try lia; discriminate.
Qed.

Lemma wf_challenge_check (st : State) :
  session_wf st -> session_wf (challenge_check st).
Proof.
  intros Hwf.
  destruct (challenge_check_cases st) as [[He _] | [He _]]; rewrite He.
  - exact Hwf.
  - apply wf_stopped. exact Hwf.
Qed.

Lemma wf_same_view (st s : State) :
  wf_view s = wf_view st -> session_wf st -> session_wf s.
Proof.
  intros Hv Hwf. apply session_wf_view. rewrite Hv.
  apply session_wf_view. exact Hwf.
Qed.

(** A judged round keeps the state well formed. *)
Lemma wf_judged (st s : State) (item : TrainingItem) (rnd : Z) :
  session_wf st -> training_ st = true ->
  current_item st = Some item ->
  frame s = frame st ->
  round_outcome st item rnd (round_state s) ->
  session_wf s.
Proof.
  intros Hwf Htr Hcur Hf Hro.
  pose proof (session_wf_items st Hwf) as Hne.
  destruct Hwf as (Hall & Hitems & Hcnt & Hpa & Hcd & Hitem).
  apply frame_inv in Hf as (Ha & Hd & Htg & Hc & Hcd' & _).
  apply ctl_eq_inv in Hc as (Hm & _ & _ & Htr' & Hpa' & _).
  apply session_wf_view. unfold wf_view.
  rewrite Ha, Hd, Htg, Htr', Hpa', Hcd', Hm.
  destruct (Hitem Htr) as (item' & Hcur' & Hpos).
  assert (item' = item) by congruence. subst item'.
  assert (Hin : exists it,
             item_at (items_ st) (bounded rnd (items_size st)) = Some it).
  { apply item_at_in_range. apply bounded_range, items_size_pos, Hne. }
  remember (round_state s) as r eqn:Hr.
  destruct Hro as [Hty | | p Hty Hp Hp0 Hlt | Hty];
    unfold wf_on;
    (split; [exact Hall|]); (split; [exact Hitems|]); (split; [lia|]);
    (split; [exact Hpa|]); (split; [exact Hcd|]); intros _.
  - exists item. split; [exact Hcur|].
    destruct Hpos as [H0 | [Hs _]]; [now left | contradiction].
  - destruct Hin as [it Hit]. exists it. split; [exact Hit | now left].
  - exists item. split; [exact Hcur|]. right. split; [exact Hty | lia].
  - exists item. split; [exact Hcur | now left].
Qed.

Lemma keyPressEvent_cases_item (e : QKeyEvent) (rnd : Z) (st : State) :
  keyPressEvent e rnd st = ResumeTraining st
  \/ keyPressEvent e rnd st = st
  \/ (training_ st = true /\ paused_ st = false
      /\ (keyPressEvent e rnd st = track_keys e st
          \/ keyPressEvent e rnd st = StopTraining (track_keys e st)
          \/ exists item,
              current_item st = Some item
              /\ keyPressEvent e rnd st
                 = judge_key e rnd item (track_keys e st))).
Proof.
  unfold keyPressEvent.
  destruct (paused_ st) eqn:Hpa; cbn [andb].
  - destruct (ev_key e =? Qt.Key_Space).
    + left. reflexivity.
    + right. left. rewrite orb_true_r. reflexivity.
  - destruct (training_ st) eqn:Htr; cbn [negb orb].
    2:{ right. left. reflexivity. }
    destruct (items_isEmpty st || index_out_of_range st).
    { right. left. reflexivity. }
    right. right. split; [reflexivity|]. split; [reflexivity|].
    destruct (is_pure_modifier (ev_key e)); [left; reflexivity|].
    destruct (ev_key e =? Qt.Key_Escape); [right; left; reflexivity|].
    change (current_item (track_keys e st)) with (current_item st).
    destruct (current_item st) as [item|].
    + right. right. exists item. split; reflexivity.
    + left. reflexivity.
Qed.

Lemma wf_ResumeTraining (st : State) :
  session_wf st -> session_wf (ResumeTraining st).
Proof.
  intros Hwf. unfold ResumeTraining.
  destruct (training_ st) eqn:Htr, (paused_ st) eqn:Hpa; cbn [negb orb];
    try exact Hwf.
  destruct Hwf as (Hall & Hitems & Hcnt & _ & Hcd & Hitem).
  rewrite Htr, Hpa in Hcd. cbn [andb negb] in Hcd.
  apply session_wf_view.
  assert (Hshow : forall s, wf_view (ShowCurrentItem s) = wf_view s).
  { intros s. unfold ShowCurrentItem.
    destruct (current_item s) as [item|]; [|reflexivity].
    destruct (type item); reflexivity. }
  rewrite Hshow.
  change (mode_ (elapsed_restart (set_paused_ false st))) with (mode_ st).
  destruct (TrainingMode_eqb (mode_ st) kTimed) eqn:Hm;
    unfold wf_view, wf_on, round_state; cbn;
    rewrite ?Htr, ?Hm, ?Hcd;
    (split; [exact Hall|]); (split; [exact Hitems|]); (split; [exact Hcnt|]);
    (split; [discriminate|]); (split; [reflexivity|]);
    intros _; exact (Hitem Htr).
Qed.

Lemma wf_PauseTraining (st : State) :
  session_wf st -> session_wf (PauseTraining st).
Proof.
  intros Hwf. unfold PauseTraining.
  destruct (training_ st) eqn:Htr, (paused_ st) eqn:Hpa; cbn [negb orb];
    try exact Hwf.
  destruct Hwf as (Hall & Hitems & Hcnt & _ & _ & Hitem).
  apply session_wf_view. unfold wf_view, wf_on, round_state. cbn.
  rewrite Htr.
  (split; [exact Hall|]); (split; [exact Hitems|]); (split; [exact Hcnt|]);
  (split; [reflexivity|]); (split; [reflexivity|]).
  intros _. exact (Hitem Htr).
Qed.

Lemma wf_OnTimerTick (st : State) :
  session_wf st -> session_wf (OnTimerTick st).
Proof.
  intros Hwf. unfold OnTimerTick.
  destruct (negb (training_ st) || paused_ st); [exact Hwf|].
  destruct (TrainingMode_eqb (mode_ st) kTimed); [|exact Hwf].
  assert (Hwf' : session_wf
                   (set_remaining_seconds_ (remaining_seconds_ st - 1) st))
    by exact Hwf.
  destruct (remaining_seconds_
              (set_remaining_seconds_ (remaining_seconds_ st - 1) st) <=? 0).
  - apply wf_stopped. exact Hwf'.
  - exact Hwf'.
Qed.

Lemma wf_view_NextItem (rnd : Z) (st : State) :
  items_ st <> [] ->
  wf_view (NextItem rnd st)
  = (all_items_ st, difficulty_ st, toggles st,
     (items_ st, bounded rnd (items_size st), 0,
      rounds_total_ st, rounds_correct_ st),
     training_ st, paused_ st, countdown_timer_ st, mode_ st).
Proof.
  intros Hne. unfold wf_view.
  rewrite (round_state_NextItem rnd st Hne).
  pose proof (frame_NextItem rnd st) as Hf.
  apply frame_inv in Hf as (Ha & Hd & Htg & Hc & Hcd & _).
  apply ctl_eq_inv in Hc as (Hm & _ & _ & Htr & Hpa & _).
  rewrite Ha, Hd, Htg, Htr, Hpa, Hcd, Hm. reflexivity.
Qed.

Lemma wf_StartTraining (rnd : Z) (st : State) :
  session_wf st -> session_wf (StartTraining rnd st).
Proof.
  intros Hwf. pose proof (session_wf_items st Hwf) as Hne.
  destruct Hwf as (Hall & Hitems & Hcnt & _ & Hcd & _).
  assert (He : items_isEmpty st = false).
  { unfold items_isEmpty. destruct (items_ st); [contradiction|reflexivity]. }
  unfold StartTraining. rewrite He. rewrite He.
  apply session_wf_view.
  change (mode_ (elapsed_restart
                   (UpdateErrorLabel ErrNone
                      (set_paused_elapsed_ 0
                         (set_sequence_pos_ 0
                            (set_paused_ false
                               (set_training_ true
                                  (set_rounds_correct_ 0
                                     (set_rounds_total_ 0 st)))))))))
    with (mode_ st).
  destruct (item_at_in_range (items_ st) (bounded rnd (items_size st)))
    as [it Hit]; [apply bounded_range, items_size_pos, Hne|].
  destruct (mode_ st) eqn:Hm;
    rewrite wf_view_NextItem by exact Hne;
    unfold wf_on, items_size; cbn; rewrite ?Hm;
    (split; [exact Hall|]);
    (split; [exact Hitems|]); (split; [lia|]);
    (split; [discriminate|]);
    (split; [first [reflexivity
                   | rewrite Hcd; cbn; rewrite ?andb_false_r; reflexivity]|]);
    intros _; exists it; (split; [exact Hit | now left]).
Qed.

Lemma wf_keyPressEvent (e : QKeyEvent) (rnd : Z) (st : State) :
  session_wf st -> session_wf (keyPressEvent e rnd st).
Proof.
  intros Hwf.
  destruct (keyPressEvent_cases_item e rnd st)
    as [He | [He | (Htr & Hpa & [He | [He | (item & Hcur & He)]])]];
    rewrite He.
  - apply wf_ResumeTraining. exact Hwf.
  - exact Hwf.
  - exact Hwf.
  - apply wf_StopTraining. exact Hwf.
  - assert (Hwf' : session_wf (track_keys e st)) by exact Hwf.
    destruct (judge_key_outcome e rnd item (track_keys e st)
                                (session_wf_items _ Hwf'))
      as [Hj | (s & Hf & Hro & Hj)]; rewrite Hj.
    + exact Hwf'.
    + apply wf_challenge_check.
      apply (wf_judged (track_keys e st) s item rnd); assumption.
Qed.

Lemma wf_closeEvent (rnd : Z) (st : State) :
  session_wf st -> session_wf (fst (closeEvent rnd st)).
Proof.
  intros Hwf. unfold closeEvent.
  destruct (training_ st) eqn:Htr; [|exact Hwf].
  destruct (IsCurrentItemAltF4 st); [|exact Hwf].
  cbn [fst]. apply wf_challenge_check.
  pose proof (session_wf_items st Hwf) as Hne.
  destruct Hwf as (Hall & Hitems & Hcnt & Hpa & Hcd & Hitem).
  apply session_wf_view.
  rewrite wf_view_NextItem by exact Hne.
  destruct (item_at_in_range (items_ st) (bounded rnd (items_size st)))
    as [it Hit]; [apply bounded_range, items_size_pos, Hne|].
  unfold wf_on. cbn.
  (split; [exact Hall|]); (split; [exact Hitems|]); (split; [lia|]);
  (split; [exact Hpa|]); (split; [exact Hcd|]).
  intros _. exists it. split; [exact Hit | now left].
Qed.

Lemma wf_step (e : Event) (st : State) :
  session_wf st -> session_wf (step e st).
Proof.
  intros Hwf. destruct e; cbn [step].
  - exact Hwf.
  - apply wf_StartTraining. exact Hwf.
  - apply wf_StopTraining. exact Hwf.
  - apply wf_PauseTraining. exact Hwf.
  - apply wf_ResumeTraining. exact Hwf.
  - apply wf_OnTimerTick. exact Hwf.
  - apply wf_keyPressEvent. exact Hwf.
  - apply wf_closeEvent. exact Hwf.
Qed.

Lemma wf_TrainerWindow (d : Difficulty) (m : TrainingMode)
      (time_limit target : Z) (c : CustomToggles)
      (history : list SessionRecord) (t : Z) :
  session_wf (TrainerWindow d m time_limit target c history t).
Proof.
  unfold session_wf. cbn.
  repeat split; try reflexivity; try lia; discriminate.
Qed.

Lemma wf_page_step (e : PageEvent) (st : State) :
  session_wf st -> training_ st = false -> session_wf (page_step e st).
Proof.
  intros (Hall & Hitems & Hcnt & Hpa & Hcd & _) Htr.
  rewrite Htr in Hcd. cbn [andb] in Hcd.
  destruct e; unfold session_wf; cbn;
    (split; [exact Hall|]);
    (split; [first [reflexivity | exact Hitems]|]);
    (split; [exact Hcnt|]); (split; [exact Hpa|]);
    (split; [rewrite Htr; exact Hcd|]); rewrite Htr; discriminate.
Qed.

Lemma reachable_wf (st : State) : reachable st -> session_wf st.
Proof.
  induction 1 as [d m tl tg c h t | e st _ IH | e st _ IH Htr].
  - apply wf_TrainerWindow.
  - apply wf_step. exact IH.
  - apply wf_page_step; assumption.
Qed.

Lemma reachable_run (evs : list Event) :
  forall st, reachable st -> reachable (run evs st).
Proof.
  induction evs as [|e evs IH]; intros st Hr; cbn [run]; [exact Hr|].
  apply IH, reach_step, Hr.
Qed.

Lemma step_EvStart (rnd : Z) (st : State) :
  step (EvStart rnd) st = StartTraining rnd st.
Proof. reflexivity. Qed.

Lemma reachable_started (rnd : Z) (m : TrainingMode) (time_limit target : Z)
      (evs : list Event) :
  reachable (run evs (StartTraining rnd (window m time_limit target))).
Proof.
  apply reachable_run. rewrite <- step_EvStart.
  apply reach_step. unfold window. apply reach_window.
Qed.

Lemma reachable_qwer_half_typed : reachable qwer_half_typed.
Proof.
  unfold qwer_half_typed, qwer_session. apply reachable_started.
Qed.

(** In every reachable state the countdown timer is active exactly while a
    Timed session is running and not paused - it is stopped in every other
    mode, during a pause and outside a session - and the paused flag is
    only ever set during a session. *)
Theorem reachable_countdown_timer (st : State) :
  reachable st ->
  countdown_timer_ st
  = training_ st && negb (paused_ st) && TrainingMode_eqb (mode_ st) kTimed
  /\ (paused_ st = true -> training_ st = true).
Proof.
  intros Hr. destruct (reachable_wf st Hr) as (_ & _ & _ & Hpa & Hcd & _).
  split; assumption.
Qed.

Lemma reachable_countdown_timer_witness :
  countdown_timer_ (run [EvTick; EvPause] (StartTraining 0 timed_window))
  = false
  /\ countdown_timer_ (run [EvTick; EvPause; EvResume]
                           (StartTraining 0 timed_window)) = true.
Proof.
  assert (Hr : forall evs,
             reachable (run evs (StartTraining 0 timed_window))).
  { intros evs. unfold timed_window. apply reachable_started. }
  split.
  - rewrite (proj1 (reachable_countdown_timer _ (Hr [EvTick; EvPause]))).
    vm_compute. reflexivity.
  - rewrite (proj1 (reachable_countdown_timer
                      _ (Hr [EvTick; EvPause; EvResume]))).
    vm_compute. reflexivity.
Defined.

(** In every reachable state with a session active, the current index
    points at an item of the working set, and the sequence position is 0
    or lies strictly inside the sequence of the current Sequence item.  So
    the defensive returns of [keyPressEvent] (empty working set, index out
    of range) and the position reset of its Sequence branch never fire. *)
Theorem reachable_current_item (st : State) :
  reachable st -> training_ st = true ->
  items_isEmpty st || index_out_of_range st = false
  /\ exists item,
      current_item st = Some item
      /\ (sequence_pos_ st = 0
          \/ (type item = kSequence
              /\ 0 < sequence_pos_ st < size (sequence item))).
Proof.
  intros Hr Htr.
  destruct (reachable_wf st Hr) as (_ & _ & _ & _ & _ & Hitem).
  destruct (Hitem Htr) as (item & Hcur & Hpos).
  destruct (current_item_in_range st item Hcur) as (Hidx & _ & Hemp).
  split; [rewrite Hidx, Hemp; reflexivity|].
  exists item. split; [exact Hcur | exact Hpos].
Qed.

Lemma reachable_current_item_witness :
  exists item,
    current_item qwer_half_typed = Some item
    /\ (sequence_pos_ qwer_half_typed = 0
        \/ (type item = kSequence
            /\ 0 < sequence_pos_ qwer_half_typed < size (sequence item))).
Proof.
  refine (proj2 (reachable_current_item
                   qwer_half_typed reachable_qwer_half_typed _)).
  vm_compute. reflexivity.
Defined.

(** In every reachable state the catalog is the one built at start-up and
    the working set is the difficulty filter of the current settings
    applied to it - never empty, whatever was changed on the settings page
    and whatever happened during sessions. *)
Theorem reachable_working_set (st : State) :
  reachable st ->
  all_items_ st = InitAllTrainingItems
  /\ items_ st
     = filter_items (difficulty_ st) (toggles st) InitAllTrainingItems
  /\ items_ st <> [].
Proof.
  intros Hr. pose proof (reachable_wf st Hr) as Hwf.
  pose proof (session_wf_items st Hwf) as Hne.
  destruct Hwf as (Hall & Hitems & _).
  rewrite Hall in Hitems. repeat split; assumption.
Qed.

Lemma reachable_working_set_witness :
  let st := page_step (PgCustomSingle false)
              (page_step (PgDifficulty kCustom)
                 (step EvStop qwer_half_typed)) in
  items_ st = filter_items kCustom
                {| custom_single_keys := false; custom_special_keys := true;
                   custom_combos := true; custom_sequences := true |}
                InitAllTrainingItems
  /\ items_ st <> [].
Proof.
  intros st.
  assert (Hr : reachable st).
  { apply reach_page; [|vm_compute; reflexivity].
    apply reach_page; [|vm_compute; reflexivity].
    apply reach_step. exact reachable_qwer_half_typed. }
  destruct (reachable_working_set st Hr) as (_ & Hitems & Hne).
  split; [|exact Hne].
  rewrite Hitems. vm_compute. reflexivity.
Defined.

(** ** The history along a session *)

Lemma history_StopTraining_cases (st : State) :
  history_ (StopTraining st) = history_ st
  \/ history_ (StopTraining st)
     = prepend_record (session_record st) (history_ st).
Proof.
  unfold StopTraining.
  cbn [rounds_total_ mode_ set_countdown_timer_].
  destruct ((rounds_total_ st >? 0)
            && negb (TrainingMode_eqb (mode_ st) kZen));
    [right | left]; reflexivity.
Qed.

Lemma history_set_target_label_ (t : TargetText) (st : State) :
  history_ (set_target_label_ t st) = history_ st.
Proof. reflexivity. Qed.

Lemma history_challenge_check (st : State) :
  history_ (challenge_check st) = history_ st
  \/ history_ (challenge_check st)
     = prepend_record (session_record st) (history_ st).
Proof.
  destruct (challenge_check_cases st) as [[He _] | [He _]]; rewrite He.
  - left. reflexivity.
  - rewrite history_set_target_label_. apply history_StopTraining_cases.
Qed.

(** Every event leaves the history alone or saves one record in front. *)
Lemma history_step (e : Event) (st : State) :
  history_ (step e st) = history_ st
  \/ exists r, history_ (step e st) = prepend_record r (history_ st).
Proof.
  assert (Hstop : forall s,
             history_ s = history_ st ->
             history_ (StopTraining s) = history_ st
             \/ exists r, history_ (StopTraining s)
                          = prepend_record r (history_ st)).
  { intros s Hs. destruct (history_StopTraining_cases s) as [H | H];
      rewrite H, Hs; [left; reflexivity | right; eexists; reflexivity]. }
  assert (Hcheck : forall s,
             history_ s = history_ st ->
             history_ (challenge_check s) = history_ st
             \/ exists r, history_ (challenge_check s)
                          = prepend_record r (history_ st)).
  { intros s Hs. destruct (history_challenge_check s) as [H | H];
      rewrite H, Hs; [left; reflexivity | right; eexists; reflexivity]. }
  assert (Hshow : forall s, history_ (ShowCurrentItem s) = history_ s).
  { intros s. pose proof (frame_ShowCurrentItem s) as Hf.
    apply frame_inv in Hf as (_ & _ & _ & _ & _ & Hh & _). exact Hh. }
  assert (Hnext : forall r s, history_ (NextItem r s) = history_ s).
  { intros r s. pose proof (frame_NextItem r s) as Hf.
    apply frame_inv in Hf as (_ & _ & _ & _ & _ & Hh & _). exact Hh. }
  assert (Hresume : history_ (ResumeTraining st) = history_ st).
  { unfold ResumeTraining.
    destruct (negb (training_ st) || negb (paused_ st)); [reflexivity|].
    rewrite Hshow.
    destruct (TrainingMode_eqb
                (mode_ (elapsed_restart (set_paused_ false st))) kTimed);
      reflexivity. }
  destruct e as [ms | rnd | | | | | event rnd | rnd]; cbn [step].
  - left. reflexivity.
  - left. unfold StartTraining.
    destruct (items_isEmpty
                (if items_isEmpty st then FilterItemsByDifficulty st else st)).
    + destruct (items_isEmpty st); reflexivity.
    + rewrite Hnext.
      match goal with
      | |- context [match mode_ ?X with kTimed => _ | _ => _ end] =>
          destruct (mode_ X)
      end; destruct (items_isEmpty st); reflexivity.
  - apply Hstop. reflexivity.
  - left. unfold PauseTraining.
    destruct (negb (training_ st) || paused_ st); reflexivity.
  - left. exact Hresume.
  - unfold OnTimerTick.
    destruct (negb (training_ st) || paused_ st); [left; reflexivity|].
    destruct (TrainingMode_eqb (mode_ st) kTimed); [|left; reflexivity].
    destruct (remaining_seconds_
                (set_remaining_seconds_ (remaining_seconds_ st - 1) st)
              <=? 0); [|left; reflexivity].
    rewrite history_set_target_label_. apply Hstop. reflexivity.
  - destruct (keyPressEvent_cases_item event rnd st)
      as [He | [He | (_ & _ & [He | [He | (item & Hcur & He)]])]];
      rewrite He.
    + left. exact Hresume.
    + left. reflexivity.
    + left. reflexivity.
    + apply Hstop. reflexivity.
    + destruct (current_item_in_range st item Hcur) as (_ & Hne & _).
      destruct (judge_key_outcome event rnd item (track_keys event st) Hne)
        as [Hj | (s & Hf & _ & Hj)]; rewrite Hj.
      * left. reflexivity.
      * apply Hcheck.
        apply frame_inv in Hf as (_ & _ & _ & _ & _ & Hh & _). exact Hh.
  - unfold closeEvent. destruct (training_ st); [|left; reflexivity].
    destruct (IsCurrentItemAltF4 st); [|left; reflexivity].
    cbn [fst]. apply Hcheck. rewrite Hnext. reflexivity.
Qed.

Lemma length_prepend_record (r : SessionRecord) (h : list SessionRecord) :
  List.length (prepend_record r h)
  = Nat.min kMaxHistoryRecords (S (List.length h)).
Proof.
  unfold prepend_record. rewrite keep_recent_firstn, length_firstn.
  reflexivity.
Qed.

(** Along any run of session events the history never grows beyond 100
    records, or beyond the number it held at the start if that was more
    (the history loaded at start-up is not trimmed until a record is
    saved); and every single event either leaves the history untouched or
    puts exactly one new record in front of it. *)
Theorem history_bounded_along_runs (evs : list Event) (st : State) :
  (List.length (history_ (run evs st))
   <= Nat.max kMaxHistoryRecords (List.length (history_ st)))%nat
  /\ forall e,
      history_ (step e st) = history_ st
      \/ exists r,
          history_ (step e st)
          = firstn kMaxHistoryRecords (r :: history_ st).
Proof.
  split.
  - revert st. induction evs as [|e evs IH]; intros st; cbn [run]; [lia|].
    specialize (IH (step e st)).
    destruct (history_step e st) as [H | [r H]]; rewrite H in IH.
    + exact IH.
    + rewrite length_prepend_record in IH. unfold kMaxHistoryRecords in *.
      lia.
  - intros e. destruct (history_step e st) as [H | [r H]].
    + left. exact H.
    + right. exists r. rewrite H. unfold prepend_record.
      apply keep_recent_firstn.
Qed.

(** ** The counters, live and saved *)

Lemma counters_of_round_state (s s' : State) :
  round_state s' = round_state s ->
  rounds_total_ s' = rounds_total_ s
  /\ rounds_correct_ s' = rounds_correct_ s.
Proof. unfold round_state. intros H. inversion H. split; reflexivity. Qed.

(** The record an event saves carries the counters the event leaves. *)
Lemma history_step_record (e : Event) (st : State) :
  history_ (step e st) = history_ st
  \/ exists r,
      history_ (step e st) = prepend_record r (history_ st)
      /\ total_rounds r = rounds_total_ (step e st)
      /\ correct_rounds r = rounds_correct_ (step e st).
Proof.
  set (P := fun s' : State =>
              history_ s' = history_ st
              \/ exists r,
                  history_ s' = prepend_record r (history_ st)
                  /\ total_rounds r = rounds_total_ s'
                  /\ correct_rounds r = rounds_correct_ s').
  change (P (step e st)).
  assert (Hstop : forall s, history_ s = history_ st -> P (StopTraining s)).
  { intros s Hs. unfold P.
    destruct (counters_of_round_state _ _ (round_state_StopTraining s))
      as [Ht Hc].
    destruct (history_StopTraining_cases s) as [H | H]; rewrite H, Hs.
    - left. reflexivity.
    - right. exists (session_record s). rewrite Ht, Hc.
      repeat split. }
  assert (Hlabel : forall t s, P s -> P (set_target_label_ t s)).
  { intros t s Hs. unfold P in *.
    destruct (counters_of_round_state _ _ (round_state_set_target_label_ t s))
      as [Ht Hc].
    rewrite history_set_target_label_, Ht, Hc. exact Hs. }
  assert (Hcheck : forall s,
             history_ s = history_ st -> P (challenge_check s)).
  { intros s Hs.
    destruct (challenge_check_cases s) as [[He _] | [He _]]; rewrite He.
    - left. exact Hs.
    - apply Hlabel, Hstop, Hs. }
  assert (Hsame : forall s, history_ s = history_ st -> P s).
  { intros s Hs. left. exact Hs. }
  assert (Hshow : forall s, history_ (ShowCurrentItem s) = history_ s).
  { intros s. pose proof (frame_ShowCurrentItem s) as Hf.
    apply frame_inv in Hf as (_ & _ & _ & _ & _ & Hh & _). exact Hh. }
  assert (Hnext : forall r s, history_ (NextItem r s) = history_ s).
  { intros r s. pose proof (frame_NextItem r s) as Hf.
    apply frame_inv in Hf as (_ & _ & _ & _ & _ & Hh & _). exact Hh. }
  assert (Hresume : history_ (ResumeTraining st) = history_ st).
  { unfold ResumeTraining.
    destruct (negb (training_ st) || negb (paused_ st)); [reflexivity|].
    rewrite Hshow.
    destruct (TrainingMode_eqb
                (mode_ (elapsed_restart (set_paused_ false st))) kTimed);
      reflexivity. }
  destruct e as [ms | rnd | | | | | event rnd | rnd]; cbn [step].
  - apply Hsame. reflexivity.
  - apply Hsame. unfold StartTraining.
    destruct (items_isEmpty
                (if items_isEmpty st then FilterItemsByDifficulty st else st)).
    + destruct (items_isEmpty st); reflexivity.
    + rewrite Hnext.
      match goal with
      | |- context [match mode_ ?X with kTimed => _ | _ => _ end] =>
          destruct (mode_ X)
      end; destruct (items_isEmpty st); reflexivity.
  - apply Hstop. reflexivity.
  - apply Hsame. unfold PauseTraining.
    destruct (negb (training_ st) || paused_ st); reflexivity.
  - apply Hsame. exact Hresume.
  - unfold OnTimerTick.
    destruct (negb (training_ st) || paused_ st); [apply Hsame; reflexivity|].
    destruct (TrainingMode_eqb (mode_ st) kTimed);
      [|apply Hsame; reflexivity].
    destruct (remaining_seconds_
                (set_remaining_seconds_ (remaining_seconds_ st - 1) st)
              <=? 0); [|apply Hsame; reflexivity].
    apply Hlabel, Hstop. reflexivity.
  - destruct (keyPressEvent_cases_item event rnd st)
      as [He | [He | (_ & _ & [He | [He | (item & Hcur & He)]])]];
      rewrite He.
    + apply Hsame. exact Hresume.
    + apply Hsame. reflexivity.
    + apply Hsame. reflexivity.
    + apply Hstop. reflexivity.
    + destruct (current_item_in_range st item Hcur) as (_ & Hne & _).
      destruct (judge_key_outcome event rnd item (track_keys event st) Hne)
        as [Hj | (s & Hf & _ & Hj)]; rewrite Hj.
      * apply Hsame. reflexivity.
      * apply Hcheck.
        apply frame_inv in Hf as (_ & _ & _ & _ & _ & Hh & _). exact Hh.
  - unfold closeEvent. destruct (training_ st); [|apply Hsame; reflexivity].
    destruct (IsCurrentItemAltF4 st); [|apply Hsame; reflexivity].
    cbn [fst]. apply Hcheck. rewrite Hnext. reflexivity.
Qed.

(** In every state the program can reach, the correct rounds are between
    zero and the total rounds, so the accuracy shown is never above 100 %;
    and whenever an event saves a record, the record's correct rounds are
    between zero and its total rounds.  (Records that were loaded into the
    history at start-up are not covered: nothing checks them.) *)
Theorem reachable_counters (st : State) :
  reachable st ->
  0 <= rounds_correct_ st <= rounds_total_ st
  /\ forall e,
      history_ (step e st) = history_ st
      \/ exists r,
          history_ (step e st)
          = firstn kMaxHistoryRecords (r :: history_ st)
          /\ 0 <= correct_rounds r <= total_rounds r.
Proof.
  intros Hr. split.
  - destruct (reachable_wf st Hr) as (_ & _ & Hcnt & _). exact Hcnt.
  - intros e.
    destruct (reachable_wf (step e st) (reach_step e st Hr))
      as (_ & _ & Hcnt & _).
    destruct (history_step_record e st) as [H | (r & H & Ht & Hc)].
    + left. exact H.
    + right. exists r. split.
      * rewrite H. unfold prepend_record. apply keep_recent_firstn.
      * rewrite Ht, Hc. exact Hcnt.
Qed.

Lemma reachable_counters_witness :
  let st := run [key_1; key_2] (StartTraining 0 challenge_window) in
  0 <= rounds_correct_ st <= rounds_total_ st
  /\ exists r,
      history_ (step key_1 st) = firstn kMaxHistoryRecords (r :: history_ st)
      /\ 0 <= correct_rounds r <= total_rounds r.
Proof.
  intros st.
  assert (Hr : reachable st).
  { unfold st, challenge_window. apply reachable_started. }
  destruct (reachable_counters st Hr) as [Hcnt Hsave].
  split; [exact Hcnt|].
  destruct (Hsave key_1) as [H | H]; [|exact H].
  exfalso. apply (f_equal (@List.length _)) in H.
  vm_compute in H. discriminate.
Defined.

(** ** The countdown under any events *)

Lemma ctl_keyPressEvent_other_mode (e : QKeyEvent) (rnd : Z) (st : State) :
  mode_ st <> kChallenge ->
  ctl (keyPressEvent e rnd st) = ctl st
  \/ ctl (keyPressEvent e rnd st)
     = (mode_ st, target_rounds_ st, time_limit_seconds_ st,
        training_ st, false, remaining_seconds_ st)
  \/ ctl (keyPressEvent e rnd st)
     = (mode_ st, target_rounds_ st, time_limit_seconds_ st,
        false, false, remaining_seconds_ st).
Proof.
  intros Hm.
  destruct (keyPressEvent_cases e rnd st)
    as [[Hp He] | [He | (Htr & Hpa & [He | [[_ He] | [_ [item He]]]])]];
    rewrite He.
  - destruct (ctl_ResumeTraining st) as [Hc _]. rewrite Hc.
    destruct (training_ st) eqn:Htr.
    + right. left. rewrite Hp. reflexivity.
    + left. unfold ctl. rewrite Hp, Htr. reflexivity.
  - left. reflexivity.
  - left. reflexivity.
  - right. right. rewrite ctl_StopTraining. reflexivity.
  - left.
    destruct (judge_key_shape e rnd item (track_keys e st))
      as (s & Hc & _ & [[Hj _] | Hj]); rewrite Hj.
    + exact Hc.
    + rewrite challenge_check_other_mode; [exact Hc|].
      apply ctl_eq_inv in Hc as (Hms & _). rewrite Hms. exact Hm.
Qed.

(** During a Timed session with a limit of [T >= 1] seconds, whatever the
    events - pauses, resumes, restarts, key presses, close requests, ticks,
    also ticks that arrive during a pause - the session is only ever
    active with between 1 and [T] seconds remaining. *)
Theorem timed_remaining_in_range (T : Z) (st0 : State) (rnd : Z)
        (evs : list Event) :
  1 <= T ->
  mode_ st0 = kTimed -> time_limit_seconds_ st0 = T ->
  all_items_ st0 <> [] ->
  let st := run evs (StartTraining rnd st0) in
  training_ st = true -> 1 <= remaining_seconds_ st <= T.
Proof.
  intros HT Hm Hl Hall st.
  set (P := fun s : State =>
              mode_ s = kTimed /\ time_limit_seconds_ s = T
              /\ (training_ s = true -> 1 <= remaining_seconds_ s <= T)).
  assert (Hsame : forall s s',
             P s -> mode_ s' = mode_ s ->
             time_limit_seconds_ s' = time_limit_seconds_ s ->
             remaining_seconds_ s' = remaining_seconds_ s ->
             (training_ s' = true -> training_ s = true) -> P s').
  { intros s s' (Hms & Hls & Hrs) Hm' Hl' Hr' Htr'. unfold P.
    rewrite Hm', Hl', Hr'. repeat split; try assumption.
    - apply Hrs, Htr', H.
    - apply Hrs, Htr', H. }
  assert (Hctl : forall s s' tr pa,
             P s ->
             ctl s' = (mode_ s, target_rounds_ s, time_limit_seconds_ s,
                       tr, pa, remaining_seconds_ s) ->
             (tr = true -> training_ s = true) -> P s').
  { intros s s' tr pa Hs Hc Htr.
    apply ctl_eq_inv in Hc as (Hm' & _ & Hl' & Htr' & _ & Hr').
    apply (Hsame s); try assumption. rewrite Htr'. exact Htr. }
  assert (Hstep : forall e s, P s -> P (step e s)).
  { intros e s Hs. pose proof Hs as (Hms & Hls & Hrs).
    destruct e as [ms | r | | | | | event r | r]; cbn [step].
    - apply (Hsame s); try reflexivity; trivial.
    - destruct (StartTraining_cases r s) as [[Hc _] | [Hc _]].
      + apply (Hctl s _ (training_ s) (paused_ s)); trivial.
      + apply ctl_eq_inv in Hc as (Hm' & _ & Hl' & _ & _ & Hr').
        unfold P. rewrite Hm', Hl', Hr', Hms, Hls.
        repeat split; try assumption; lia.
    - apply (Hctl s _ false false); [exact Hs | apply ctl_StopTraining|].
      discriminate.
    - destruct (ctl_PauseTraining s) as [Hc _].
      apply (Hctl s _ _ _ Hs Hc). trivial.
    - destruct (ctl_ResumeTraining s) as [Hc _].
      apply (Hctl s _ _ _ Hs Hc). trivial.
    - destruct (training_ s) eqn:Htr; [destruct (paused_ s) eqn:Hpa|].
      + rewrite OnTimerTick_inert by (now right). exact Hs.
      + destruct (OnTimerTick_step s Htr Hpa Hms) as (Hr' & Hm' & Hst & Hgo).
        specialize (Hrs eq_refl).
        destruct (Z.le_gt_cases (remaining_seconds_ s) 1) as [Hle | Hgt].
        * destruct (Hst Hle) as [Htr' _]. unfold P.
          rewrite Hm', Htr'.
          assert (Hl' : time_limit_seconds_ (OnTimerTick s)
                        = time_limit_seconds_ s).
          { rewrite (OnTimerTick_running s Htr Hpa Hms). cbv zeta.
            destruct (remaining_seconds_ s - 1 <=? 0).
            - destruct (stopped_with_label TgtTimeUp
                          (set_remaining_seconds_
                             (remaining_seconds_ s - 1) s)) as (Hc & _).
              apply ctl_eq_inv in Hc as (_ & _ & Hx & _). exact Hx.
            - reflexivity. }
          rewrite Hl'. repeat split; try assumption; discriminate.
        * rewrite (Hgo ltac:(lia)). unfold P. cbn.
          repeat split; try assumption; lia.
      + rewrite OnTimerTick_inert by (now left). exact Hs.
    - assert (Hnc : mode_ s <> kChallenge) by (rewrite Hms; discriminate).
      destruct (ctl_keyPressEvent_other_mode event r s Hnc)
        as [Hc | [Hc | Hc]].
      + apply (Hctl s _ (training_ s) (paused_ s)); trivial.
      + apply (Hctl s _ _ _ Hs Hc). trivial.
      + apply (Hctl s _ _ _ Hs Hc). discriminate.
    - assert (Hnc : mode_ s <> kChallenge) by (rewrite Hms; discriminate).
      apply (Hctl s _ (training_ s) (paused_ s)); trivial.
      apply (ctl_key_or_close (EvClose r) s Hnc I). }
  assert (HP : P st).
  { subst st.
    apply (run_invariant P (fun _ => True)).
    - intros e s _ Hs. apply Hstep. exact Hs.
    - apply Forall_forall. trivial.
    - pose proof (StartTraining_fresh rnd st0 Hall) as Hf.
      unfold session_fields in Hf.
      remember (ctl (StartTraining rnd st0)) as c eqn:Ec.
      injection Hf as Hc _ _ _ _ _ _. subst c.
      rewrite Hm in Hc.
      apply ctl_eq_inv in Hc as (Hm' & _ & Hl' & _ & _ & Hr').
      unfold P. rewrite Hm', Hl', Hr', Hl.
      repeat split; try assumption; lia. }
  destruct HP as (_ & _ & Hr). exact Hr.
Qed.

Lemma timed_remaining_in_range_witness :
  let st := run [EvTick; EvPause; EvTick; EvResume; key_1; EvTick]
                (StartTraining 0 timed_window) in
  1 <= remaining_seconds_ st <= 3.
Proof.
  intros st.
  refine (timed_remaining_in_range
            3 timed_window 0
            [EvTick; EvPause; EvTick; EvResume; key_1; EvTick]
            _ eq_refl eq_refl InitAllTrainingItems_nonempty _).
  - lia.
  - vm_compute. reflexivity.
Defined.

(** ** Pausing, resuming and stopping *)

(** The pause button and the clock: pausing a paused session and resuming
    a running one do nothing, and neither does anything outside a session;
    while a session is paused, time may pass and ticks may arrive without
    changing the elapsed time the statistics use. *)
Theorem pause_guards (st : State) (ms : Z) :
  (training_ st = false -> PauseTraining st = st /\ ResumeTraining st = st)
  /\ (paused_ st = false -> ResumeTraining st = st)
  /\ (paused_ st = true ->
      PauseTraining st = st
      /\ OnTimerTick st = st
      /\ UpdateStatsLabel_ms (step (EvElapse ms) st)
         = UpdateStatsLabel_ms st).
Proof.
  split; [|split].
  - intros Htr. unfold PauseTraining, ResumeTraining. rewrite Htr.
    split; reflexivity.
  - intros Hpa. unfold ResumeTraining. rewrite Hpa, orb_true_r.
    reflexivity.
  - intros Hpa. split; [|split].
    + unfold PauseTraining. rewrite Hpa, orb_true_r. reflexivity.
    + apply OnTimerTick_inert. now right.
    + unfold UpdateStatsLabel_ms. cbn [step elapsed_ set_now paused_
                                         paused_elapsed_].
      rewrite Hpa. reflexivity.
Qed.

Lemma pause_guards_witness :
  let st := run [EvElapse 5000; EvPause] endless_session in
  UpdateStatsLabel_ms (run [EvElapse 60000; EvPause; EvTick] st) = 5000.
Proof.
  intros st.
  destruct (pause_guards st 60000) as (_ & _ & Hp).
  destruct Hp as (Hpause & Htick & Hms); [vm_compute; reflexivity|].
  cbn [run]. cbn [step] in Hms.
  assert (Hpa : paused_ (set_now (now st + 60000) st) = true)
    by (vm_compute; reflexivity).
  destruct (pause_guards (set_now (now st + 60000) st) 0) as (_ & _ & Hp2).
  destruct (Hp2 Hpa) as (Hpause2 & Htick2 & _).
  cbn [step]. rewrite Hpause2, Htick2, Hms. vm_compute. reflexivity.
Defined.

(** The duration of a record saved while the session is paused.  Take a
    running session (timer restarted at [t0], clock at [n], [pe] ms
    accumulated) with a round to its name, outside Zen mode: after [a] ms
    running and [p] ms paused, the stop button saves a duration of
    [(n + a + p - t0) + (n + a - t0)] ms - the stretch before the pause
    counted twice and the pause itself included, because the elapsed
    timer keeps running during a pause and [paused_elapsed_] holds its
    reading at the pause.  Stopped without a pause, the duration is the
    timer reading plus [pe]. *)
Theorem stop_while_paused_duration (st : State) (t0 pe n a p : Z) :
  accounting st = (true, false, Some t0, pe, n) ->
  0 < rounds_total_ st -> mode_ st <> kZen ->
  map duration_seconds
      (firstn 1 (history_ (run [EvElapse a; EvPause; EvElapse p; EvStop] st)))
  = [Qmake ((n + a + p - t0) + (n + a - t0)) 1000]
  /\ map duration_seconds
         (firstn 1 (history_ (run [EvElapse a; EvStop] st)))
     = [Qmake ((n + a - t0) + pe) 1000].
Proof.
  intros Hacc Hrt Hm.
  assert (Hsaved : forall s,
             0 < rounds_total_ s -> mode_ s <> kZen ->
             map duration_seconds (firstn 1 (history_ (StopTraining s)))
             = [Qmake (elapsed s + paused_elapsed_ s) 1000]).
  { intros s Hs Hms. unfold StopTraining.
    cbn [rounds_total_ mode_ set_countdown_timer_].
    replace (rounds_total_ s >? 0) with true by (symmetry; lia).
    replace (TrainingMode_eqb (mode_ s) kZen) with false
      by (destruct (mode_ s); try reflexivity; congruence).
    cbn [andb negb]. cbn [history_ set_target_label_ UpdateErrorLabel
                            set_error_label_ set_paused_ set_training_
                            SaveSessionRecord set_history_].
    unfold prepend_record. rewrite keep_recent_firstn.
    unfold kMaxHistoryRecords. reflexivity. }
  pose proof (accounting_inv _ _ _ _ _ _ Hacc) as (Htr & Hpa & Hel & Hpe & Hn).
  set (s1 := step (EvElapse a) st).
  assert (H1 : accounting s1 = (true, false, Some t0, pe, n + a)).
  { subst s1. rewrite accounting_elapse, Htr, Hpa, Hel, Hpe, Hn. reflexivity. }
  assert (Hk1 : rounds_total_ s1 = rounds_total_ st /\ mode_ s1 = mode_ st)
    by (split; reflexivity).
  split.
  - set (s2 := step EvPause s1).
    pose proof (accounting_pause s1 t0 pe (n + a) H1) as H2. fold s2 in H2.
    assert (Hk2 : rounds_total_ s2 = rounds_total_ st /\ mode_ s2 = mode_ st).
    { subst s2. cbn [step]. unfold PauseTraining.
      destruct (negb (training_ s1) || paused_ s1); split; reflexivity. }
    set (s3 := step (EvElapse p) s2).
    assert (H3 : accounting s3
                 = (true, true, Some t0, n + a - t0, n + a + p)).
    { subst s3. rewrite accounting_elapse.
      apply accounting_inv in H2 as (-> & -> & -> & -> & ->). reflexivity. }
    assert (Hk3 : rounds_total_ s3 = rounds_total_ st /\ mode_ s3 = mode_ st)
      by exact Hk2.
    change (run [EvElapse a; EvPause; EvElapse p; EvStop] st)
      with (StopTraining s3).
    destruct Hk3 as [Hr3 Hm3].
    rewrite Hsaved by (rewrite ?Hr3, ?Hm3; assumption).
    apply accounting_inv in H3 as (_ & _ & Hel3 & Hpe3 & Hn3).
    unfold elapsed. rewrite Hel3, Hpe3, Hn3. reflexivity.
  - change (run [EvElapse a; EvStop] st) with (StopTraining s1).
    destruct Hk1 as [Hr1 Hm1].
    rewrite Hsaved by (rewrite ?Hr1, ?Hm1; assumption).
    apply accounting_inv in H1 as (_ & _ & Hel1 & Hpe1 & Hn1).
    unfold elapsed. rewrite Hel1, Hpe1, Hn1. reflexivity.
Qed.

Lemma stop_while_paused_duration_witness :
  let st := run [key_1] endless_session in
  map duration_seconds
      (firstn 1 (history_ (run [EvElapse 5000; EvPause; EvElapse 3000;
                                EvStop] st)))
  = [Qmake 13000 1000].
Proof.
  intros st.
  refine (proj1 (stop_while_paused_duration st 0 0 0 5000 3000 _ _ _)).
  - vm_compute. reflexivity.
  - vm_compute. reflexivity.
  - vm_compute. discriminate.
Defined.

(** ** More on the difficulty filter *)

Lemma select_items_In (d : Difficulty) (c : CustomToggles)
      (all : list TrainingItem) (item : TrainingItem) :
  In item (select_items d c all) <-> In item all /\ include d c item = true.
Proof.
  induction all as [|x all IH]; cbn [select_items In].
  - tauto.
  - destruct (include d c x) eqn:Hx; cbn [In]; rewrite IH.
    + split.
      * intros [-> | [H1 H2]]; [split; [now left | exact Hx] | tauto].
      * intros [[-> | H1] H2]; [now left | tauto].
    + split.
      * intros [H1 H2]. tauto.
      * intros [[-> | H1] H2]; [congruence | tauto].
Qed.

Lemma select_items_sublist (d : Difficulty) (c : CustomToggles)
      (all : list TrainingItem) :
  select_items d c all = List.filter (include d c) all.
Proof.
  induction all as [|x all IH]; cbn [select_items List.filter];
    [reflexivity|].
  destruct (include d c x); rewrite IH; reflexivity.
Qed.

(** The working set computed by the filter consists of catalog items in
    catalog order.  An item of the catalog is in it exactly when the rule
    of the difficulty selects it, or when the rule selects nothing at all -
    then the fallback puts every item in, those of disabled kinds too. *)
Theorem filter_items_membership (d : Difficulty) (c : CustomToggles)
        (all : list TrainingItem) (item : TrainingItem) :
  (In item (filter_items d c all)
   <-> In item all
       /\ (include d c item = true
           \/ forall x, In x all -> include d c x = false))
  /\ (filter_items d c all = List.filter (include d c) all
      \/ filter_items d c all = all).
Proof.
  destruct (filter_items_cases d c all) as [[Hsel Hf] | [Hsel Hf]];
    rewrite Hf.
  - assert (Hnone : forall x, In x all -> include d c x = false).
    { intros x Hx. destruct (include d c x) eqn:Hi; [|reflexivity].
      assert (Hin : In x (select_items d c all))
        by (apply select_items_In; split; assumption).
      rewrite Hsel in Hin. contradiction. }
    split; [|now right]. split.
    + intros Hin. split; [exact Hin | right; exact Hnone].
    + intros [Hin _]. exact Hin.
  - split; [|left; apply select_items_sublist].
    rewrite select_items_In. split.
    + intros [Hin Hi]. split; [exact Hin | now left].
    + intros [Hin [Hi | Hnone]]; [split; assumption|].
      exfalso. apply Hsel.
      destruct (select_items d c all) as [|x xs] eqn:E; [reflexivity|].
      assert (Hx : In x (select_items d c all)) by (rewrite E; now left).
      apply select_items_In in Hx as [Hx Hix].
      rewrite (Hnone x Hx) in Hix. discriminate.
Qed.

(** The ordered tiers are nested and ignore the custom toggles: on a
    catalog with at least one Beginner item, every item of the Beginner
    working set is in the Intermediate one, and the Advanced working set
    is the whole catalog. *)
Theorem filter_tiers_nested (c c' : CustomToggles)
        (all : list TrainingItem) (b : TrainingItem) :
  In b all -> min_difficulty b = kBeginner ->
  incl (filter_items kBeginner c all) (filter_items kIntermediate c' all)
  /\ incl (filter_items kIntermediate c all) (filter_items kAdvanced c' all)
  /\ filter_items kAdvanced c all = all
  /\ filter_items kBeginner c all = filter_items kBeginner c' all
  /\ filter_items kIntermediate c all = filter_items kIntermediate c' all.
Proof.
  intros Hb Hmin.
  assert (Hadv : forall t, filter_items kAdvanced t all = all).
  { intros t. destruct (filter_items_cases kAdvanced t all)
      as [[_ Hf] | [_ Hf]]; rewrite Hf; [reflexivity|].
    rewrite select_items_sublist. cbn [include].
    clear. induction all as [|x l IH]; cbn; [reflexivity|].
    rewrite IH. reflexivity. }
  assert (Hsel : forall d t t', d <> kCustom ->
             select_items d t all = select_items d t' all).
  { intros d t t' Hd. rewrite !select_items_sublist.
    apply filter_ext. intros x.
    destruct d; try reflexivity. contradiction. }
  assert (Hfil : forall d t t', d <> kCustom ->
             filter_items d t all = filter_items d t' all).
  { intros d t t' Hd. unfold filter_items. rewrite (Hsel d t t' Hd).
    reflexivity. }
  assert (HinB : forall t, In b (select_items kBeginner t all)).
  { intros t. apply select_items_In. split; [exact Hb|].
    cbn [include]. rewrite Hmin. reflexivity. }
  assert (HinI : forall t, In b (select_items kIntermediate t all)).
  { intros t. apply select_items_In. split; [exact Hb|].
    cbn [include]. rewrite Hmin. reflexivity. }
  assert (HfB : forall t, filter_items kBeginner t all
                          = select_items kBeginner t all).
  { intros t. destruct (filter_items_cases kBeginner t all)
      as [[He _] | [_ Hf]]; [|exact Hf].
    specialize (HinB t). rewrite He in HinB. contradiction. }
  assert (HfI : forall t, filter_items kIntermediate t all
                          = select_items kIntermediate t all).
  { intros t. destruct (filter_items_cases kIntermediate t all)
      as [[He _] | [_ Hf]]; [|exact Hf].
    specialize (HinI t). rewrite He in HinI. contradiction. }
  split; [|split; [|split; [|split]]].
  - intros x Hx. rewrite HfB in Hx. rewrite HfI.
    apply select_items_In in Hx as [Hx Hi]. apply select_items_In.
    split; [exact Hx|]. cbn [include] in Hi |- *. rewrite Hi. reflexivity.
  - intros x Hx. rewrite HfI in Hx. rewrite Hadv.
    apply select_items_In in Hx as [Hx _]. exact Hx.
  - apply Hadv.
  - apply Hfil. discriminate.
  - apply Hfil. discriminate.
Qed.

Lemma filter_tiers_nested_witness :
  incl (filter_items kBeginner (all_toggles false) InitAllTrainingItems)
       (filter_items kIntermediate (all_toggles true) InitAllTrainingItems)
  /\ filter_items kAdvanced (all_toggles false) InitAllTrainingItems
     = InitAllTrainingItems.
Proof.
  destruct (filter_tiers_nested
              (all_toggles false) (all_toggles true) InitAllTrainingItems
              (MakeSingleKey "1"%char kBeginner))
    as (H1 & _ & H3 & _).
  - left. reflexivity.
  - reflexivity.
  - split; [exact H1 | exact H3].
Defined.

(** ** Starting a session *)

(** The start button.  With a working set (or a catalog to take one from)
    it begins a fresh session: both counters at zero, running and not
    paused, position 0, a current item inside the working set, the elapsed
    time accounting at zero - and it never writes to the history.  With
    neither, it changes nothing about the session. *)
Theorem start_training_effect (rnd : Z) (st : State) :
  (all_items_ st <> [] ->
   let st' := StartTraining rnd st in
   training_ st' = true /\ paused_ st' = false
   /\ rounds_total_ st' = 0 /\ rounds_correct_ st' = 0
   /\ sequence_pos_ st' = 0
   /\ 0 <= current_index_ st' < items_size st'
   /\ UpdateStatsLabel_ms st' = 0
   /\ history_ st' = history_ st)
  /\ (all_items_ st = [] -> items_ st = [] ->
      round_state (StartTraining rnd st) = round_state st
      /\ ctl (StartTraining rnd st) = ctl st
      /\ history_ (StartTraining rnd st) = history_ st).
Proof.
  split.
  - intros Hall st'.
    pose proof (StartTraining_fresh rnd st Hall) as Hf.
    unfold session_fields in Hf.
    remember (ctl (StartTraining rnd st)) as c eqn:Ec.
    injection Hf as Hc Hrt Hrc Hpe Hel Hn Hh. subst c.
    apply ctl_eq_inv in Hc as (_ & _ & _ & Htr & Hpa & _).
    assert (Hrs : exists items,
               items <> []
               /\ round_state st'
                  = (items, bounded rnd (Z.of_nat (List.length items)),
                     0, 0, 0)).
    { subst st'. unfold StartTraining.
      pose proof (items_after_filter st Hall) as He. rewrite He.
      set (st0 := if items_isEmpty st then FilterItemsByDifficulty st
                  else st) in *.
      assert (Hne : items_ st0 <> []).
      { unfold items_isEmpty in He. destruct (items_ st0); [discriminate|].
        discriminate. }
      exists (items_ st0). split; [exact Hne|].
      match goal with |- round_state (NextItem rnd ?s) = _ =>
        assert (Hi : items_ s = items_ st0)
          by (destruct (mode_ _); reflexivity);
        rewrite (round_state_NextItem rnd s) by (rewrite Hi; exact Hne);
        unfold items_size; rewrite Hi;
        assert (Hx : rounds_total_ s = 0 /\ rounds_correct_ s = 0)
          by (destruct (mode_ _); split; reflexivity);
        destruct Hx as [-> ->]
      end.
      reflexivity. }
    destruct Hrs as (items & Hne & Hrs).
    unfold round_state in Hrs. injection Hrs as Hi Hx Hp _ _.
    subst st'.
    repeat split; try assumption.
    + rewrite Hx. apply Z.mod_pos_bound.
      destruct items; [contradiction|]. cbn [List.length]. lia.
    + rewrite Hx. unfold items_size. rewrite Hi. apply Z.mod_pos_bound.
      destruct items; [contradiction|]. cbn [List.length]. lia.
    + unfold UpdateStatsLabel_ms, elapsed. rewrite Hel, Hpa, Hn, Hpe. lia.
  - intros Hall Hitems. unfold StartTraining.
    assert (He : items_isEmpty st = true)
      by (unfold items_isEmpty; rewrite Hitems; reflexivity).
    rewrite He.
    assert (He' : items_isEmpty (FilterItemsByDifficulty st) = true).
    { unfold items_isEmpty, FilterItemsByDifficulty, filter_items.
      cbn [items_ set_items_]. rewrite Hall. reflexivity. }
    rewrite He'.
    unfold round_state, FilterItemsByDifficulty, filter_items.
    cbn. rewrite Hall, Hitems. repeat split.
Qed.

Lemma start_training_effect_witness :
  let st := StartTraining 3 (step (EvElapse 700) qwer_half_typed) in
  (rounds_total_ st, rounds_correct_ st, sequence_pos_ st) = (0, 0, 0)
  /\ UpdateStatsLabel_ms st = 0
  /\ history_ st = history_ (step (EvElapse 700) qwer_half_typed).
Proof.
  intros st.
  destruct (start_training_effect
              3 (step (EvElapse 700) qwer_half_typed)) as [H _].
  destruct H as (_ & _ & Ht & Hc & Hp & _ & Hms & Hh).
  - vm_compute. discriminate.
  - subst st. rewrite Ht, Hc, Hp.
    split; [reflexivity|]. split; [exact Hms | exact Hh].
Defined.

(** ** The virtual keyboard *)

Lemma KeyLabel_eta (l : KeyLabel) :
  mkKeyLabel (keyName l) (highlighted l) (modifier l) = l.
Proof. destruct l. reflexivity. Qed.

Lemma fold_set_highlighted (chars : list QChar) :
  forall kb,
    fold_left (fun kb ch =>
                 set_highlighted (String (char_toUpper ch) EmptyString) kb)
              chars kb
    = map (fun l =>
             mkKeyLabel (keyName l)
               (highlighted l
                || existsb (fun ch =>
                              String.eqb (keyName l)
                                (String (char_toUpper ch) EmptyString)) chars)
               (modifier l)) kb.
Proof.
  induction chars as [|c chars IH]; intros kb; cbn [fold_left existsb].
  - rewrite <- (map_id kb) at 1. apply map_ext. intros l.
    rewrite orb_false_r. symmetry. apply KeyLabel_eta.
  - rewrite IH. unfold set_highlighted. rewrite map_map.
    apply map_ext. intros l. cbv beta.
    destruct (String.eqb (keyName l) (String (char_toUpper c) EmptyString))
      eqn:Heq; cbn [keyName highlighted modifier orb].
    + rewrite orb_true_r. reflexivity.
    + reflexivity.
Qed.

(** The whole of [UpdateVirtualKeyboard] as one pass over the labels. *)
Lemma UpdateVirtualKeyboard_map (highlight_keys : QString) (mods : Z)
      (kb : Keyboard) :
  UpdateVirtualKeyboard highlight_keys mods kb
  = map (fun l =>
           mkKeyLabel (keyName l)
             (existsb (fun ch =>
                         String.eqb (keyName l)
                           (String (char_toUpper ch) EmptyString))
                      (list_ascii_of_string highlight_keys))
             ((String.eqb (keyName l) "Ctrl"
               && negb (Z.land mods Qt.ControlModifier =? 0))
              || (String.eqb (keyName l) "Shift"
                  && negb (Z.land mods Qt.ShiftModifier =? 0))
              || (String.eqb (keyName l) "Alt"
                  && negb (Z.land mods Qt.AltModifier =? 0)))) kb.
Proof.
  unfold UpdateVirtualKeyboard. rewrite fold_set_highlighted.
  destruct (negb (Z.land mods Qt.ControlModifier =? 0));
    destruct (negb (Z.land mods Qt.ShiftModifier =? 0));
    destruct (negb (Z.land mods Qt.AltModifier =? 0));
    unfold set_modifier; rewrite ?map_map; apply map_ext; intros l;
    cbn [keyName highlighted modifier];
    repeat match goal with
      | |- context [String.eqb (keyName l) ?n] =>
          destruct (String.eqb (keyName l) n);
          cbn [keyName highlighted modifier andb orb]
      end;
    reflexivity.
Qed.

(** What [UpdateVirtualKeyboard] lights up.  The labels keep their names;
    a label is highlighted as a target exactly when its name is the single
    upper-cased character of some character of [highlight_keys], so a
    label whose name is not one character long (Space, Tab, Caps, F1 to
    F8, Shift, Ctrl, Alt) is never highlighted as a target, whatever is
    passed; and a label is marked as a modifier exactly when it is Ctrl,
    Shift or Alt and the corresponding bit is set (never for Meta). *)
Theorem keyboard_highlight (highlight_keys : QString) (mods : Z)
        (kb : Keyboard) (l : KeyLabel) :
  map keyName (UpdateVirtualKeyboard highlight_keys mods kb)
  = map keyName kb
  /\ (In l (UpdateVirtualKeyboard highlight_keys mods kb) ->
      (highlighted l = true <->
       exists ch, In ch (list_ascii_of_string highlight_keys)
                  /\ keyName l = String (char_toUpper ch) EmptyString)
      /\ (String.length (keyName l) <> 1%nat -> highlighted l = false)
      /\ (modifier l = true <->
          (keyName l = "Ctrl"%string
           /\ Z.land mods Qt.ControlModifier <> 0)
          \/ (keyName l = "Shift"%string
              /\ Z.land mods Qt.ShiftModifier <> 0)
          \/ (keyName l = "Alt"%string
              /\ Z.land mods Qt.AltModifier <> 0))).
Proof.
  rewrite UpdateVirtualKeyboard_map. split.
  - rewrite map_map. apply map_ext. reflexivity.
  - intros Hin. apply in_map_iff in Hin as (l0 & <- & _).
    cbn [keyName highlighted modifier].
    assert (Hhi : existsb (fun ch =>
                             String.eqb (keyName l0)
                               (String (char_toUpper ch) EmptyString))
                          (list_ascii_of_string highlight_keys) = true
                  <-> exists ch,
                      In ch (list_ascii_of_string highlight_keys)
                      /\ keyName l0 = String (char_toUpper ch) EmptyString).
    { rewrite existsb_exists. split; intros (ch & Hch & Heq); exists ch;
        (split; [exact Hch|]); apply String.eqb_eq; exact Heq. }
    split; [exact Hhi|]. split.
    + intros Hlen. apply not_true_is_false. intros Ht.
      apply Hhi in Ht as (ch & _ & Heq). rewrite Heq in Hlen.
      apply Hlen. reflexivity.
    + rewrite !orb_true_iff, !andb_true_iff, !negb_true_iff,
        !String.eqb_eq, !Z.eqb_neq. tauto.
Qed.

Lemma keyboard_highlight_witness :
  let l := mkKeyLabel "E" true false in
  In l (UpdateVirtualKeyboard "Space" Qt.NoModifier SetupVirtualKeyboard)
  /\ (exists ch, In ch (list_ascii_of_string "Space")
                 /\ keyName l = String (char_toUpper ch) EmptyString)
  /\ modifier l = false.
Proof.
  intros l.
  assert (Hin : In l (UpdateVirtualKeyboard "Space" Qt.NoModifier
                                           SetupVirtualKeyboard)).
  { vm_compute. repeat (first [left; reflexivity | right]). }
  destruct (keyboard_highlight "Space" Qt.NoModifier SetupVirtualKeyboard l)
    as (_ & H).
  destruct (H Hin) as (Hhi & _ & _).
  split; [exact Hin|]. split; [|reflexivity].
  apply Hhi. reflexivity.
Defined.

(** Showing the special key Space lights the keys E, A, S and C (the
    letters of its label that exist on the keyboard); showing Alt+F4 marks
    Alt and lights F and 4. *)
Example keyboard_for_space_and_alt_f4 :
  map keyName
      (List.filter highlighted
         (ShowCurrentItem_keyboard space_session SetupVirtualKeyboard))
  = ["E"; "A"; "S"; "C"]%string
  /\ map keyName
         (List.filter (fun l => highlighted l || modifier l)
            (ShowCurrentItem_keyboard alt_f4_session SetupVirtualKeyboard))
     = ["4"; "F"; "Alt"]%string.
Proof. vm_compute. split; reflexivity. Qed.

(** The display name of a digit or letter key is the one character of
    its key code, already in upper case. *)
Lemma GetKeyDisplayName_letter_digit (k : Z) :
  Qt.Key_0 <= k <= Key_9 \/ Qt.Key_A <= k <= Qt.Key_Z ->
  GetKeyDisplayName k = String (ascii_of_nat (Z.to_nat k)) EmptyString
  /\ char_toUpper (ascii_of_nat (Z.to_nat k)) = ascii_of_nat (Z.to_nat k).
Proof.
  intros Hk.
  assert (Hall :
    forallb (fun n =>
               let k := Z.of_nat n in
               if ((Qt.Key_0 <=? k) && (k <=? Key_9))
                  || ((Qt.Key_A <=? k) && (k <=? Qt.Key_Z))
               then String.eqb (GetKeyDisplayName k)
                               (String (ascii_of_nat n) EmptyString)
                    && Ascii.eqb (char_toUpper (ascii_of_nat n))
                                 (ascii_of_nat n)
               else true)
            (seq 48 43) = true) by (vm_compute; reflexivity).
  rewrite forallb_forall in Hall.
  assert (Hr : (48 <= Z.to_nat k < 48 + 43)%nat).
  { unfold Qt.Key_0, Key_9, Qt.Key_A, Qt.Key_Z in Hk. lia. }
  specialize (Hall (Z.to_nat k) (proj2 (in_seq 43 48 (Z.to_nat k)) Hr)).
  cbv zeta in Hall.
  assert (Hz : Z.of_nat (Z.to_nat k) = k).
  { unfold Qt.Key_0, Key_9, Qt.Key_A, Qt.Key_Z in Hk. lia. }
  rewrite Hz in Hall.
  assert (Hin : ((Qt.Key_0 <=? k) && (k <=? Key_9))
                || ((Qt.Key_A <=? k) && (k <=? Qt.Key_Z)) = true).
  { apply orb_true_iff. rewrite !andb_true_iff, !Z.leb_le. exact Hk. }
  rewrite Hin in Hall. apply andb_true_iff in Hall as [H1 H2].
  split; [apply String.eqb_eq; exact H1 | apply Ascii.eqb_eq; exact H2].
Qed.

(** The key to press for a Combo item on a digit or a letter.  When
    [ShowCurrentItem] shows such an item, the one label it highlights as
    the target is the label named by that digit or letter (if the
    keyboard has it), and the labels it marks as modifiers are those of
    the item's Control, Shift and Alt bits. *)
Theorem combo_target_key_lit (st : State) (item : TrainingItem)
        (kb : Keyboard) (l : KeyLabel) :
  current_item st = Some item -> type item = kCombo ->
  Qt.Key_0 <= key item <= Key_9 \/ Qt.Key_A <= key item <= Qt.Key_Z ->
  In l (ShowCurrentItem_keyboard st kb) ->
  (highlighted l = true
   <-> keyName l = String (ascii_of_nat (Z.to_nat (key item))) EmptyString)
  /\ (modifier l = true
      <-> (keyName l = "Ctrl"%string
           /\ Z.land (modifiers item) Qt.ControlModifier <> 0)
          \/ (keyName l = "Shift"%string
              /\ Z.land (modifiers item) Qt.ShiftModifier <> 0)
          \/ (keyName l = "Alt"%string
              /\ Z.land (modifiers item) Qt.AltModifier <> 0)).
Proof.
  intros Hcur Hty Hk.
  unfold ShowCurrentItem_keyboard. rewrite Hcur.
  unfold ShowCurrentItem_highlight. rewrite Hty. cbn [fst snd].
  destruct (GetKeyDisplayName_letter_digit (key item) Hk) as [Hname Hup].
  rewrite Hname, UpdateVirtualKeyboard_map.
  intros Hin. apply in_map_iff in Hin as (l0 & <- & _).
  cbn [keyName highlighted modifier list_ascii_of_string existsb].
  rewrite Hup, orb_false_r. split.
  - apply String.eqb_eq.
  - rewrite !orb_true_iff, !andb_true_iff, !negb_true_iff,
      !String.eqb_eq, !Z.eqb_neq. tauto.
Qed.

Lemma combo_target_key_lit_witness :
  let kb := ShowCurrentItem_keyboard ctrl_s_session SetupVirtualKeyboard in
  In (mkKeyLabel "S" true false) kb
  /\ In (mkKeyLabel "Ctrl" false true) kb
  /\ forall l, In l kb -> highlighted l = true -> keyName l = "S"%string.
Proof.
  intros kb.
  split; [vm_compute; repeat (first [left; reflexivity | right])|].
  split; [vm_compute; repeat (first [left; reflexivity | right])|].
  intros l Hin Hhi.
  destruct (combo_target_key_lit ctrl_s_session ctrl_s_item
              SetupVirtualKeyboard l) as [H _].
  - vm_compute. reflexivity.
  - reflexivity.
  - right. vm_compute. split; discriminate.
  - exact Hin.
  - apply H in Hhi. exact Hhi.
Defined.

(** ** The timer label *)

(** What a countdown tick writes on the timer label.  In a running Timed
    session with [r >= 0] seconds remaining the tick writes the minutes
    and seconds of [r] - the value before it takes the second off - so
    after every such tick the label is one second ahead of the countdown,
    and the tick that ends the session leaves 00:01 on it.  A tick that
    finds the session paused or over writes nothing. *)
Theorem tick_label_one_second_ahead (st : State) :
  (training_ st = true -> paused_ st = false -> mode_ st = kTimed ->
   0 <= remaining_seconds_ st ->
   exists m s,
     OnTimerTick_timer_label st = Some (m, s)
     /\ 60 * m + s = remaining_seconds_ st /\ 0 <= s < 60 /\ 0 <= m
     /\ remaining_seconds_ (OnTimerTick st) = 60 * m + s - 1)
  /\ (training_ st = false \/ paused_ st = true ->
      OnTimerTick_timer_label st = None).
Proof.
  split.
  - intros Htr Hpa Hm Hr.
    exists (Z.quot (remaining_seconds_ st) 60),
           (Z.rem (remaining_seconds_ st) 60).
    unfold OnTimerTick_timer_label, UpdateTimerLabel.
    rewrite Htr, Hpa, Hm. cbn [negb orb TrainingMode_eqb].
    destruct (OnTimerTick_step st Htr Hpa Hm) as (Hr' & _).
    pose proof (Z.quot_rem' (remaining_seconds_ st) 60) as Hqr.
    pose proof (Z.rem_bound_pos (remaining_seconds_ st) 60 Hr ltac:(lia)).
    pose proof (Z.quot_pos (remaining_seconds_ st) 60 Hr ltac:(lia)).
    repeat split; try lia.
  - intros H. unfold OnTimerTick_timer_label.
    destruct H as [H | H]; rewrite H; [|rewrite orb_true_r]; reflexivity.
Qed.

Lemma tick_label_one_second_ahead_witness :
  let st := run [EvTick; EvTick] (StartTraining 0 timed_window) in
  OnTimerTick_timer_label st = Some (0, 1)
  /\ training_ (OnTimerTick st) = false
  /\ remaining_seconds_ (OnTimerTick st) = 0.
Proof.
  intros st.
  destruct (tick_label_one_second_ahead st) as [H _].
  destruct H as (m & s & Hl & Hsum & Hs & Hm & Hr);
    try (vm_compute; reflexivity).
  - vm_compute. discriminate.
  - assert (Hrem : remaining_seconds_ st = 1) by (vm_compute; reflexivity).
    assert (m = 0 /\ s = 1) as [-> ->] by lia.
    split; [exact Hl|]. split; [vm_compute; reflexivity | exact Hr].
Defined.
